(** * OpeniBank Python SDK: the request execution engine

    A shallow embedding of [sdks/python/openibank/__init__.py]: the
    exception hierarchy, [Config], [TokenResponse] and the [HTTPClient]
    class ([_get_session], [close], [set_access_token], [_ensure_token],
    [_request_token], [_get_headers], [request]).

    Conventions of the embedding.
    - A Python [float] is the number it denotes ([Fin q], [q] a
      rational), an infinity or NaN; the two zeros are one.  [float(s)]
      and the product [retry_delay * (2**attempt)] are rounded to
      binary64 (to nearest, ties to even; overflow gives an infinity).
      Readings of the clock are exact rationals, and so are the sum
      [time.time() + expires_in - 60] on a number and the comparison
      with it: the rounding of that sum, and the [OverflowError] of an
      [int] beyond the range of the floats, are left out.  Python
      [int]s are [Z].
    - Python [str]s are Rocq strings, read as sequences of code points
      below 256.
    - Values the caller passes ([Config] fields, the arguments of
      [request] and of the resources' methods) have the type the source
      annotates; what comes from a server (the bodies of API responses
      and of the token endpoint's answers) is arbitrary JSON.
    - [async] methods run one at a time: an [await] is a call.  The
      outside world (clock, token endpoint, transport) is an oracle
      [Env]; everything the client does to it is recorded in a trace.
      An [await] that never completes ends the computation like an
      exception nothing catches: the outcome [Raise NeverReturns].
    - [logger.warning] itself is left out; the f-string it is given is
      evaluated, and [str(e)] in it can raise.

    The file has the embedding first, then the vocabulary of the
    statements and sample worlds, then the properties. *)

From Stdlib Require Import ZArith QArith String Ascii List Lia.
From stdpp Require Import base gmap strings list pretty.

Set Warnings "-register-all".

(** ** Python values *)

(** A Python [float]. *)
Inductive pyfloat :=
| Fin (q : Q)
| Inf (negative : bool)
| NaN.

(** What [json.loads] produces (and so what [response.json()] returns).
    A [dict] is the list of its items, keys distinct, in insertion
    order. *)
Inductive json :=
| JNull
| JBool (b : bool)
| JInt (z : Z)
| JFloat (x : pyfloat)
| JStr (s : string)
| JList (l : list json)
| JDict (d : list (string * json)).

(** [bool(x)] for a float: zero is the only falsy one. *)
Definition float_truthy (x : pyfloat) : bool :=
  match x with
  | Fin q => negb (Qeq_bool q 0)
  | Inf _ => true
  | NaN => true
  end.

(** [bool(s)] for a string. *)
Definition str_truthy (s : string) : bool :=
  match s with
  | EmptyString => false
  | String _ _ => true
  end.

(** [bool(o)] for an [Optional[str]]. *)
Definition opt_str_truthy (o : option string) : bool :=
  match o with
  | None => false
  | Some s => str_truthy s
  end.

(** [bool(v)] for a JSON value. *)
Definition py_truthy (v : json) : bool :=
  match v with
  | JNull => false
  | JBool b => b
  | JInt z => negb (z =? 0)%Z
  | JFloat x => float_truthy x
  | JStr s => str_truthy s
  | JList l => match l with [] => false | _ :: _ => true end
  | JDict d => match d with [] => false | _ :: _ => true end
  end.

(** [a or b]. *)
Definition py_or (a b : json) : json := if py_truthy a then a else b.

(** Lookup in the items of a dict. *)
Fixpoint items_get (d : list (string * json)) (k : string) : option json :=
  match d with
  | [] => None
  | (k', v) :: d' => if String.eqb k' k then Some v else items_get d' k
  end.

(** ** Binary64 rounding *)

(** [2^e] for an integer [e]. *)
Definition pow2 (e : Z) : Q :=
  if (0 <=? e)%Z then inject_Z (2 ^ e) else Qmake 1 (Z.to_pos (2 ^ (- e))).

(** The integer part of the binary logarithm of [n/d], [n] and [d]
    positive. *)
Definition floor_log2 (n d : Z) : Z :=
  let l := (Z.log2 n - Z.log2 d)%Z in
  if (0 <=? l)%Z then (if (d * 2 ^ l <=? n)%Z then l else l - 1)%Z
  else (if (d <=? n * 2 ^ (- l))%Z then l else l - 1)%Z.

(** The integer nearest to [n/d], the even one of two. *)
Definition round_half_even (n d : Z) : Z :=
  let q := (n / d)%Z in
  match (2 * (n mod d) ?= d)%Z with
  | Lt => q
  | Gt => (q + 1)%Z
  | Eq => if Z.even q then q else (q + 1)%Z
  end.

(** The binary64 value nearest to [n/d], [n] and [d] positive: 53
    bits of mantissa [m] at the exponent [e], which is at least -1074;
    from [2^1024] on the value is infinite. *)
Definition round_pos (n d : Z) : pyfloat :=
  let e := Z.max (floor_log2 n d - 52) (-1074) in
  let m := if (0 <=? e)%Z then round_half_even n (d * 2 ^ e)
           else round_half_even (n * 2 ^ (- e)) d in
  if (971 <? e)%Z || ((e =? 971)%Z && (2 ^ 53 <=? m)%Z) then Inf false
  else Fin (Qred (inject_Z m * pow2 e)).

Definition float_neg (x : pyfloat) : pyfloat :=
  match x with
  | Fin q => Fin (Qopp q)
  | Inf negative => Inf (negb negative)
  | NaN => NaN
  end.

(** The binary64 value nearest to a rational. *)
Definition round_double (q : Q) : pyfloat :=
  match Qnum q with
  | Z0 => Fin 0
  | Zpos n => round_pos (Zpos n) (Zpos (Qden q))
  | Zneg n => float_neg (round_pos (Zpos n) (Zpos (Qden q)))
  end.

(** ** [float(s)] on a string

    CPython's [PyFloat_FromString]: strip white space (the ASCII
    blanks 9 to 13 and 32, and U+0085 and U+00A0, which are turned into
    blanks first), check and drop the underscores (each one between
    two digits), then read either a signed [inf], [infinity] or [nan]
    (any case) or a signed decimal numeral with an optional exponent,
    rounded to the nearest binary64 value; the whole string must be
    used.  [None] stands for [ValueError]. *)

Definition is_space (c : ascii) : bool :=
  let n := nat_of_ascii c in
  ((9 <=? n) && (n <=? 13)) || (n =? 32) || (n =? 133) || (n =? 160).

Definition is_digit (c : ascii) : bool :=
  let n := nat_of_ascii c in (48 <=? n) && (n <=? 57).

Definition digit_val (c : ascii) : Z := Z.of_nat (nat_of_ascii c) - 48.

Definition lower (c : ascii) : ascii :=
  let n := nat_of_ascii c in
  if (65 <=? n) && (n <=? 90) then ascii_of_nat (n + 32) else c.

Fixpoint drop_spaces (l : list ascii) : list ascii :=
  match l with
  | c :: l' => if is_space c then drop_spaces l' else l
  | [] => []
  end.

Definition strip (l : list ascii) : list ascii :=
  rev (drop_spaces (rev (drop_spaces l))).

(** The underscore pass: [prev] is the character before, [None] at the
    start.  Returns the string without its underscores. *)
Fixpoint drop_underscores (prev : option ascii) (l : list ascii)
  : option (list ascii) :=
  let prev_digit := match prev with Some p => is_digit p | None => false end in
  let prev_under :=
    match prev with Some p => Ascii.eqb p "_" | None => false end in
  match l with
  | [] => if prev_under then None else Some []
  | c :: l' =>
      if Ascii.eqb c "_" then
        if prev_digit then drop_underscores (Some c) l' else None
      else if prev_under && negb (is_digit c) then None
      else option_map (cons c) (drop_underscores (Some c) l')
  end.

(** Reads a run of digits: its value continuing [acc], how many there
    were, and the rest. *)
Fixpoint read_digits (acc : Z) (l : list ascii) : Z * nat * list ascii :=
  match l with
  | c :: l' =>
      if is_digit c then
        let '(v, n, r) := read_digits (acc * 10 + digit_val c) l' in
        (v, S n, r)
      else (acc, 0, l)
  | [] => (acc, 0, [])
  end.

Definition read_sign (l : list ascii) : bool * list ascii :=
  match l with
  | c :: l' =>
      if Ascii.eqb c "-" then (true, l')
      else if Ascii.eqb c "+" then (false, l')
      else (false, l)
  | [] => (false, [])
  end.

(** [m * 10^e] as a rational. *)
Definition scale10 (m e : Z) : Q :=
  if (0 <=? e)%Z then inject_Z (m * 10 ^ e)
  else Qmake m (Z.to_pos (10 ^ (- e))).

(** The optional exponent part; the rest must be empty. *)
Definition read_exponent (l : list ascii) : option Z :=
  match l with
  | [] => Some 0%Z
  | c :: l' =>
      if Ascii.eqb (lower c) "e" then
        let '(neg, l1) := read_sign l' in
        match read_digits 0 l1 with
        | (_, O, _) => None
        | (v, S _, []) => Some (if neg then - v else v)%Z
        | (_, S _, _ :: _) => None
        end
      else None
  end.

Definition read_decimal (l : list ascii) : option Q :=
  let '(ip, ni, l1) := read_digits 0 l in
  let '(m, nf, l2) :=
    match l1 with
    | c :: l1' =>
        if Ascii.eqb c "." then read_digits ip l1' else (ip, 0, l1)
    | [] => (ip, 0, [])
    end in
  match ni + nf with
  | O => None
  | S _ =>
      match read_exponent l2 with
      | Some e => Some (scale10 m (e - Z.of_nat nf))
      | None => None
      end
  end.

Definition py_float (s : string) : option pyfloat :=
  match drop_underscores None (strip (list_ascii_of_string s)) with
  | None => None
  | Some l =>
      let '(neg, body) := read_sign l in
      let word := string_of_list_ascii (map lower body) in
      if String.eqb word "inf" || String.eqb word "infinity" then
        Some (Inf neg)
      else if String.eqb word "nan" then Some NaN
      else
        match read_decimal body with
        | Some q => Some (round_double (if neg then Qopp q else q))
        | None => None
        end
  end.

(** ** Exceptions *)

(** The fields every [OpeniBankError] carries.  [message] and [code]
    hold whatever the response body held under those keys. *)
Record ErrorFields := {
  message : json;
  code : json;
  status_code : option Z;
  request_id : option string;
  details : json;
}.

(** [ValidationError.FieldError]. *)
Module FieldError.
Record t := { field : json; message : json; code : json }.
End FieldError.

(** The exception classes of the SDK, one constructor per class;
    [OpeniBankError] is a direct instance of the base class. *)
Inductive SdkError :=
| OpeniBankError (b : ErrorFields)
| AuthenticationError (b : ErrorFields)
| AuthorizationError (b : ErrorFields) (required_scopes : json)
| ValidationError (b : ErrorFields) (errors : list FieldError.t)
| NotFoundError (b : ErrorFields) (resource_type resource_id : json)
| RateLimitError (b : ErrorFields) (retry_after : pyfloat)
| ConflictError (b : ErrorFields)
| ServerError (b : ErrorFields)
| NetworkError (b : ErrorFields).

(** What ends a computation before its [return].  [AioClientError] is
    any instance of [aiohttp.ClientError], [AsyncioTimeoutError] of
    [asyncio.TimeoutError], both with their [str()]; [PyException] is
    an instance of any other subclass of [Exception], [PyBaseException]
    of a class outside [Exception] (such as [CancelledError]).
    [NeverReturns] is no exception: the [await] the computation has
    reached never completes; no [except] clause sees it. *)
Inductive exn :=
| Sdk (e : SdkError)
| AioClientError (text : string)
| AsyncioTimeoutError (text : string)
| PyException (cls : string)
| PyBaseException (cls : string)
| NeverReturns.

Inductive outcome (A : Type) :=
| Return (a : A)
| Raise (e : exn).
Arguments Return {A} a.
Arguments Raise {A} e.

(** [OpeniBankError.__init__]. *)
Definition init_fields (message code : json) (status_code : option Z)
    (request_id : option string) (details : json) : ErrorFields :=
  {| message := message; code := code; status_code := status_code;
     request_id := request_id; details := py_or details (JDict []) |}.

(** An error built from a message alone, as in [NetworkError(text)]. *)
Definition fields_of_message (text : string) : ErrorFields :=
  init_fields (JStr text) JNull None None JNull.

(** [AuthorizationError.__init__]. *)
Definition new_AuthorizationError (b : ErrorFields) (required_scopes : json)
  : SdkError :=
  AuthorizationError b (py_or required_scopes (JList [])).

(** One element of the comprehension in [ValidationError.__init__]:
    [e.get] exists on a dict only. *)
Definition field_error (e : json) : outcome FieldError.t :=
  match e with
  | JDict d =>
      Return {| FieldError.field := default (JStr "unknown") (items_get d "field");
                FieldError.message := default (JStr "") (items_get d "message");
                FieldError.code := default JNull (items_get d "code") |}
  | _ => Raise (PyException "AttributeError")
  end.

Fixpoint field_errors (l : list json) : outcome (list FieldError.t) :=
  match l with
  | [] => Return []
  | e :: l' =>
      match field_error e with
      | Raise x => Raise x
      | Return fe =>
          match field_errors l' with
          | Raise x => Raise x
          | Return fes => Return (fe :: fes)
          end
      end
  end.

(** [ValidationError.__init__]: iterates [errors or []].  Iterating a
    dict yields its keys and iterating a string its characters, all
    strings, which have no [get]; a number is not iterable. *)
Definition new_ValidationError (b : ErrorFields) (errors : json)
  : outcome SdkError :=
  match py_or errors (JList []) with
  | JList l =>
      match field_errors l with
      | Return fes => Return (ValidationError b fes)
      | Raise x => Raise x
      end
  | JDict _ | JStr _ => Raise (PyException "AttributeError")
  | JNull | JBool _ | JInt _ | JFloat _ => Raise (PyException "TypeError")
  end.

(** [RateLimitError.__init__]: [retry_after or 60.0]. *)
Definition new_RateLimitError (b : ErrorFields) (retry_after : option pyfloat)
  : SdkError :=
  RateLimitError b
    match retry_after with
    | Some x => if float_truthy x then x else Fin 60
    | None => Fin 60
    end.

(** [OpeniBankError.__str__], up to the text it returns: [" ".join]
    raises [TypeError] unless the message is a string. *)
Definition fields_str (b : ErrorFields) : outcome unit :=
  match message b with
  | JStr _ => Return tt
  | _ => Raise (PyException "TypeError")
  end.

(** ** Responses *)

(** An [aiohttp.ClientResponse]: the status, the headers, and what
    awaiting [response.json()] and [response.text()] does. *)
Record Response := {
  status : Z;
  headers : list (string * string);
  json_body : outcome json;
  text_body : outcome string;
}.

Definition lower_string (s : string) : string :=
  string_of_list_ascii (map lower (list_ascii_of_string s)).

(** [response.headers.get(name)]: the headers are a case-insensitive
    multidict, [get] returns the first value under the name. *)
Fixpoint headers_get (h : list (string * string)) (name : string)
  : option string :=
  match h with
  | [] => None
  | (k, v) :: h' =>
      if String.eqb (lower_string k) (lower_string name) then Some v
      else headers_get h' name
  end.

(** [error_data.get(key, default)]: only a dict has [get]. *)
Definition py_get (v : json) (key : string) (dflt : json) : outcome json :=
  match v with
  | JDict d => Return (default dflt (items_get d key))
  | _ => Raise (PyException "AttributeError")
  end.

(** [except Exception] catches every exception but a
    [PyBaseException]. *)
Definition is_Exception (e : exn) : bool :=
  match e with
  | PyBaseException _ | NeverReturns => false
  | _ => true
  end.

(** Lines 697-700: the body as JSON, or a dict holding the raw text. *)
Definition read_error_data (r : Response) : outcome json :=
  match json_body r with
  | Return v => Return v
  | Raise e =>
      if is_Exception e then
        match text_body r with
        | Return t => Return (JDict [("message", JStr t)])
        | Raise e' => Raise e'
        end
      else Raise e
  end.

(** Lines 688-768, the body of the [async with] block: what one
    response turns into. *)
Definition handle_response (r : Response) : outcome json :=
  let request_id := headers_get (headers r) "X-Request-ID" in
  if (status r =? 200)%Z || (status r =? 201)%Z then json_body r
  else if (status r =? 204)%Z then Return (JDict [])
  else
    match read_error_data r with
    | Raise e => Raise e
    | Return error_data =>
    match py_get error_data "message" (JStr "Unknown error") with
    | Raise e => Raise e
    | Return error_message =>
    match py_get error_data "code" JNull with
    | Raise e => Raise e
    | Return error_code =>
      let b := init_fields error_message error_code (Some (status r))
                 request_id JNull in
      let field k := default JNull (match error_data with
                                   | JDict d => items_get d k
                                   | _ => None
                                   end) in
      if (status r =? 401)%Z then Raise (Sdk (AuthenticationError b))
      else if (status r =? 403)%Z then
        Raise (Sdk (new_AuthorizationError b (field "required_scopes")))
      else if (status r =? 400)%Z then
        match new_ValidationError b (field "errors") with
        | Return e => Raise (Sdk e)
        | Raise x => Raise x
        end
      else if (status r =? 404)%Z then
        Raise (Sdk (NotFoundError b (field "resource_type")
                      (field "resource_id")))
      else if (status r =? 409)%Z then Raise (Sdk (ConflictError b))
      else if (status r =? 429)%Z then
        match py_float (default "60" (headers_get (headers r) "Retry-After")) with
        | None => Raise (PyException "ValueError")
        | Some retry_after =>
            Raise (Sdk (new_RateLimitError b (Some retry_after)))
        end
      else if (500 <=? status r)%Z then Raise (Sdk (ServerError b))
      else Raise (Sdk (OpeniBankError b))
    end end end.

(** ** Configuration and token response *)

Record Config := {
  client_id : string;
  client_secret : string;
  api_key : option string;
  environment : string;
  api_version : string;
  timeout : Q;
  max_retries : Z;
  retry_delay : pyfloat;
  auto_refresh : bool;
  debug : bool;
}.

Definition base_url (c : Config) : string :=
  if String.eqb (environment c) "production" then "https://api.openibank.com"
  else "https://sandbox.openibank.com".

Definition __version__ : string := "1.0.0".

(** The [TokenResponse] dataclass; its fields hold what the body
    held, of whatever type. *)
Record TokenResponse := {
  access_token : json;
  token_type : json;
  expires_in : json;
  refresh_token : json;
  scope : json;
}.

(** [TokenResponse.from_dict]: [data["access_token"]] needs a dict
    with the key. *)
Definition from_dict (data : json) : outcome TokenResponse :=
  match data with
  | JDict d =>
      match items_get d "access_token" with
      | None => Raise (PyException "KeyError")
      | Some tok =>
          Return {| access_token := tok;
                    token_type := default (JStr "Bearer") (items_get d "token_type");
                    expires_in := default (JInt 3600) (items_get d "expires_in");
                    refresh_token := default JNull (items_get d "refresh_token");
                    scope := default JNull (items_get d "scope") |}
      end
  | _ => Raise (PyException "TypeError")
  end.

(** ** The client, the world around it, and the trace *)

(** An [aiohttp.ClientSession] object.  Sessions live in a heap and are
    referred to by their index: the caller and the client may hold the
    same one. *)
Record ClientSession := {
  closed : bool;
  session_timeout : option Q;
}.

(** The fields of an [HTTPClient].  [_access_token] holds [None], a
    string the caller set, or whatever the token endpoint sent. *)
Record HTTPClient := {
  config : Config;
  _session : option nat;
  _owned_session : bool;
  _access_token : json;
  _token_expires_at : pyfloat;
}.

(** The arguments of one [session.request] call. *)
Record HttpRequest := {
  rq_method : string;
  rq_url : string;
  rq_params : option (gmap string json);
  rq_json : option json;
  rq_headers : gmap string string;
}.

Inductive Event :=
| EvPost (session : nat) (url : string) (data : list (string * string))
| EvRequest (session : nat) (rq : HttpRequest)
| EvSleep (delay : pyfloat).

Inductive TransportResult :=
| Raises (e : exn)
| Responds (r : Response).

(** What [session.post] does: it raises, or gives a response with its
    status and what awaiting [response.json()] does. *)
Inductive PostResult :=
| PostRaises (e : exn)
| PostResponds (status : Z) (body : outcome json).

(** What the model does not compute.  The outside world: the [k]-th
    reading of [time.time()], the answer to the [k]-th [session.post]
    and to the [k]-th [session.request].  And of the interpreter, the
    text [str()] gives a float, a list or a dict ([text_of]): any
    function. *)
Record Env := {
  clock : nat -> Q;
  token_endpoint : nat -> PostResult;
  transport : nat -> HttpRequest -> TransportResult;
  text_of : json -> string;
}.

Record World := {
  self : HTTPClient;
  sessions : list ClientSession;
  clock_reads : nat;
  posts : nat;
  requests : nat;
  trace : list Event;
}.

(** Computations: state passing, the state survives an exception. *)
Definition M (A : Type) : Type := World -> outcome A * World.

Definition ret {A} (a : A) : M A := fun w => (Return a, w).
Definition raise {A} (e : exn) : M A := fun w => (Raise e, w).
Definition bind {A B} (m : M A) (k : A -> M B) : M B :=
  fun w =>
    match m w with
    | (Return a, w') => k a w'
    | (Raise e, w') => (Raise e, w')
    end.

Notation "x <- m ;; k" := (bind m (fun x => k))
  (at level 100, m at next level, right associativity).
Notation "m ;;; k" := (bind m (fun _ => k))
  (at level 100, right associativity).

Definition get_self : M HTTPClient := fun w => (Return (self w), w).

(** An assignment to fields of [self]. *)
Definition update_self (f : HTTPClient -> HTTPClient) : M unit :=
  fun w =>
    (Return tt,
     {| self := f (self w); sessions := sessions w;
        clock_reads := clock_reads w; posts := posts w;
        requests := requests w; trace := trace w |}).

(** [self._session = v]. *)
Definition assign_session (v : option nat) : M unit :=
  update_self (fun c =>
    {| config := config c; _session := v;
       _owned_session := _owned_session c;
       _access_token := _access_token c;
       _token_expires_at := _token_expires_at c |}).

(** [self._owned_session = v]. *)
Definition assign_owned_session (v : bool) : M unit :=
  update_self (fun c =>
    {| config := config c; _session := _session c;
       _owned_session := v;
       _access_token := _access_token c;
       _token_expires_at := _token_expires_at c |}).

(** [self._access_token = v]. *)
Definition assign_access_token (v : json) : M unit :=
  update_self (fun c =>
    {| config := config c; _session := _session c;
       _owned_session := _owned_session c;
       _access_token := v;
       _token_expires_at := _token_expires_at c |}).

(** [self._token_expires_at = v]. *)
Definition assign_token_expires_at (v : pyfloat) : M unit :=
  update_self (fun c =>
    {| config := config c; _session := _session c;
       _owned_session := _owned_session c;
       _access_token := _access_token c;
       _token_expires_at := v |}).

Definition emit (ev : Event) (w : World) : World :=
  {| self := self w; sessions := sessions w; clock_reads := clock_reads w;
     posts := posts w; requests := requests w; trace := trace w ++ [ev] |}.

(** [time.time()]. *)
Definition time_time (env : Env) : M Q :=
  fun w =>
    (Return (clock env (clock_reads w)),
     {| self := self w; sessions := sessions w;
        clock_reads := S (clock_reads w);
        posts := posts w; requests := requests w; trace := trace w |}).

(** Whether [asyncio.sleep(delay)] completes: at once when [delay <= 0],
    after [delay] seconds when it is positive and finite.  A timer set
    at infinity never fires, and up to Python 3.12 neither does one
    set at NaN. *)
Definition sleep_returns (delay : pyfloat) : bool :=
  match delay with
  | Fin _ => true
  | Inf negative => negative
  | NaN => false
  end.

(** [await asyncio.sleep(delay)]: the delay asked for is recorded. *)
Definition sleep (delay : pyfloat) : M unit :=
  fun w =>
    (if sleep_returns delay then Return tt else Raise NeverReturns,
     emit (EvSleep delay) w).

(** A computation without effect. *)
Definition lift {A} (o : outcome A) : M A := fun w => (o, w).

(** [session.closed]; a reference in use is always in the heap. *)
Definition session_closed (w : World) (i : nat) : bool :=
  match sessions w !! i with
  | Some s => closed s
  | None => true
  end.

(** [aiohttp.ClientSession(timeout=timeout)]: a new object. *)
Definition new_session (t : Q) : M nat :=
  fun w =>
    (Return (length (sessions w)),
     {| self := self w;
        sessions := sessions w ++ [ {| closed := false; session_timeout := Some t |} ];
        clock_reads := clock_reads w; posts := posts w;
        requests := requests w; trace := trace w |}).

(** [await session.close()]. *)
Definition session_close (i : nat) : M unit :=
  fun w =>
    (Return tt,
     {| self := self w;
        sessions :=
          match sessions w !! i with
          | Some s =>
              <[ i := {| closed := true; session_timeout := session_timeout s |} ]>
                (sessions w)
          | None => sessions w
          end;
        clock_reads := clock_reads w; posts := posts w;
        requests := requests w; trace := trace w |}).

(** ** [HTTPClient] *)

(** [HTTPClient.__init__] ([aiohttp] being installed). *)
Definition __init__ (config : Config) (session : option nat) : HTTPClient :=
  {| config := config;
     _session := session;
     _owned_session := match session with None => true | Some _ => false end;
     _access_token := JNull;
     _token_expires_at := Fin 0 |}.

(** The session held, when there is one and it is open. *)
Definition open_session (w : World) : option nat :=
  match _session (self w) with
  | None => None
  | Some i => if session_closed w i then None else Some i
  end.

(** Returns [self._session]: the open session held, or the one just
    made and assigned. *)
Definition _get_session : M nat :=
  fun w =>
    match open_session w with
    | Some i => (Return i, w)
    | None =>
        (i <- new_session (timeout (config (self w))) ;;
         assign_session (Some i) ;;;
         assign_owned_session true ;;;
         ret i) w
    end.

Definition close : M unit :=
  c <- get_self ;;
  match _session c with
  | Some i =>
      if _owned_session c then session_close i ;;; assign_session None
      else ret tt
  | None => ret tt
  end.

(** [now + expires_in - 60]: a number can be added to a float,
    nothing else ([TypeError]). *)
Definition expiry (now : Q) (expires_in : json) : outcome pyfloat :=
  match expires_in with
  | JInt z => Return (Fin (now + inject_Z z - 60))
  | JBool b => Return (Fin (now + (if b then 1 else 0) - 60))
  | JFloat (Fin q) => Return (Fin (now + q - 60))
  | JFloat (Inf negative) => Return (Inf negative)
  | JFloat NaN => Return NaN
  | JNull | JStr _ | JList _ | JDict _ => Raise (PyException "TypeError")
  end.

(** [set_access_token]: the token is assigned before the expiry is
    computed.  A caller passes a [str] and an [int], [_ensure_token]
    what the token endpoint sent. *)
Definition set_access_token (env : Env) (token expires_in : json) : M unit :=
  assign_access_token token ;;;
  now <- time_time env ;;
  expires_at <- lift (expiry now expires_in) ;;
  assign_token_expires_at expires_at.

(** [session.post(url, data=...)] on the token endpoint. *)
Definition post (env : Env) (session : nat) (url : string)
    (data : list (string * string)) : M (Z * outcome json) :=
  fun w =>
    let w' :=
      {| self := self w; sessions := sessions w; clock_reads := clock_reads w;
         posts := S (posts w); requests := requests w;
         trace := trace w ++ [EvPost session url data] |} in
    match token_endpoint env (posts w) with
    | PostRaises e => (Raise e, w')
    | PostResponds st body => (Return (st, body), w')
    end.

Definition _request_token (env : Env) : M TokenResponse :=
  session <- _get_session ;;
  c <- get_self ;;
  let url := base_url (config c) +:+ "/oauth/token" in
  r <- post env session url
         [("grant_type", "client_credentials");
          ("client_id", client_id (config c));
          ("client_secret", client_secret (config c))] ;;
  let '(st, body) := r in
  if negb (st =? 200)%Z then
    raise (Sdk (AuthenticationError
                  (fields_of_message
                     ("Failed to obtain access token: " +:+ pretty st))))
  else
    match body with
    | Raise e => raise e
    | Return data =>
        match from_dict data with
        | Raise e => raise e
        | Return t => ret t
        end
    end.

(** [now < expires_at]. *)
Definition before (now : Q) (expires_at : pyfloat) : bool :=
  match expires_at with
  | Fin q => negb (Qle_bool q now)
  | Inf negative => negb negative
  | NaN => false
  end.

(** The test [self._access_token and time.time() < self._token_expires_at]:
    the clock is read only when a truthy token is held. *)
Definition token_fresh (env : Env) : M bool :=
  c <- get_self ;;
  if py_truthy (_access_token c) then
    now <- time_time env ;;
    ret (before now (_token_expires_at c))
  else ret false.

(** An [Optional[str]] as a value. *)
Definition json_of_opt_str (o : option string) : json :=
  match o with
  | Some s => JStr s
  | None => JNull
  end.

(** The value returned is the one held in the field or in the
    configuration. *)
Definition _ensure_token (env : Env) : M json :=
  fresh <- token_fresh env ;;
  c <- get_self ;;
  if fresh then ret (_access_token c)
  else if opt_str_truthy (api_key (config c)) then
    ret (json_of_opt_str (api_key (config c)))
  else if str_truthy (client_id (config c))
          && str_truthy (client_secret (config c)) then
    token_response <- _request_token env ;;
    set_access_token env (access_token token_response)
      (expires_in token_response) ;;;
    c <- get_self ;;
    ret (_access_token c)
  else raise (Sdk (AuthenticationError
                     (fields_of_message "No valid credentials configured"))).

(** [str(token)] inside the f-string. *)
Definition format_token (env : Env) (token : json) : string :=
  match token with
  | JStr s => s
  | JNull => "None"
  | JBool true => "True"
  | JBool false => "False"
  | JInt z => pretty z
  | JFloat _ | JList _ | JDict _ => text_of env token
  end.

Definition _get_headers (env : Env) (c : Config) (token : json)
  : gmap string string :=
  {[ "Authorization" := "Bearer " +:+ format_token env token;
     "Content-Type" := "application/json";
     "Accept" := "application/json";
     "X-API-Version" := api_version c;
     "User-Agent" := "OpeniBank-Python/" +:+ __version__ ]}.

(** ** [HTTPClient.request] *)

(** [session.request(...)]: one transport call. *)
Definition send (env : Env) (session : nat) (rq : HttpRequest) : M Response :=
  fun w =>
    let w' :=
      {| self := self w; sessions := sessions w; clock_reads := clock_reads w;
         posts := posts w; requests := S (requests w);
         trace := trace w ++ [EvRequest session rq] |} in
    match transport env (requests w) rq with
    | Raises e => (Raise e, w')
    | Responds r => (Return r, w')
    end.

(** The [try] block of one iteration (lines 680-768). *)
Definition attempt_once (env : Env) (session : nat) (rq : HttpRequest)
  : M json :=
  response <- send env session rq ;;
  fun w => (handle_response response, w).

(** [self.config.retry_delay * (2**attempt)]: the integer is turned
    into a float first, which raises [OverflowError] from [2**1024]
    on; the product is rounded. *)
Definition backoff (c : Config) (attempt : nat) : outcome pyfloat :=
  if 1024 <=? attempt then Raise (PyException "OverflowError")
  else
    Return match retry_delay c with
           | Fin q => round_double (q * inject_Z (2 ^ Z.of_nat attempt))
           | Inf negative => Inf negative
           | NaN => NaN
           end.

(** [attempt < self.config.max_retries - 1]. *)
Definition attempts_remain (c : Config) (attempt : nat) : bool :=
  (Z.of_nat attempt <? max_retries c - 1)%Z.

(** The [for attempt in range(...)] loop with its two [except] clauses
    and the two [raise]s after it (lines 677-798); [range] is what is
    left of [range(self.config.max_retries)].  In a handler the delay
    is computed, then the text of the warning (with [str(e)] for an
    SDK error), then the sleep is awaited. *)
Fixpoint attempts (env : Env) (session : nat) (rq : HttpRequest)
    (range : list nat) (last_error : option exn) : M json :=
  match range with
  | [] =>
      match last_error with
      | Some e => raise e
      | None =>
          raise (Sdk (NetworkError
                        (fields_of_message "Request failed after all retries")))
      end
  | attempt :: rest =>
      fun w =>
        match attempt_once env session rq w with
        | (Return v, w1) => (Return v, w1)
        | (Raise e, w1) =>
            let c := config (self w1) in
            match e with
            | AioClientError text | AsyncioTimeoutError text =>
                let last_error :=
                  Sdk (NetworkError
                         (fields_of_message ("Network error: " +:+ text))) in
                if attempts_remain c attempt then
                  (delay <- lift (backoff c attempt) ;;
                   sleep delay ;;;
                   attempts env session rq rest (Some last_error)) w1
                else (Raise last_error, w1)
            | Sdk (RateLimitError b retry_after) =>
                if attempts_remain c attempt then
                  (lift (fields_str b) ;;;
                   sleep retry_after ;;;
                   attempts env session rq rest (Some e)) w1
                else (Raise e, w1)
            | Sdk (ServerError b) =>
                if attempts_remain c attempt then
                  (delay <- lift (backoff c attempt) ;;
                   lift (fields_str b) ;;;
                   sleep delay ;;;
                   attempts env session rq rest (Some e)) w1
                else (Raise e, w1)
            | _ => (Raise e, w1)
            end
        end
  end.

(** [range(n)]. *)
Definition py_range (n : Z) : list nat := seq 0 (Z.to_nat n).

(** [v is not None]. *)
Definition is_not_None (v : json) : bool :=
  match v with
  | JNull => false
  | _ => true
  end.

(** Lines 674-675: a non-empty [params] loses its [None] values. *)
Definition filter_params (params : option (gmap string json))
  : option (gmap string json) :=
  match params with
  | Some p =>
      match map_to_list p with
      | [] => Some p
      | _ :: _ => Some (filter (fun kv => is_not_None kv.2 = true) p)
      end
  | None => None
  end.

(** Lines 666-669: the headers of the call. *)
Definition request_headers (env : Env) (c : Config) (token : json)
    (idempotency_key : option string) : gmap string string :=
  let headers := _get_headers env c token in
  match idempotency_key with
  | Some k =>
      if str_truthy k then <[ "Idempotency-Key" := k ]> headers else headers
  | None => headers
  end.

Definition request (env : Env) (method path : string)
    (params : option (gmap string json)) (json' : option json)
    (idempotency_key : option string) : M json :=
  session <- _get_session ;;
  token <- _ensure_token env ;;
  c <- get_self ;;
  let headers := request_headers env (config c) token idempotency_key in
  let url := base_url (config c) +:+ "/" +:+ api_version (config c) +:+ path in
  let params := filter_params params in
  attempts env session
    {| rq_method := method; rq_url := url; rq_params := params;
       rq_json := json'; rq_headers := headers |}
    (py_range (max_retries (config c))) None.

(** * Vocabulary of the statements *)

(** The world after one [session.request] call. *)
Definition sent (session : nat) (rq : HttpRequest) (w : World) : World :=
  {| self := self w; sessions := sessions w; clock_reads := clock_reads w;
     posts := posts w; requests := S (requests w);
     trace := trace w ++ [EvRequest session rq] |}.

(** What the [k]-th transport call makes of the [try] block. *)
Definition attempt_result (env : Env) (k : nat) (rq : HttpRequest)
  : outcome json :=
  match transport env k rq with
  | Raises e => Raise e
  | Responds r => handle_response r
  end.

(** The failures the two [except] clauses catch. *)
Definition retryable (e : exn) : bool :=
  match e with
  | AioClientError _ | AsyncioTimeoutError _ => true
  | Sdk (RateLimitError _ _) | Sdk (ServerError _) => true
  | _ => false
  end.

(** The failures that are classified and not retried. *)
Definition terminal (e : exn) : bool :=
  match e with
  | Sdk (AuthenticationError _) | Sdk (AuthorizationError _ _)
  | Sdk (ValidationError _ _) | Sdk (NotFoundError _ _ _)
  | Sdk (ConflictError _) | Sdk (OpeniBankError _) => true
  | _ => false
  end.

(** The error the caller sees for a caught failure: a transport
    failure is wrapped, an SDK error is itself. *)
Definition surfaced (e : exn) : exn :=
  match e with
  | AioClientError text | AsyncioTimeoutError text =>
      Sdk (NetworkError (fields_of_message ("Network error: " +:+ text)))
  | _ => e
  end.

(** What the handler of a caught failure [e] comes to at attempt [i],
    attempts remaining, before it sleeps: the delay it will sleep, or
    the exception raised in computing it or in writing the warning. *)
Definition delay_after (c : Config) (i : nat) (e : exn) : outcome pyfloat :=
  match e with
  | Sdk (RateLimitError b retry_after) =>
      match fields_str b with
      | Return _ => Return retry_after
      | Raise x => Raise x
      end
  | Sdk (ServerError b) =>
      match backoff c i with
      | Return delay =>
          match fields_str b with
          | Return _ => Return delay
          | Raise x => Raise x
          end
      | Raise x => Raise x
      end
  | _ => backoff c i
  end.

(** The handler of [e] at attempt [i] gets through to the next
    attempt: it computes the delay [d] and the sleep returns. *)
Definition retries_after (c : Config) (i : nat) (e : exn) (d : pyfloat)
  : Prop :=
  delay_after c i e = Return d /\ sleep_returns d = true.

(** The events of [k] attempts that are retried, the [j]-th after a
    sleep of [d j]. *)
Fixpoint retry_events (session : nat) (rq : HttpRequest) (d : nat -> pyfloat)
    (k : nat) : list Event :=
  match k with
  | O => []
  | S k' =>
      EvRequest session rq :: EvSleep (d 0)
      :: retry_events session rq (fun j => d (S j)) k'
  end.

(** The exception of the [k]-th attempt, a failed one (the other case
    is never looked at). *)
Definition failure (env : Env) (rq : HttpRequest) (k : nat) : exn :=
  match attempt_result env k rq with
  | Raise e => e
  | Return _ => PyBaseException "none"
  end.

(** The transport calls of a trace, in order. *)
Fixpoint requests_of (t : list Event) : list HttpRequest :=
  match t with
  | [] => []
  | EvRequest _ rq :: t' => rq :: requests_of t'
  | _ :: t' => requests_of t'
  end.

(** The sleeps of a trace, in order. *)
Fixpoint sleeps_of (t : list Event) : list pyfloat :=
  match t with
  | [] => []
  | EvSleep d :: t' => d :: sleeps_of t'
  | _ :: t' => sleeps_of t'
  end.

(** The arguments [request] passes to [session.request]. *)
Definition call_of (env : Env) (c : Config) (method path : string)
    (params : option (gmap string json)) (json' : option json)
    (token : json) (idempotency_key : option string) : HttpRequest :=
  {| rq_method := method;
     rq_url := base_url c +:+ "/" +:+ api_version c +:+ path;
     rq_params := filter_params params;
     rq_json := json';
     rq_headers := request_headers env c token idempotency_key |}.

(** The events of the loop: calls with the one request, and sleeps. *)
Definition loop_event (session : nat) (rq : HttpRequest) (ev : Event) : Prop :=
  ev = EvRequest session rq \/ exists d, ev = EvSleep d.

(** [m] keeps [I] whatever it returns or raises. *)
Definition preserves {A} (I : World -> Prop) (m : M A) : Prop :=
  forall w, I w -> I (snd (m w)).

(** From [w0] on, no [session.request] call was made, the
    configuration was kept, and the trace grew by events that are not
    transport calls. *)
Definition quiet_since (w0 w : World) : Prop :=
  requests w = requests w0
  /\ config (self w) = config (self w0)
  /\ exists evs, trace w = trace w0 ++ evs /\ requests_of evs = [].

(** A token is held and the clock, read now, is before its expiry. *)
Definition is_before (now : Q) (expires_at : pyfloat) : Prop :=
  match expires_at with
  | Fin q => (now < q)%Q
  | Inf negative => negative = false
  | NaN => False
  end.

Definition token_is_fresh (env : Env) (w : World) : Prop :=
  py_truthy (_access_token (self w)) = true
  /\ is_before (clock env (clock_reads w)) (_token_expires_at (self w)).

(** A value that can be added to a float. *)
Definition is_number (v : json) : bool :=
  match v with
  | JInt _ | JBool _ | JFloat _ => true
  | JNull | JStr _ | JList _ | JDict _ => false
  end.

(** The token request of a client configured with [c], posted on
    the session [s]. *)
Definition token_request (c : Config) (s : nat) : Event :=
  EvPost s (base_url c +:+ "/oauth/token")
    [("grant_type", "client_credentials");
     ("client_id", client_id c);
     ("client_secret", client_secret c)].

(** [_ensure_token] after its freshness test said no. *)
Definition after_stale (env : Env) : M json :=
  c <- get_self ;;
  if opt_str_truthy (api_key (config c)) then
    ret (json_of_opt_str (api_key (config c)))
  else if str_truthy (client_id (config c))
          && str_truthy (client_secret (config c)) then
    token_response <- _request_token env ;;
    set_access_token env (access_token token_response)
      (expires_in token_response) ;;;
    c <- get_self ;;
    ret (_access_token c)
  else raise (Sdk (AuthenticationError
                     (fields_of_message "No valid credentials configured"))).

(** What can happen to a client and the sessions around it: its
    methods are called, and a holder of a session closes it. *)
Inductive Op :=
| OpRequest (method path : string) (params : option (gmap string json))
    (json' : option json) (idempotency_key : option string)
| OpSetAccessToken (token : string) (expires_in : Z)
| OpClose
| OpSessionClosed (i : nat).

Definition run_op (env : Env) (op : Op) (w : World) : World :=
  match op with
  | OpRequest method path params json' key =>
      snd (request env method path params json' key w)
  | OpSetAccessToken token expires_in =>
      snd (set_access_token env (JStr token) (JInt expires_in) w)
  | OpClose => snd (close w)
  | OpSessionClosed i => snd (session_close i w)
  end.

Definition run (env : Env) (ops : list Op) (w : World) : World :=
  fold_left (fun w op => run_op env op w) ops w.

(** The client constructed with the session [s], one of [n0] sessions
    then in the heap: either it still holds [s] and does not own it, or
    it owns what it holds, a session made after the construction. *)
Definition supplied_inv (s n0 : nat) (w : World) : Prop :=
  n0 <= length (sessions w)
  /\ ((_owned_session (self w) = false /\ _session (self w) = Some s)
      \/ (_owned_session (self w) = true
          /\ forall i, _session (self w) = Some i -> n0 <= i)).

(** The dict the error fields are read from: the body when it is a
    JSON object, or, when reading it as JSON fails, a dict holding the
    raw text under ["message"]. *)
Definition error_body (r : Response) (d : list (string * json)) : Prop :=
  json_body r = Return (JDict d)
  \/ exists e t,
       json_body r = Raise e /\ is_Exception e = true
       /\ text_body r = Return t /\ d = [("message", JStr t)].

(** The fields every classified error carries. *)
Definition error_fields (r : Response) (d : list (string * json))
  : ErrorFields :=
  {| message := default (JStr "Unknown error") (items_get d "message");
     code := default JNull (items_get d "code");
     status_code := Some (status r);
     request_id := headers_get (headers r) "X-Request-ID";
     details := JDict [] |}.

(** One entry of the body's ["errors"] list as a [FieldError]. *)
Definition field_error_of_items (d : list (string * json)) : FieldError.t :=
  {| FieldError.field := default (JStr "unknown") (items_get d "field");
     FieldError.message := default (JStr "") (items_get d "message");
     FieldError.code := default JNull (items_get d "code") |}.

(** The ["errors"] entry of the body is missing or falsy ([ds] empty),
    or is a list of objects [ds]. *)
Definition errors_entry (d : list (string * json))
    (ds : list (list (string * json))) : Prop :=
  (py_truthy (default JNull (items_get d "errors")) = false /\ ds = [])
  \/ items_get d "errors" = Some (JList (map JDict ds)).

(** * Sample configurations, servers and responses *)

(** [Config()] with its defaults. *)
Definition default_config : Config :=
  {| client_id := ""; client_secret := ""; api_key := None;
     environment := "sandbox"; api_version := "v2"; timeout := 30;
     max_retries := 3; retry_delay := Fin 1; auto_refresh := true;
     debug := false |}.

Definition with_api_key (c : Config) (k : string) : Config :=
  {| client_id := client_id c; client_secret := client_secret c;
     api_key := Some k; environment := environment c;
     api_version := api_version c; timeout := timeout c;
     max_retries := max_retries c; retry_delay := retry_delay c;
     auto_refresh := auto_refresh c; debug := debug c |}.

Definition with_client (c : Config) (id secret : string) : Config :=
  {| client_id := id; client_secret := secret;
     api_key := api_key c; environment := environment c;
     api_version := api_version c; timeout := timeout c;
     max_retries := max_retries c; retry_delay := retry_delay c;
     auto_refresh := auto_refresh c; debug := debug c |}.

Definition with_max_retries (c : Config) (n : Z) : Config :=
  {| client_id := client_id c; client_secret := client_secret c;
     api_key := api_key c; environment := environment c;
     api_version := api_version c; timeout := timeout c;
     max_retries := n; retry_delay := retry_delay c;
     auto_refresh := auto_refresh c; debug := debug c |}.

Definition with_retry_delay (c : Config) (d : pyfloat) : Config :=
  {| client_id := client_id c; client_secret := client_secret c;
     api_key := api_key c; environment := environment c;
     api_version := api_version c; timeout := timeout c;
     max_retries := max_retries c; retry_delay := d;
     auto_refresh := auto_refresh c; debug := debug c |}.

(** [Config(api_key="k", max_retries=1026, retry_delay=0.0)]. *)
Definition patient_config : Config :=
  with_max_retries (with_retry_delay (with_api_key default_config "k") (Fin 0))
    1026.

(** The world just after [HTTPClient(config, session)], the heap
    holding the sessions that exist already. *)
Definition fresh_world (c : Config) (session : option nat)
    (heap : list ClientSession) : World :=
  {| self := __init__ c session; sessions := heap; clock_reads := 0;
     posts := 0; requests := 0; trace := [] |}.

Definition json_response (st : Z) (h : list (string * string)) (body : json)
  : Response :=
  {| status := st; headers := h; json_body := Return body;
     text_body := Return "" |}.

(** A server that is never well: 503, then 429 with [Retry-After: 5],
    then a dropped connection, and so on. *)
Definition failing_env : Env :=
  {| clock := fun _ => 1000%Q;
     token_endpoint := fun _ => PostRaises (AioClientError "unused");
     transport := fun k _ =>
       match k mod 3 with
       | 0 => Responds (json_response 503 [] (JDict [("message", JStr "down")]))
       | 1 => Responds (json_response 429 [("Retry-After", "5")]
                          (JDict [("message", JStr "slow down")]))
       | _ => Raises (AioClientError "Connection reset")
       end;
     text_of := fun _ => "" |}.

(** A server that answers 429 with [Retry-After: 5] once, then 200. *)
Definition recovering_env : Env :=
  {| clock := fun _ => 1000%Q;
     token_endpoint := fun _ => PostRaises (AioClientError "unused");
     transport := fun k _ =>
       match k with
       | O => Responds (json_response 429 [("Retry-After", "5")]
                          (JDict [("message", JStr "slow down")]))
       | S _ => Responds (json_response 200 []
                            (JDict [("id", JStr "acc-1")]))
       end;
     text_of := fun _ => "" |}.

(** The server of the 404 scenario. *)
Definition not_found_env : Env :=
  {| clock := fun _ => 1000%Q;
     token_endpoint := fun _ => PostRaises (AioClientError "unused");
     transport := fun _ _ =>
       Responds (json_response 404 [("X-Request-ID", "req-1")]
                   (JDict [("message", JStr "not found");
                           ("resource_type", JStr "account");
                           ("resource_id", JStr "abc")]));
     text_of := fun _ => "" |}.

(** A server that answers every request with 429 and
    [Retry-After: inf]. *)
Definition stalling_env : Env :=
  {| clock := fun _ => 1000%Q;
     token_endpoint := fun _ => PostRaises (AioClientError "unused");
     transport := fun _ _ =>
       Responds (json_response 429 [("Retry-After", "inf")]
                   (JDict [("message", JStr "Too many requests")]));
     text_of := fun _ => "" |}.

(** A server that answers every request with 503. *)
Definition down_env : Env :=
  {| clock := fun _ => 1000%Q;
     token_endpoint := fun _ => PostRaises (AioClientError "unused");
     transport := fun _ _ =>
       Responds (json_response 503 [] (JDict [("message", JStr "down")]));
     text_of := fun _ => "" |}.

(** A server that answers every request with 503 and a body whose
    ["message"] is [null]. *)
Definition null_message_env : Env :=
  {| clock := fun _ => 1000%Q;
     token_endpoint := fun _ => PostRaises (AioClientError "unused");
     transport := fun _ _ =>
       Responds (json_response 503 [] (JDict [("message", JNull)]));
     text_of := fun _ => "" |}.

Definition sample_request : HttpRequest :=
  call_of failing_env default_config "GET" "/accounts/abc" None None
    (JStr "k") None.

(** An issuer answering every token request with the same status and
    body, under a clock that stands at 1000. *)
Definition issuer_env (st : Z) (body : outcome json) : Env :=
  {| clock := fun _ => 1000%Q;
     token_endpoint := fun _ => PostResponds st body;
     transport := fun _ _ => Raises (AioClientError "unused");
     text_of := fun _ => "" |}.

Definition sample_token_data : json :=
  JDict [("access_token", JStr "abc"); ("expires_in", JInt 120)].

Definition oauth_world : World :=
  fresh_world (with_client default_config "id" "secret") None [].

(** A client holding the token ["tok"] until time 2000. *)
Definition holding_world : World :=
  {| self := {| config := default_config; _session := None;
                _owned_session := true; _access_token := JStr "tok";
                _token_expires_at := Fin 2000 |};
     sessions := []; clock_reads := 0; posts := 0; requests := 0;
     trace := [] |}.

(** The caller's session 0 is closed by the caller between two
    requests; the client then works on a session of its own. *)
Definition supplied_ops : list Op :=
  [OpRequest "GET" "/accounts" None None None;
   OpSessionClosed 0;
   OpRequest "GET" "/accounts" None None None].

(** A 429 response whose [Retry-After] header is the number zero. *)
Definition zero_retry_after : Response :=
  json_response 429 [("Retry-After", "0")]
    (JDict [("message", JStr "Too many requests")]).

Definition not_found_response : Response :=
  json_response 404 [("X-Request-ID", "req-1")]
    (JDict [("message", JStr "not found");
            ("resource_type", JStr "account");
            ("resource_id", JStr "abc")]).

Definition rate_limited_response : Response :=
  json_response 429 [("retry-after", "5")]
    (JDict [("message", JStr "slow down"); ("code", JStr "rate_limited")]).

(** A gateway's HTML page: [response.json()] raises, the text is kept. *)
Definition bad_gateway_response : Response :=
  {| status := 502; headers := [];
     json_body := Raise (AioClientError "unexpected mimetype: text/html");
     text_body := Return "<html>Bad Gateway</html>" |}.

(** A 429 response whose [Retry-After] header is an HTTP date. *)
Definition http_date_response : Response :=
  json_response 429 [("Retry-After", "Wed, 21 Oct 2015 07:28:00 GMT")]
    (JDict [("message", JStr "Too many requests")]).

(** A 500 response whose body is a JSON array. *)
Definition array_body_response : Response :=
  json_response 500 [] (JList []).

Definition http_date_env : Env :=
  {| clock := fun _ => 1000%Q;
     token_endpoint := fun _ => PostRaises (AioClientError "unused");
     transport := fun _ _ => Responds http_date_response;
     text_of := fun _ => "" |}.

(** An API host that cannot be reached. *)
Definition unreachable_api_env : Env :=
  {| clock := fun _ => 1000%Q;
     token_endpoint := fun _ => PostRaises (AioClientError "unused");
     transport := fun _ _ => Raises (AioClientError "Cannot connect to host");
     text_of := fun _ => "" |}.

(** An issuer that cannot be reached. *)
Definition unreachable_issuer_env : Env :=
  {| clock := fun _ => 1000%Q;
     token_endpoint := fun _ =>
       PostRaises (AioClientError "Cannot connect to host");
     transport := fun _ _ => Responds (json_response 200 [] (JDict []));
     text_of := fun _ => "" |}.

(** * More of the SDK *)

(** ** [AuthResource] *)

(** [AuthResource.exchange_code], on the resource's own configuration
    [c] ([aiohttp] being installed). *)
Definition exchange_code (env : Env) (c : Config) (code redirect_uri : string)
  : M TokenResponse :=
  session <- _get_session ;;
  let url := base_url c +:+ "/oauth/token" in
  r <- post env session url
         [("grant_type", "authorization_code");
          ("client_id", client_id c);
          ("client_secret", client_secret c);
          ("code", code);
          ("redirect_uri", redirect_uri)] ;;
  let '(st, body) := r in
  if negb (st =? 200)%Z then
    raise (Sdk (AuthenticationError
                  (fields_of_message
                     ("Failed to exchange code: " +:+ pretty st))))
  else
    match body with
    | Raise e => raise e
    | Return data =>
        match from_dict data with
        | Raise e => raise e
        | Return t => ret t
        end
    end.

(** [AuthResource.refresh_token]. *)
Definition refresh_token_call (env : Env) (c : Config) (refresh_token : string)
  : M TokenResponse :=
  session <- _get_session ;;
  let url := base_url c +:+ "/oauth/token" in
  r <- post env session url
         [("grant_type", "refresh_token");
          ("client_id", client_id c);
          ("client_secret", client_secret c);
          ("refresh_token", refresh_token)] ;;
  let '(st, body) := r in
  if negb (st =? 200)%Z then
    raise (Sdk (AuthenticationError
                  (fields_of_message
                     ("Failed to refresh token: " +:+ pretty st))))
  else
    match body with
    | Raise e => raise e
    | Return data =>
        match from_dict data with
        | Raise e => raise e
        | Return t => ret t
        end
    end.

(** ** [Institution] and [InstitutionsResource] *)

(** The [Institution] dataclass; its fields hold what the payload
    held. *)
Module Institution.
Record t := {
  id : json;
  name : json;
  bic : json;
  country : json;
  logo_url : json;
  supported_features : json;
}.
End Institution.

(** [Institution.from_dict]: [data["id"]] needs a dict with the key. *)
Definition Institution_from_dict (data : json) : outcome Institution.t :=
  match data with
  | JDict d =>
      match items_get d "id" with
      | None => Raise (PyException "KeyError")
      | Some v =>
          Return {| Institution.id := v;
                    Institution.name := default (JStr "") (items_get d "name");
                    Institution.bic := default JNull (items_get d "bic");
                    Institution.country :=
                      default (JStr "") (items_get d "country");
                    Institution.logo_url :=
                      default JNull (items_get d "logo_url");
                    Institution.supported_features :=
                      default (JList []) (items_get d "supported_features") |}
      end
  | _ => Raise (PyException "TypeError")
  end.

(** [for item in v]: a list gives its elements, a dict its keys, a
    string its characters; nothing else can be iterated. *)
Definition py_iter (v : json) : outcome (list json) :=
  match v with
  | JList l => Return l
  | JDict d => Return (map (fun kv => JStr kv.1) d)
  | JStr s =>
      Return (map (fun ch => JStr (String ch EmptyString))
                (list_ascii_of_string s))
  | JNull | JBool _ | JInt _ | JFloat _ => Raise (PyException "TypeError")
  end.

(** [[f(item) for item in items]]: stops at the first exception. *)
Fixpoint comprehension {A} (f : json -> outcome A) (items : list json)
  : outcome (list A) :=
  match items with
  | [] => Return []
  | item :: rest =>
      match f item with
      | Raise e => Raise e
      | Return a =>
          match comprehension f rest with
          | Raise e => Raise e
          | Return l => Return (a :: l)
          end
      end
  end.

(** [[Institution.from_dict(item) for item in data.get("institutions", [])]]. *)
Definition institutions_of (data : json) : outcome (list Institution.t) :=
  match py_get data "institutions" (JList []) with
  | Raise e => Raise e
  | Return v =>
      match py_iter v with
      | Raise e => Raise e
      | Return items => comprehension Institution_from_dict items
      end
  end.

(** [InstitutionsResource.list]. *)
Definition InstitutionsResource_list (env : Env) (country query : option string)
    (limit offset : Z) : M (list Institution.t) :=
  data <- request env "GET" "/institutions"
            (Some (<[ "country" := json_of_opt_str country ]>
                     (<[ "query" := json_of_opt_str query ]>
                        (<[ "limit" := JInt limit ]>
                           {[ "offset" := JInt offset ]}))))
            None None ;;
  fun w => (institutions_of data, w).

(** [InstitutionsResource.get]. *)
Definition InstitutionsResource_get (env : Env) (institution_id : string)
  : M Institution.t :=
  data <- request env "GET" ("/institutions/" +:+ institution_id) None None None ;;
  fun w => (Institution_from_dict data, w).

(** ** [Transaction] and [TransactionsResource] *)

(** Python's [datetime.date], as far as the SDK uses it:
    [date.fromisoformat] on a string gives a date or raises
    [ValueError] ([None] here), and [isoformat] writes one. *)
Record DateLib := {
  date : Type;
  date_fromisoformat : string -> option date;
  date_isoformat : date -> string;
}.

(** The [Transaction] dataclass. *)
Module Transaction.
Record t (D : DateLib) := {
  id : json;
  account_id : json;
  amount : json;
  currency : json;
  description : json;
  reference : json;
  booking_date : option (date D);
  value_date : option (date D);
  transaction_type : json;
  status : json;
  counterparty_name : json;
  counterparty_iban : json;
  category : json;
  metadata : json;
}.
Arguments id {D} _.
Arguments booking_date {D} _.
Arguments value_date {D} _.
End Transaction.

(** [date.fromisoformat(data[key]) if data.get(key) else None]:
    anything but a string is a [TypeError]. *)
Definition read_date (D : DateLib) (d : list (string * json)) (key : string)
  : outcome (option (date D)) :=
  if py_truthy (default JNull (items_get d key)) then
    match items_get d key with
    | Some (JStr s) =>
        match date_fromisoformat D s with
        | Some x => Return (Some x)
        | None => Raise (PyException "ValueError")
        end
    | _ => Raise (PyException "TypeError")
    end
  else Return None.

(** [Transaction.from_dict]. *)
Definition Transaction_from_dict (D : DateLib) (data : json)
  : outcome (Transaction.t D) :=
  match data with
  | JDict d =>
      match items_get d "id" with
      | None => Raise (PyException "KeyError")
      | Some v =>
          match read_date D d "booking_date" with
          | Raise e => Raise e
          | Return booking_date =>
              match read_date D d "value_date" with
              | Raise e => Raise e
              | Return value_date =>
                  Return
                    {| Transaction.id := v;
                       Transaction.account_id :=
                         default (JStr "") (items_get d "account_id");
                       Transaction.amount :=
                         default (JStr "0") (items_get d "amount");
                       Transaction.currency :=
                         default (JStr "EUR") (items_get d "currency");
                       Transaction.description :=
                         default (JStr "") (items_get d "description");
                       Transaction.reference :=
                         default JNull (items_get d "reference");
                       Transaction.booking_date := booking_date;
                       Transaction.value_date := value_date;
                       Transaction.transaction_type :=
                         default (JStr "transfer")
                           (items_get d "transaction_type");
                       Transaction.status :=
                         default (JStr "booked") (items_get d "status");
                       Transaction.counterparty_name :=
                         default JNull (items_get d "counterparty_name");
                       Transaction.counterparty_iban :=
                         default JNull (items_get d "counterparty_iban");
                       Transaction.category :=
                         default JNull (items_get d "category");
                       Transaction.metadata :=
                         default (JDict []) (items_get d "metadata") |}
              end
          end
      end
  | _ => Raise (PyException "TypeError")
  end.

(** [[Transaction.from_dict(item) for item in data.get("transactions", [])]]. *)
Definition transactions_of (D : DateLib) (data : json)
  : outcome (list (Transaction.t D)) :=
  match py_get data "transactions" (JList []) with
  | Raise e => Raise e
  | Return v =>
      match py_iter v with
      | Raise e => Raise e
      | Return items => comprehension (Transaction_from_dict D) items
      end
  end.

(** [d.isoformat() if d else None]: a date is never falsy. *)
Definition json_of_opt_date (D : DateLib) (o : option (date D)) : json :=
  match o with
  | Some d => JStr (date_isoformat D d)
  | None => JNull
  end.

(** An [Optional[float]] argument as a value. *)
Definition json_of_opt_float (o : option pyfloat) : json :=
  match o with
  | Some x => JFloat x
  | None => JNull
  end.

(** The [params] dict of [TransactionsResource.list]. *)
Definition transactions_params (D : DateLib) (date_from date_to : option (date D))
    (amount_min amount_max : option pyfloat) (booking_status : option string)
    (limit offset : Z) : gmap string json :=
  <[ "date_from" := json_of_opt_date D date_from ]>
    (<[ "date_to" := json_of_opt_date D date_to ]>
       (<[ "amount_min" := json_of_opt_float amount_min ]>
          (<[ "amount_max" := json_of_opt_float amount_max ]>
             (<[ "booking_status" := json_of_opt_str booking_status ]>
                (<[ "limit" := JInt limit ]>
                   {[ "offset" := JInt offset ]}))))).

(** [TransactionsResource.list]. *)
Definition TransactionsResource_list (env : Env) (D : DateLib)
    (account_id : string) (date_from date_to : option (date D))
    (amount_min amount_max : option pyfloat) (booking_status : option string)
    (limit offset : Z) : M (list (Transaction.t D)) :=
  data <- request env "GET" ("/accounts/" +:+ account_id +:+ "/transactions")
            (Some (transactions_params D date_from date_to amount_min
                     amount_max booking_status limit offset))
            None None ;;
  fun w => (transactions_of D data, w).

(** [TransactionsResource.get]. *)
Definition TransactionsResource_get (env : Env) (D : DateLib)
    (account_id transaction_id : string) : M (Transaction.t D) :=
  data <- request env "GET"
            ("/accounts/" +:+ account_id +:+ "/transactions/"
             +:+ transaction_id) None None None ;;
  fun w => (Transaction_from_dict D data, w).

(** How the consumption of an async generator stands: it finished, it
    raised, or it has more to give. *)
Inductive IterEnd :=
| Exhausted
| Raised (e : exn)
| Unfinished.

(** The loop of [TransactionsResource.iterate] from [offset] on, run
    for at most [fuel] pages by a consumer that takes everything: the
    transactions yielded, in order, and how the generator stands. *)
Fixpoint iterate_from (env : Env) (D : DateLib) (account_id : string)
    (date_from date_to : option (date D)) (limit : Z)
    (fuel : nat) (offset : Z) (w : World)
  : (list (Transaction.t D) * IterEnd) * World :=
  match fuel with
  | 0 => (([], Unfinished), w)
  | S fuel' =>
      match TransactionsResource_list env D account_id date_from date_to
              None None None limit offset w with
      | (Raise e, w1) => (([], Raised e), w1)
      | (Return transactions, w1) =>
          match transactions with
          | [] => (([], Exhausted), w1)
          | _ :: _ =>
              if (Z.of_nat (length transactions) <? limit)%Z then
                ((transactions, Exhausted), w1)
              else
                let '((rest, e), w2) :=
                  iterate_from env D account_id date_from date_to limit
                    fuel' (offset + limit)%Z w1 in
                ((transactions ++ rest, e), w2)
          end
      end
  end.

(** [TransactionsResource.iterate]: the loop starts at offset 0. *)
Definition TransactionsResource_iterate (env : Env) (D : DateLib)
    (account_id : string) (date_from date_to : option (date D)) (limit : Z)
    (fuel : nat) (w : World)
  : (list (Transaction.t D) * IterEnd) * World :=
  iterate_from env D account_id date_from date_to limit fuel 0%Z w.

(** * Vocabulary of the further properties *)

(** An attempt that ends the loop: a payload, or an exception that
    neither [except] clause catches. *)
Definition settles (o : outcome json) : Prop :=
  match o with
  | Return _ => True
  | Raise e => retryable e = false
  end.

(** From [w0] on the trace grew by events that are neither transport
    calls nor sleeps. *)
Definition silent_since (w0 w : World) : Prop :=
  exists evs,
    trace w = trace w0 ++ evs /\ requests_of evs = [] /\ sleeps_of evs = [].

(** Of the sessions made since the heap had [n0] of them, each is
    closed, unless it is the one the client holds and owns; and the
    session held is in the heap. *)
Definition made_sessions_inv (n0 : nat) (w : World) : Prop :=
  n0 <= length (sessions w)
  /\ (forall i, _session (self w) = Some i -> i < length (sessions w))
  /\ (forall i, n0 <= i -> i < length (sessions w) ->
        session_closed w i = true
        \/ (_session (self w) = Some i /\ _owned_session (self w) = true)).

(** The operations that close nothing: [request] and
    [set_access_token]. *)
Definition closes_nothing (op : Op) : bool :=
  match op with
  | OpRequest _ _ _ _ _ | OpSetAccessToken _ _ => true
  | OpClose | OpSessionClosed _ => false
  end.

(** Over a heap [heap]: its sessions are as they were, at most one
    session was added, and an added one is held by the client and
    open. *)
Definition one_session_inv (heap : list ClientSession) (w : World) : Prop :=
  (forall j s, heap !! j = Some s -> sessions w !! j = Some s)
  /\ length heap <= length (sessions w) <= S (length heap)
  /\ (length (sessions w) = S (length heap) ->
      open_session w = Some (length heap)).

Definition three_requests : list Op :=
  [OpRequest "GET" "/accounts" None None None;
   OpSetAccessToken "tok" 3600;
   OpRequest "GET" "/payments" None None None;
   OpRequest "GET" "/consents" None None None].

(** The common fields of an SDK error. *)
Definition fields_of (e : SdkError) : ErrorFields :=
  match e with
  | OpeniBankError b | AuthenticationError b | AuthorizationError b _
  | ValidationError b _ | NotFoundError b _ _ | RateLimitError b _
  | ConflictError b | ServerError b | NetworkError b => b
  end.

(** The statuses on which each class of error is raised. *)
Definition raised_on (e : SdkError) (st : Z) : Prop :=
  match e with
  | AuthenticationError _ => st = 401%Z
  | AuthorizationError _ _ => st = 403%Z
  | ValidationError _ _ => st = 400%Z
  | NotFoundError _ _ _ => st = 404%Z
  | ConflictError _ => st = 409%Z
  | RateLimitError _ retry_after =>
      st = 429%Z /\ float_truthy retry_after = true
  | ServerError _ => (500 <= st)%Z
  | OpeniBankError _ =>
      (st < 500)%Z
      /\ ~ In st [200; 201; 204; 401; 403; 400; 404; 409; 429]%Z
  | NetworkError _ => False
  end.

(** Reading the body of a response raises no SDK error (it raises
    what [aiohttp] and [json] raise). *)
Definition reads_cleanly (r : Response) : Prop :=
  (forall e, json_body r <> Raise (Sdk e))
  /\ (forall e, text_body r <> Raise (Sdk e)).

(** The shape [exchange_code] and [refresh_token] share: the form
    [data] is posted and a refusal is reported with [text]. *)
Definition grant_post (env : Env) (c : Config) (text : string)
    (data : list (string * string)) : M TokenResponse :=
  session <- _get_session ;;
  r <- post env session (base_url c +:+ "/oauth/token") data ;;
  let '(st, body) := r in
  if negb (st =? 200)%Z then
    raise (Sdk (AuthenticationError (fields_of_message (text +:+ pretty st))))
  else
    match body with
    | Raise e => raise e
    | Return data => match from_dict data with
                     | Raise e => raise e
                     | Return t => ret t
                     end
    end.

(** What a call [m] of [AuthResource] does to the world [w] when it
    posts the form [data] and reports a refusal with [text]: one post
    to the token endpoint on the session the client then holds, no
    transport call, no reading of the clock; the token the client
    holds, its expiry and the configuration are as before; a status
    other than 200 raises [AuthenticationError(text + status)], and a
    [TokenResponse] is returned only for a 200 whose body
    [TokenResponse.from_dict] reads. *)
Definition grant_call (env : Env) (c : Config) (text : string)
    (data : list (string * string)) (m : M TokenResponse) (w : World) : Prop :=
  let w' := snd (m w) in
  (exists s, trace w' = trace w ++ [EvPost s (base_url c +:+ "/oauth/token") data]
             /\ open_session w' = Some s)
  /\ posts w' = S (posts w)
  /\ requests w' = requests w
  /\ clock_reads w' = clock_reads w
  /\ config (self w') = config (self w)
  /\ _access_token (self w') = _access_token (self w)
  /\ _token_expires_at (self w') = _token_expires_at (self w)
  /\ (forall st body,
        token_endpoint env (posts w) = PostResponds st body ->
        st <> 200%Z ->
        fst (m w)
        = Raise (Sdk (AuthenticationError
                        (fields_of_message (text +:+ pretty st)))))
  /\ (forall t,
        fst (m w) = Return t ->
        exists d,
          token_endpoint env (posts w) = PostResponds 200 (Return d)
          /\ from_dict d = Return t).

(** The authorization-code flow: the code is exchanged, the token
    received is handed to [set_access_token], and a request is made. *)
Definition code_flow (env : Env) (c : Config) (code redirect_uri : string)
    (method path : string) (params : option (gmap string json))
    (json' : option json) (idempotency_key : option string) : M json :=
  t <- exchange_code env c code redirect_uri ;;
  set_access_token env (access_token t) (expires_in t) ;;;
  request env method path params json' idempotency_key.

(** A dict with an ["id"]: what [Institution.from_dict] can read. *)
Definition has_id (item : json) : bool :=
  match item with
  | JDict d => match items_get d "id" with
               | Some _ => true
               | None => false
               end
  | _ => false
  end.

(** The world in which [iterate], started in [w] at [offset], asks
    for its [j]-th page. *)
Fixpoint page_world (env : Env) (D : DateLib) (account_id : string)
    (date_from date_to : option (date D)) (limit offset : Z) (j : nat)
    (w : World) : World :=
  match j with
  | 0 => w
  | S j' =>
      page_world env D account_id date_from date_to limit (offset + limit)%Z j'
        (snd (TransactionsResource_list env D account_id date_from date_to
                None None None limit offset w))
  end.

(** What [list] answers when [iterate], started in [w] at [offset],
    asks for its [j]-th page. *)
Definition page (env : Env) (D : DateLib) (account_id : string)
    (date_from date_to : option (date D)) (limit offset : Z) (j : nat)
    (w : World) : outcome (list (Transaction.t D)) :=
  fst (TransactionsResource_list env D account_id date_from date_to
         None None None limit (offset + Z.of_nat j * limit)%Z
         (page_world env D account_id date_from date_to limit offset j w)).

(** A page after which the loop goes on. *)
Definition full_page {A} (limit : Z) (p : list A) : Prop :=
  p <> [] /\ (limit <= Z.of_nat (length p))%Z.

(** An answer that ends the loop: an exception, an empty page, or a
    page shorter than [limit]. *)
Definition last_page {A} (limit : Z) (o : outcome (list A)) : Prop :=
  match o with
  | Raise _ => True
  | Return p => p = [] \/ (Z.of_nat (length p) < limit)%Z
  end.

Definition yield_of {A} (o : outcome (list A)) : list A :=
  match o with
  | Return p => p
  | Raise _ => []
  end.

Definition end_of {A} (o : outcome (list A)) : IterEnd :=
  match o with
  | Return _ => Exhausted
  | Raise e => Raised e
  end.

(** A stand-in for [datetime.date] in the examples: a date is its
    text, ten characters long. *)
Definition text_dates : DateLib :=
  {| date := string;
     date_fromisoformat := fun s =>
       if String.length s =? 10 then Some s else None;
     date_isoformat := fun d => d |}.

Definition transaction_item (id : string) : json :=
  JDict [("id", JStr id); ("amount", JStr "10.00");
         ("booking_date", JStr "2024-01-15")].

(** A server with three transactions, which answers by the offset
    asked. *)
Definition paged_env : Env :=
  {| clock := fun _ => 1000%Q;
     token_endpoint := fun _ => PostRaises (AioClientError "unused");
     transport := fun _ rq =>
       let all := [transaction_item "t1"; transaction_item "t2";
                   transaction_item "t3"] in
       match rq_params rq with
       | Some p =>
           match p !! "offset", p !! "limit" with
           | Some (JInt offset), Some (JInt limit) =>
               Responds
                 (json_response 200 []
                    (JDict [("transactions",
                             JList (take (Z.to_nat limit)
                                      (drop (Z.to_nat offset) all)))]))
           | _, _ => Responds (json_response 400 [] (JDict []))
           end
       | None => Responds (json_response 400 [] (JDict []))
       end;
     text_of := fun _ => "" |}.

(** The request for the page at [offset] that [iterate] makes of a
    client configured with [c]: a [GET] of the account's transactions
    without a body, whose query holds [limit], [offset] and the dates
    given, and no filter on the amount or on the booking status. *)
Definition page_request (D : DateLib) (c : Config) (account_id : string)
    (date_from date_to : option (date D)) (limit offset : Z)
    (rq : HttpRequest) : Prop :=
  rq_method rq = "GET"
  /\ rq_url rq
     = base_url c +:+ "/" +:+ api_version c
       +:+ ("/accounts/" +:+ account_id +:+ "/transactions")
  /\ rq_json rq = None
  /\ exists p : gmap string json,
       rq_params rq = Some p
       /\ p !! "limit" = Some (JInt limit)
       /\ p !! "offset" = Some (JInt offset)
       /\ p !! "date_from" = (fun d => JStr (date_isoformat D d)) <$> date_from
       /\ p !! "date_to" = (fun d => JStr (date_isoformat D d)) <$> date_to
       /\ p !! "amount_min" = None
       /\ p !! "amount_max" = None
       /\ p !! "booking_status" = None.

(** * Properties *)

(** ** Sample runs *)

Example py_float_samples :
  map py_float ["5"; " 2.5 "; "1e3"; "1_000"; "-0"; "inf"; "NaN"; "";
                "1e"; "0x10"; "1__0"; "soon"]
  = [Some (Fin 5); Some (Fin (5 # 2)); Some (Fin 1000); Some (Fin 1000);
     Some (Fin 0); Some (Inf false); Some NaN; None; None; None; None;
     None].
Proof. reflexivity. Qed.

(** A 429 with [Retry-After: 5] under [max_retries = 3]: one sleep of
    5 seconds, a second attempt, and its payload is the result. *)
Example rate_limited_then_served :
  let w := fresh_world (with_api_key default_config "k") None [] in
  let rq := call_of recovering_env (with_api_key default_config "k")
              "GET" "/accounts/acc-1" None None (JStr "k") None in
  let run := request recovering_env "GET" "/accounts/acc-1" None None None w in
  fst run = Return (JDict [("id", JStr "acc-1")])
  /\ trace (snd run) = [EvRequest 0 rq; EvSleep (Fin 5); EvRequest 0 rq].
Proof. split; reflexivity. Qed.

(** A 204: the empty dict. *)
Example no_content :
  handle_response {| status := 204; headers := [];
                     json_body := Raise (PyException "JSONDecodeError");
                     text_body := Return "" |}
  = Return (JDict []).
Proof. reflexivity. Qed.

(** ** One iteration of the loop *)

Lemma attempt_once_sent env session rq w :
  attempt_once env session rq w
  = (attempt_result env (requests w) rq, sent session rq w).
Proof.
  unfold attempt_once, bind, send, attempt_result, sent.
  destruct (transport env (requests w) rq); reflexivity.
Qed.

Lemma attempts_return env session rq i rest last w v :
  attempt_result env (requests w) rq = Return v ->
  attempts env session rq (i :: rest) last w = (Return v, sent session rq w).
Proof.
  intros H. simpl. rewrite attempt_once_sent, H. reflexivity.
Qed.

Lemma attempts_propagate env session rq i rest last w e :
  attempt_result env (requests w) rq = Raise e ->
  retryable e = false ->
  attempts env session rq (i :: rest) last w = (Raise e, sent session rq w).
Proof.
  intros H Hr. simpl. rewrite attempt_once_sent, H.
  destruct e as [[]| | | | |]; try discriminate; reflexivity.
Qed.

Lemma attempts_give_up env session rq i rest last w e :
  attempt_result env (requests w) rq = Raise e ->
  retryable e = true ->
  attempts_remain (config (self w)) i = false ->
  attempts env session rq (i :: rest) last w
  = (Raise (surfaced e), sent session rq w).
Proof.
  intros H Hr Hn. simpl. rewrite attempt_once_sent, H.
  destruct e as [[]| | | | |]; try discriminate; simpl; rewrite Hn; reflexivity.
Qed.

(** The handler of a caught failure, attempts remaining: the
    exception raised in it ends the loop, a sleep that does not return
    ends it for good, and otherwise the loop goes on. *)
Lemma attempts_handler env session rq i rest last w e :
  attempt_result env (requests w) rq = Raise e ->
  retryable e = true ->
  attempts_remain (config (self w)) i = true ->
  attempts env session rq (i :: rest) last w
  = match delay_after (config (self w)) i e with
    | Raise x => (Raise x, sent session rq w)
    | Return d =>
        if sleep_returns d then
          attempts env session rq rest (Some (surfaced e))
            (emit (EvSleep d) (sent session rq w))
        else (Raise NeverReturns, emit (EvSleep d) (sent session rq w))
    end.
Proof.
  intros H Hr Hn. simpl. rewrite attempt_once_sent, H.
  destruct e as [[]| | | | |]; try discriminate; simpl; rewrite Hn;
    unfold bind, lift, sleep; simpl.
  - destruct (fields_str b) as [[]|x]; [|reflexivity].
    destruct (sleep_returns retry_after); reflexivity.
  - destruct (backoff (config (self w)) i) as [d|x]; [|reflexivity].
    destruct (fields_str b) as [[]|x]; [|reflexivity].
    destruct (sleep_returns d); reflexivity.
  - destruct (backoff (config (self w)) i) as [d|x]; [|reflexivity].
    destruct (sleep_returns d); reflexivity.
  - destruct (backoff (config (self w)) i) as [d|x]; [|reflexivity].
    destruct (sleep_returns d); reflexivity.
Qed.

Lemma attempts_retry env session rq i rest last w e d :
  attempt_result env (requests w) rq = Raise e ->
  retryable e = true ->
  attempts_remain (config (self w)) i = true ->
  retries_after (config (self w)) i e d ->
  attempts env session rq (i :: rest) last w
  = attempts env session rq rest (Some (surfaced e))
      (emit (EvSleep d) (sent session rq w)).
Proof.
  intros H Hr Hn [Hd Hs].
  rewrite (attempts_handler _ _ _ _ _ _ _ e H Hr Hn), Hd, Hs. reflexivity.
Qed.

Lemma requests_of_app t1 t2 :
  requests_of (t1 ++ t2) = requests_of t1 ++ requests_of t2.
Proof.
  induction t1 as [|[] t1 IH]; simpl; rewrite ?IH; reflexivity.
Qed.

Lemma sleeps_of_app t1 t2 : sleeps_of (t1 ++ t2) = sleeps_of t1 ++ sleeps_of t2.
Proof.
  induction t1 as [|[] t1 IH]; simpl; rewrite ?IH; reflexivity.
Qed.

Lemma emit_sent_trace ev session rq w :
  trace (emit ev (sent session rq w)) = trace w ++ [EvRequest session rq; ev].
Proof. simpl. rewrite <- app_assoc. reflexivity. Qed.

Lemma retry_events_requests session rq k :
  forall d, requests_of (retry_events session rq d k) = repeat rq k.
Proof.
  induction k as [|k IH]; intros d; simpl; [|rewrite IH]; reflexivity.
Qed.

Lemma retry_events_sleeps session rq k :
  forall d, sleeps_of (retry_events session rq d k) = map d (seq 0 k).
Proof.
  induction k as [|k IH]; intros d; [reflexivity|].
  simpl. rewrite IH, <- seq_shift, List.map_map. reflexivity.
Qed.

Lemma retry_events_ext session rq k :
  forall d d', (forall j, j < k -> d j = d' j) ->
  retry_events session rq d k = retry_events session rq d' k.
Proof.
  induction k as [|k IH]; intros d d' H; [reflexivity|].
  simpl. rewrite (H 0) by lia. do 2 f_equal.
  apply IH. intros j Hj. apply H. lia.
Qed.

(** [k] attempts from index [i] on that fail with a caught failure
    whose handler gets through: the loop comes to attempt [i + k]
    after [k] calls and [k] sleeps, and nothing else has changed. *)
Lemma attempts_prefix env session rq k :
  forall i m last w (d : nat -> pyfloat),
    (Z.of_nat (i + k) < max_retries (config (self w)))%Z ->
    k <= m ->
    (forall j, j < k ->
       exists e,
         attempt_result env (requests w + j) rq = Raise e
         /\ retryable e = true
         /\ retries_after (config (self w)) (i + j) e (d j)) ->
    exists last' w',
      attempts env session rq (seq i m) last w
      = attempts env session rq (seq (i + k) (m - k)) last' w'
      /\ self w' = self w /\ sessions w' = sessions w
      /\ clock_reads w' = clock_reads w /\ posts w' = posts w
      /\ requests w' = requests w + k
      /\ trace w' = trace w ++ retry_events session rq d k.
Proof.
  induction k as [|k IH]; intros i m last w d Hmax Hm Hfail.
  - exists last, w. rewrite Nat.add_0_r, Nat.sub_0_r, app_nil_r.
    repeat split; lia.
  - destruct (Hfail 0 ltac:(lia)) as (e & He & Hr & Hd).
    rewrite !Nat.add_0_r in *.
    destruct m as [|m]; [lia|].
    assert (Hrem : attempts_remain (config (self w)) i = true).
    { unfold attempts_remain. apply Z.ltb_lt. lia. }
    change (seq i (S m)) with (i :: seq (S i) m).
    rewrite (attempts_retry _ _ _ _ _ _ _ e (d 0) He Hr Hrem Hd).
    set (w1 := emit (EvSleep (d 0)) (sent session rq w)).
    destruct (IH (S i) m (Some (surfaced e)) w1 (fun j => d (S j)))
      as (last' & w' & Hrun & Hs & Hh & Hc & Hp & Hq & Ht).
    { simpl self. lia. }
    { lia. }
    { intros j Hj. destruct (Hfail (S j) ltac:(lia)) as (e' & He' & Hr' & Hd').
      exists e'. simpl self. simpl requests.
      replace (S (requests w) + j) with (requests w + S j) by lia.
      replace (S i + j) with (i + S j) by lia. auto. }
    exists last', w'. rewrite Hrun.
    replace (S i + k) with (i + S k) by lia.
    replace (S m - S k) with (m - k) by lia.
    split; [reflexivity|]. simpl in Hs, Hh, Hc, Hp, Hq.
    repeat split; try assumption; [lia|].
    rewrite Ht. unfold w1. rewrite emit_sent_trace, <- app_assoc. reflexivity.
Qed.

(** [request] is the loop run after the session and the token are had. *)
Lemma request_unfold env method path params json' key w session w1 token w2 :
  _get_session w = (Return session, w1) ->
  _ensure_token env w1 = (Return token, w2) ->
  request env method path params json' key w
  = attempts env session
      (call_of env (config (self w2)) method path params json' token key)
      (py_range (max_retries (config (self w2)))) None w2.
Proof.
  intros H1 H2. unfold request, bind. rewrite H1, H2. reflexivity.
Qed.


(** ** The retry policy *)


(** One iteration ends the loop in the world after its transport
    call, or hangs in the sleep that follows, or sleeps and goes on
    with the rest of the range. *)
Lemma attempts_step env session rq i rest last w :
  let w1 := sent session rq w in
  (exists res, attempts env session rq (i :: rest) last w = (res, w1))
  \/ (exists d,
        attempts env session rq (i :: rest) last w
        = (Raise NeverReturns, emit (EvSleep d) w1))
  \/ (exists e d,
        attempt_result env (requests w) rq = Raise e
        /\ retryable e = true
        /\ attempts_remain (config (self w)) i = true
        /\ retries_after (config (self w)) i e d
        /\ attempts env session rq (i :: rest) last w
           = attempts env session rq rest (Some (surfaced e))
               (emit (EvSleep d) w1)).
Proof.
  intros w1.
  destruct (attempt_result env (requests w) rq) as [v|e] eqn:Hres.
  - left. eexists. apply attempts_return, Hres.
  - destruct (retryable e) eqn:Hr.
    + destruct (attempts_remain (config (self w)) i) eqn:Hn.
      * rewrite (attempts_handler _ _ _ _ _ _ _ e Hres Hr Hn).
        destruct (delay_after (config (self w)) i e) as [d|x] eqn:Hd;
          [destruct (sleep_returns d) eqn:Hs|].
        -- right. right. exists e, d. repeat split; assumption.
        -- right. left. exists d. reflexivity.
        -- left. eexists. reflexivity.
      * left. eexists. apply attempts_give_up; eassumption.
    + left. eexists. apply attempts_propagate; eassumption.
Qed.

(** The loop touches neither the client nor the sessions, reads no
    clock and posts nothing; it only adds its events to the trace,
    starting with a transport call when the range is not empty. *)
Lemma attempts_frame env session rq range :
  forall last w,
    let w' := snd (attempts env session rq range last w) in
    self w' = self w /\ sessions w' = sessions w
    /\ clock_reads w' = clock_reads w /\ posts w' = posts w
    /\ exists evs,
         trace w' = trace w ++ evs
         /\ Forall (loop_event session rq) evs
         /\ (range <> [] -> exists evs', evs = EvRequest session rq :: evs').
Proof.
  induction range as [|i rest IH]; intros last w w'.
  - subst w'. destruct last; simpl; repeat split; try reflexivity;
      exists []; rewrite app_nil_r; repeat split; auto; congruence.
  - subst w'.
    destruct (attempts_step env session rq i rest last w)
      as [[res Hrun]|[[d Hrun]|(e & d & _ & _ & _ & _ & Hrun)]]; rewrite Hrun.
    + simpl. repeat split; try reflexivity.
      exists [EvRequest session rq]. repeat split; eauto.
      constructor; [left; reflexivity|constructor].
    + simpl. repeat split; try reflexivity.
      exists [EvRequest session rq; EvSleep d].
      rewrite <- app_assoc. repeat split; eauto.
      constructor; [left; reflexivity|].
      constructor; [right; eexists; reflexivity|constructor].
    + specialize (IH (Some (surfaced e))
                    (emit (EvSleep d) (sent session rq w))).
      simpl in IH.
      destruct IH as (Hs & Hh & Hc & Hp & evs & Htr & Hall & _).
      repeat split; try assumption.
      exists (EvRequest session rq :: EvSleep d :: evs).
      split; [|split].
      * rewrite Htr, <- !app_assoc. reflexivity.
      * constructor; [left; reflexivity|].
        constructor; [right; eexists; reflexivity|exact Hall].
      * eauto.
Qed.

Lemma terminal_not_retryable e : terminal e = true -> retryable e = false.
Proof. destruct e as [[]| | | | |]; simpl; congruence. Qed.



(** ** Terminal and retryable failures *)

(** A failure classified as [AuthenticationError],
    [AuthorizationError], [ValidationError], [NotFoundError],
    [ConflictError] or plain [OpeniBankError] is raised at once: the
    run ends in the world right after that transport call, with no
    sleep and no other call. *)
Lemma terminal_raised_at_once env session rq i rest last w e :
  attempt_result env (requests w) rq = Raise e ->
  terminal e = true ->
  attempts env session rq (i :: rest) last w = (Raise e, sent session rq w).
Proof.
  intros He Ht. apply attempts_propagate; [exact He|].
  destruct e as [[]| | | | |]; simpl in *; congruence.
Qed.

(** C1.  Two runs against a permanently failing retryable condition
    in which [request] does not make its [max_retries] attempts.
    A server that answers 429 with [Retry-After: inf], under the
    default [max_retries = 3]: one transport call, then a sleep of
    infinity that never returns; neither the second attempt nor the
    [RateLimitError] is ever seen.  A server that answers 503, under
    [max_retries = 1026] and [retry_delay = 0.0]: 1025 transport calls
    and 1024 sleeps of zero, then [OverflowError] from
    [retry_delay * (2**1024)]; attempt 1026 is not made and the
    [ServerError] is not raised. *)
Theorem retries_cut_short :
  let run := request stalling_env "GET" "/accounts" None None None
               (fresh_world (with_api_key default_config "k") None []) in
  let run' := request down_env "GET" "/accounts" None None None
                (fresh_world patient_config None []) in
  (fst run = Raise NeverReturns
   /\ length (requests_of (trace (snd run))) = 1
   /\ sleeps_of (trace (snd run)) = [Inf false])
  /\ (fst run' = Raise (PyException "OverflowError")
      /\ length (requests_of (trace (snd run'))) = 1025
      /\ sleeps_of (trace (snd run')) = repeat (Fin 0) 1024).
Proof.
  intros run run'. split; [repeat split|].
  subst run'.
  set (w := fresh_world patient_config None []).
  rewrite (request_unfold down_env "GET" "/accounts" None None None w 0
             (snd (_get_session w)) (JStr "k") (snd (_get_session w))
             eq_refl eq_refl).
  set (w2 := snd (_get_session w)).
  set (rq := call_of down_env (config (self w2)) "GET" "/accounts" None None
               (JStr "k") None).
  change (py_range (max_retries (config (self w2)))) with (seq 0 1026).
  assert (Hres : forall k,
             attempt_result down_env k rq
             = Raise (Sdk (ServerError
                             (init_fields (JStr "down") JNull (Some 503%Z)
                                None JNull)))).
  { intros k. reflexivity. }
  destruct (attempts_prefix down_env 0 rq 1024 0 1026 None w2
              (fun _ => Fin 0))
    as (last' & w0 & Hrun & Hs & _ & _ & _ & Hq & Ht).
  { reflexivity. }
  { apply Nat.leb_le. reflexivity. }
  { intros j Hj. eexists. split; [apply Hres|]. split; [reflexivity|].
    split; [|reflexivity].
    unfold delay_after, backoff. simpl Nat.add.
    apply Nat.leb_gt in Hj. rewrite Hj. reflexivity. }
  rewrite Hrun.
  change (seq (0 + 1024) (1026 - 1024)) with [1024; 1025].
  rewrite (attempts_handler down_env 0 rq 1024 [1025] last' w0 _ (Hres _)
             eq_refl).
  2:{ rewrite Hs. reflexivity. }
  replace (delay_after (config (self w0)) 1024
             (Sdk (ServerError
                     (init_fields (JStr "down") JNull (Some 503%Z) None JNull))))
    with (@Raise pyfloat (PyException "OverflowError"))
    by (rewrite Hs; reflexivity).
  cbn [fst snd]. split; [reflexivity|].
  simpl trace. rewrite Ht. change (trace w2) with (@nil Event).
  rewrite !requests_of_app, !sleeps_of_app, retry_events_requests,
    retry_events_sleeps.
  split; reflexivity.
Qed.

(** C3.  Three iterations of the loop with attempts remaining in
    which a retryable failure is not retried.  At attempt 1024 of
    1026, a [ServerError]: the handler raises [OverflowError], with no
    sleep and no other call.  At attempt 0 of 3, a [RateLimitError]
    whose [retry_after] is infinite: the handler's sleep never
    returns, and no other call is made.  At attempt 0 of 3, a
    [ServerError] whose message is not a string (the body's
    ["message"] was [null]): the handler raises [TypeError] when it
    writes its warning, with no sleep and no other call; and so the
    whole [request] against that server makes one call and raises
    [TypeError]. *)
Theorem retryable_failure_not_retried :
  let w := fresh_world (with_api_key default_config "k") None [] in
  let w' := fresh_world patient_config None [] in
  (attempts_remain (config (self w')) 1024 = true
   /\ retryable (failure down_env sample_request 0) = true
   /\ attempts down_env 0 sample_request (seq 1024 2) None w'
      = (Raise (PyException "OverflowError"), sent 0 sample_request w'))
  /\ (attempts_remain (config (self w)) 0 = true
      /\ retryable (failure stalling_env sample_request 0) = true
      /\ attempts stalling_env 0 sample_request (seq 0 3) None w
         = (Raise NeverReturns,
            emit (EvSleep (Inf false)) (sent 0 sample_request w)))
  /\ (retryable (failure null_message_env sample_request 0) = true
      /\ attempts null_message_env 0 sample_request (seq 0 3) None w
         = (Raise (PyException "TypeError"), sent 0 sample_request w))
  /\ (let run := request null_message_env "GET" "/accounts" None None None w in
      fst run = Raise (PyException "TypeError")
      /\ length (requests_of (trace (snd run))) = 1
      /\ sleeps_of (trace (snd run)) = []).
Proof.
  intros w w'. repeat split.
Qed.

(** ** What the steps before the loop do to the world *)

Lemma preserves_ret {A} I (a : A) : preserves I (ret a).
Proof. intros w H. exact H. Qed.

Lemma preserves_raise {A} I e : preserves I (@raise A e).
Proof. intros w H. exact H. Qed.

Lemma preserves_get_self I : preserves I get_self.
Proof. intros w H. exact H. Qed.

Lemma preserves_bind {A B} I (m : M A) (k : A -> M B) :
  preserves I m -> (forall a, preserves I (k a)) -> preserves I (bind m k).
Proof.
  intros Hm Hk w H. unfold bind. specialize (Hm w H).
  destruct (m w) as [[a|e] w1]; simpl in *; [apply Hk, Hm|exact Hm].
Qed.

Lemma preserves_lift {A} I (o : outcome A) : preserves I (lift o).
Proof. intros w H. exact H. Qed.

Ltac preserves_step :=
  lazymatch goal with
  | |- preserves _ (bind _ _) => apply preserves_bind; [|intros ?]
  | |- preserves _ (ret _) => apply preserves_ret
  | |- preserves _ (lift _) => apply preserves_lift
  | |- preserves _ (raise _) => apply preserves_raise
  | |- preserves _ get_self => apply preserves_get_self
  | |- preserves _ (match ?x with _ => _ end) => destruct x
  end.

Section Preservation.
Variable env : Env.
Variable I : World -> Prop.
Hypothesis I_get_session : preserves I _get_session.
Hypothesis I_access_token : forall v, preserves I (assign_access_token v).
Hypothesis I_expires_at : forall v, preserves I (assign_token_expires_at v).
Hypothesis I_time : preserves I (time_time env).
Hypothesis I_post : forall s url data, preserves I (post env s url data).
Hypothesis I_sent : forall s rq w, I w -> I (sent s rq w).
Hypothesis I_sleep : forall d w, I w -> I (emit (EvSleep d) w).

Lemma _request_token_preserves : preserves I (_request_token env).
Proof.
  unfold _request_token. repeat preserves_step; auto.
Qed.

Lemma set_access_token_preserves token expires_in :
  preserves I (set_access_token env token expires_in).
Proof.
  unfold set_access_token. repeat preserves_step; auto.
Qed.

Lemma token_fresh_preserves : preserves I (token_fresh env).
Proof.
  unfold token_fresh. repeat preserves_step; auto.
Qed.

Lemma _ensure_token_preserves : preserves I (_ensure_token env).
Proof.
  unfold _ensure_token.
  repeat preserves_step;
    auto using _request_token_preserves, set_access_token_preserves,
      token_fresh_preserves.
Qed.

Lemma attempts_preserves session rq range :
  forall last, preserves I (attempts env session rq range last).
Proof.
  induction range as [|i rest IH]; intros last w H.
  - destruct last; exact H.
  - destruct (attempts_step env session rq i rest last w)
      as [[res Hrun]|[[d Hrun]|(e & d & _ & _ & _ & _ & Hrun)]]; rewrite Hrun.
    + apply I_sent, H.
    + apply I_sleep, I_sent, H.
    + apply IH, I_sleep, I_sent, H.
Qed.

Lemma request_preserves method path params json' key :
  preserves I (request env method path params json' key).
Proof.
  unfold request.
  repeat preserves_step; auto using _ensure_token_preserves.
  apply attempts_preserves.
Qed.

End Preservation.

Lemma _get_session_returns w :
  exists session,
    _get_session w = (Return session, snd (_get_session w)).
Proof.
  unfold _get_session. destruct (open_session w); eexists; reflexivity.
Qed.

(** [_get_session] makes no call and leaves the token alone. *)
Lemma _get_session_frame w :
  let w' := snd (_get_session w) in
  trace w' = trace w /\ requests w' = requests w /\ posts w' = posts w
  /\ clock_reads w' = clock_reads w
  /\ config (self w') = config (self w)
  /\ _access_token (self w') = _access_token (self w)
  /\ _token_expires_at (self w') = _token_expires_at (self w).
Proof.
  unfold _get_session. destruct (open_session w); simpl; tauto.
Qed.

Lemma quiet_since_refl w : quiet_since w w.
Proof.
  repeat split. exists []. rewrite app_nil_r. split; reflexivity.
Qed.

(** [_ensure_token] makes no [session.request] call and keeps the
    configuration; what it adds to the trace are token requests. *)
Lemma _ensure_token_frame env w :
  quiet_since w (snd (_ensure_token env w)).
Proof.
  apply (_ensure_token_preserves env (quiet_since w)); [| | | | |apply quiet_since_refl].
  - intros w1 H. destruct (_get_session_frame w1) as (Ht & Hr & _ & _ & Hc & _).
    unfold quiet_since. rewrite Ht, Hr, Hc. exact H.
  - intros v w1 H. exact H.
  - intros v w1 H. exact H.
  - intros w1 H. exact H.
  - intros s url data w1 (Hr & Hc & evs & Ht & Hq).
    unfold post. destruct (token_endpoint env (posts w1)); simpl;
      (split; [exact Hr|]; split; [exact Hc|];
       exists (evs ++ [EvPost s url data]);
       rewrite Ht, requests_of_app, Hq, <- app_assoc; split; reflexivity).
Qed.

Lemma loop_events_requests session rq0 evs :
  Forall (loop_event session rq0) evs ->
  forall rq, In rq (requests_of evs) -> rq = rq0.
Proof.
  induction 1 as [|ev evs [->|[d ->]] _ IH]; simpl; intros rq Hin.
  - contradiction.
  - destruct Hin as [<-|Hin]; [reflexivity|apply IH, Hin].
  - apply IH, Hin.
Qed.

(** Every transport call of one [request] carries the same arguments,
    built from the configuration and one token. *)
Lemma request_events env method path params json' key w :
  exists evs token,
    trace (snd (request env method path params json' key w)) = trace w ++ evs
    /\ forall rq, In rq (requests_of evs) ->
         rq = call_of env (config (self w)) method path params json' token
                key.
Proof.
  destruct (_get_session_returns w) as [session H1].
  destruct (_get_session_frame w) as (Ht1 & _ & _ & _ & Hc1 & _).
  set (w1 := snd (_get_session w)) in *.
  destruct (_ensure_token_frame env w1) as (_ & Hc2 & evs0 & Ht2 & Hrq0).
  destruct (_ensure_token env w1) as [[token|e] w2] eqn:H2; simpl in *.
  - rewrite (request_unfold _ _ _ _ _ _ _ _ _ _ _ H1 H2).
    set (rq0 := call_of env (config (self w2)) method path params json' token key).
    destruct (attempts_frame env session rq0
                (py_range (max_retries (config (self w2)))) None w2)
      as (_ & _ & _ & _ & evs & Htr & Hall & _).
    exists (evs0 ++ evs), token. split.
    + rewrite Htr, Ht2, Ht1, app_assoc. reflexivity.
    + intros rq Hin. rewrite requests_of_app, Hrq0 in Hin. simpl in Hin.
      rewrite <- Hc1, <- Hc2. fold rq0.
      eapply loop_events_requests; eassumption.
  - exists evs0, JNull. split.
    + unfold request, bind. rewrite H1, H2. simpl. rewrite Ht2, Ht1. reflexivity.
    + rewrite Hrq0. intros rq [].
Qed.

(** A [request] that has its session and its token and is allowed
    an attempt starts with a transport call, and every later call of
    it has the arguments of the first. *)
Lemma request_calls env method path params json' key w session w1 token w2 :
  _get_session w = (Return session, w1) ->
  _ensure_token env w1 = (Return token, w2) ->
  (0 < max_retries (config (self w2)))%Z ->
  exists evs,
    trace (snd (request env method path params json' key w))
    = trace w2
      ++ EvRequest session
           (call_of env (config (self w2)) method path params json' token key)
         :: evs
    /\ forall rq, In rq (requests_of evs) ->
         rq = call_of env (config (self w2)) method path params json' token
                key.
Proof.
  intros H1 H2 Hmax.
  rewrite (request_unfold _ _ _ _ _ _ _ _ _ _ _ H1 H2).
  set (rq0 := call_of env (config (self w2)) method path params json' token key).
  destruct (attempts_frame env session rq0
              (py_range (max_retries (config (self w2)))) None w2)
    as (_ & _ & _ & _ & evs & Htr & Hall & Hne).
  destruct Hne as [evs' ->].
  { unfold py_range.
    destruct (Z.to_nat (max_retries (config (self w2)))) eqn:E; [lia|].
    discriminate. }
  exists evs'. split; [exact Htr|].
  intros rq Hin. apply List.Forall_cons_iff in Hall as [_ Hall].
  eapply loop_events_requests; eassumption.
Qed.

(** ** Headers *)

(** C7.  In one [request] that has its session and its token and
    is allowed an attempt: the first thing it does is a transport
    call; the [Idempotency-Key] header of that call is the key given,
    when one is given (a non-empty string), and is absent otherwise;
    and every later attempt of the request has the arguments of the
    first, so the key sent on attempt 1 is the key sent on every
    retry. *)
Theorem idempotency_key_forwarded env method path params json' key
    w session w1 token w2 :
  _get_session w = (Return session, w1) ->
  _ensure_token env w1 = (Return token, w2) ->
  (0 < max_retries (config (self w2)))%Z ->
  exists rq evs,
    trace (snd (request env method path params json' key w))
    = trace w2 ++ EvRequest session rq :: evs
    /\ rq_headers rq !! "Idempotency-Key"
       = match key with
         | Some k => if str_truthy k then Some k else None
         | None => None
         end
    /\ forall rq', In rq' (requests_of evs) -> rq' = rq.
Proof.
  intros H1 H2 Hmax.
  destruct (request_calls env method path params json' key w session w1
              token w2 H1 H2 Hmax) as (evs & Htr & Hall).
  eexists _, evs. split; [exact Htr|]. split; [|exact Hall].
  unfold call_of, request_headers. simpl.
  destruct key as [k|]; [destruct (str_truthy k)|].
  - apply lookup_insert_eq.
  - reflexivity.
  - reflexivity.
Qed.

Lemma idempotency_key_forwarded_witness :
  let w := fresh_world (with_api_key default_config "k") None [] in
  let run := request failing_env "POST" "/payments" None None
               (Some "pay-1") w in
  map (fun rq => rq_headers rq !! "Idempotency-Key")
    (requests_of (trace (snd run)))
  = [Some "pay-1"; Some "pay-1"; Some "pay-1"].
Proof.
  intros w run.
  destruct (idempotency_key_forwarded failing_env "POST" "/payments" None
              None (Some "pay-1") w 0 (snd (_get_session w)) (JStr "k")
              (snd (_get_session w)) eq_refl eq_refl eq_refl)
    as (rq & evs & Htr & Hkey & Hall).
  assert (Hl : length (requests_of (trace (snd run))) = 3)
    by (vm_compute; reflexivity).
  fold w run in Htr. rewrite Htr in Hl |- *.
  change (trace (snd (_get_session w))) with (@nil Event) in *.
  simpl in Hl |- *.
  destruct (requests_of evs) as [|r1 [|r2 [|r3 l]]]; try discriminate.
  simpl. rewrite (Hall r1), (Hall r2), Hkey by (simpl; auto). reflexivity.
Defined.

(** C9.  In one [request], the headers are fixed by the token that
    [_ensure_token] returned, before any transport call of that
    request; every attempt is sent with exactly those headers, whose
    [Authorization] is the bearer of that token; and from then to the
    end of the call the client's fields (the cached token and its
    expiry among them) do not change, no token request is made and the
    clock is not read: the token is not refreshed between attempts. *)
Theorem headers_fixed_for_call env method path params json' key
    w session w1 token w2 :
  _get_session w = (Return session, w1) ->
  _ensure_token env w1 = (Return token, w2) ->
  let hs := request_headers env (config (self w2)) token key in
  let w' := snd (request env method path params json' key w) in
  requests w2 = requests w
  /\ hs !! "Authorization" = Some ("Bearer " +:+ format_token env token)
  /\ self w' = self w2 /\ posts w' = posts w2
  /\ clock_reads w' = clock_reads w2
  /\ exists evs,
       trace w' = trace w2 ++ evs
       /\ Forall (fun ev => (exists s rq, ev = EvRequest s rq
                                          /\ rq_headers rq = hs)
                            \/ exists d, ev = EvSleep d) evs.
Proof.
  intros H1 H2 hs w'. subst w'.
  rewrite (request_unfold _ _ _ _ _ _ _ _ _ _ _ H1 H2).
  set (rq0 := call_of env (config (self w2)) method path params json' token key).
  destruct (attempts_frame env session rq0
              (py_range (max_retries (config (self w2)))) None w2)
    as (Hs & _ & Hc & Hp & evs & Htr & Hall & _).
  split.
  { destruct (_get_session_frame w) as (_ & Hr1 & _).
    destruct (_ensure_token_frame env w1) as (Hr2 & _).
    rewrite H1 in Hr1. rewrite H2 in Hr2. simpl in *. congruence. }
  split.
  { subst hs. unfold request_headers.
    destruct key as [k|]; [destruct (str_truthy k)|]; reflexivity. }
  repeat split; try assumption.
  exists evs. split; [exact Htr|].
  eapply List.Forall_impl; [|exact Hall].
  intros ev [->|Hd]; [left|right; exact Hd].
  exists session, rq0. split; reflexivity.
Qed.

Lemma headers_fixed_for_call_witness :
  let w := fresh_world (with_api_key default_config "k") None [] in
  let w' := snd (request failing_env "POST" "/payments" None None
                   (Some "pay-1") w) in
  let hs := <[ "Idempotency-Key" := "pay-1" ]>
              (_get_headers failing_env (with_api_key default_config "k")
                 (JStr "k")) in
  requests_of (trace w')
  = repeat (call_of failing_env (with_api_key default_config "k")
              "POST" "/payments" None None (JStr "k") (Some "pay-1")) 3
  /\ hs !! "Authorization" = Some "Bearer k"
  /\ exists evs,
       trace w' = evs
       /\ Forall (fun ev => (exists s rq, ev = EvRequest s rq
                                          /\ rq_headers rq = hs)
                            \/ exists d, ev = EvSleep d) evs.
Proof.
  intros w w' hs.
  destruct (headers_fixed_for_call failing_env "POST" "/payments" None None
              (Some "pay-1") w 0 (snd (_get_session w)) (JStr "k")
              (snd (_get_session w)) eq_refl eq_refl)
    as (_ & Hauth & _ & _ & _ & evs & Htr & Hall).
  split; [reflexivity|]. split; [exact Hauth|].
  exists evs. split; [exact Htr|exact Hall].
Defined.

(** ** The token manager *)

Lemma Qle_bool_false_lt x y : Qle_bool x y = false <-> (y < x)%Q.
Proof.
  split.
  - intros H. apply Qnot_le_lt. intros Hle.
    apply Qle_bool_iff in Hle. congruence.
  - intros H. destruct (Qle_bool x y) eqn:E; [|reflexivity].
    apply Qle_bool_iff in E. exfalso. exact (Qlt_not_le _ _ H E).
Qed.

Lemma before_is_before now x : before now x = true <-> is_before now x.
Proof.
  destruct x as [q|[]|]; simpl.
  - rewrite negb_true_iff. apply Qle_bool_false_lt.
  - split; discriminate.
  - split; reflexivity.
  - split; [discriminate|contradiction].
Qed.

Lemma token_fresh_true env w :
  token_is_fresh env w ->
  exists w',
    token_fresh env w = (Return true, w') /\ self w' = self w
    /\ sessions w' = sessions w /\ trace w' = trace w
    /\ posts w' = posts w /\ requests w' = requests w.
Proof.
  intros [Htok Hlt]. unfold token_fresh, bind, get_self, time_time, ret.
  rewrite Htok. apply before_is_before in Hlt. rewrite Hlt.
  eexists. repeat split; reflexivity.
Qed.

Lemma token_fresh_false env w :
  ~ token_is_fresh env w ->
  exists w',
    token_fresh env w = (Return false, w') /\ self w' = self w
    /\ sessions w' = sessions w /\ trace w' = trace w
    /\ posts w' = posts w /\ requests w' = requests w
    /\ clock_reads w' - clock_reads w <= 1.
Proof.
  intros Hn. unfold token_fresh, bind, get_self, time_time, ret.
  destruct (py_truthy (_access_token (self w))) eqn:Htok.
  - destruct (before (clock env (clock_reads w))
                (_token_expires_at (self w))) eqn:Hle.
    + exfalso. apply Hn. split; [exact Htok|].
      apply before_is_before, Hle.
    + eexists. repeat split; simpl; try reflexivity. lia.
  - eexists. repeat split; simpl; try reflexivity. lia.
Qed.

Lemma _ensure_token_stale env w :
  ~ token_is_fresh env w ->
  exists w0,
    _ensure_token env w = after_stale env w0 /\ self w0 = self w
    /\ sessions w0 = sessions w /\ trace w0 = trace w
    /\ posts w0 = posts w /\ requests w0 = requests w.
Proof.
  intros Hn.
  destruct (token_fresh_false env w Hn) as (w0 & Hrun & Hs & Hh & Ht & Hp & Hr & _).
  exists w0. split; [|tauto].
  unfold _ensure_token, after_stale, bind at 1. rewrite Hrun.
  unfold bind at 1, get_self at 1. unfold bind at 3, get_self at 2.
  reflexivity.
Qed.

(** The token request when the endpoint answers: one post on the
    session held, and the answer read as the source reads it. *)
Lemma _request_token_responds env w st body :
  token_endpoint env (posts w) = PostResponds st body ->
  exists s w',
    _request_token env w
    = (if negb (st =? 200)%Z then
         Raise (Sdk (AuthenticationError
                       (fields_of_message
                          ("Failed to obtain access token: " +:+ pretty st))))
       else match body with
            | Raise e => Raise e
            | Return data => from_dict data
            end,
       w')
    /\ trace w' = trace w ++ [token_request (config (self w)) s]
    /\ posts w' = S (posts w)
    /\ requests w' = requests w
    /\ clock_reads w' = clock_reads w
    /\ config (self w') = config (self w)
    /\ _access_token (self w') = _access_token (self w)
    /\ _token_expires_at (self w') = _token_expires_at (self w).
Proof.
  intros Hpost.
  destruct (_get_session_returns w) as [session H1].
  destruct (_get_session_frame w) as (Ht1 & Hr1 & Hp1 & Hc1 & Hg1 & Ha1 & He1).
  set (w1 := snd (_get_session w)) in *.
  unfold _request_token, bind at 1. rewrite H1.
  unfold bind at 1, get_self at 1. unfold bind at 1, post.
  rewrite Hp1, Hpost.
  exists session. eexists. split.
  - destruct (negb (st =? 200)%Z); [reflexivity|].
    destruct body as [data|e]; [|reflexivity].
    destruct (from_dict data); reflexivity.
  - simpl. unfold token_request.
    rewrite ?Ht1, ?Hr1, ?Hp1, ?Hc1, ?Hg1, ?Ha1, ?He1. repeat split; reflexivity.
Qed.

(** C8.  A client as constructed, whose configuration has no (or an
    empty) [api_key] and lacks [client_id] or [client_secret]: any
    [request] raises [AuthenticationError] and the trace, the count of
    token requests and the count of transport calls are what they
    were: nothing was sent. *)
Theorem no_credentials_no_transport env method path params json' key
    c session w :
  self w = __init__ c session ->
  opt_str_truthy (api_key c) = false ->
  str_truthy (client_id c) = false \/ str_truthy (client_secret c) = false ->
  exists w',
    request env method path params json' key w
    = (Raise (Sdk (AuthenticationError
                     (fields_of_message "No valid credentials configured"))),
       w')
    /\ trace w' = trace w /\ posts w' = posts w /\ requests w' = requests w.
Proof.
  intros Hself Hkey Hcred.
  assert (Hand : str_truthy (client_id c) && str_truthy (client_secret c)
                 = false).
  { destruct Hcred as [-> | ->]; [reflexivity|apply andb_false_r]. }
  destruct (_get_session_returns w) as [s H1].
  destruct (_get_session_frame w) as (Ht1 & Hr1 & Hp1 & _ & Hc1 & Ha1 & _).
  set (w1 := snd (_get_session w)) in *.
  assert (Hn : ~ token_is_fresh env w1).
  { intros [H _]. rewrite Ha1, Hself in H. discriminate H. }
  destruct (_ensure_token_stale env w1 Hn)
    as (w0 & Hrun & Hs & _ & Ht & Hp & Hr).
  exists w0. unfold request, bind at 1. rewrite H1.
  unfold bind at 1. rewrite Hrun.
  unfold after_stale, bind, get_self, raise.
  rewrite Hs, Hc1, Hself.
  change (config (__init__ c session)) with c. rewrite Hkey, Hand.
  split; [reflexivity|]. rewrite Ht, Hp, Hr. auto.
Qed.

Lemma no_credentials_no_transport_witness :
  exists w',
    request failing_env "GET" "/accounts" None None None
      (fresh_world (with_client default_config "id" "") None [])
    = (Raise (Sdk (AuthenticationError
                     (fields_of_message "No valid credentials configured"))),
       w')
    /\ trace w' = [] /\ posts w' = 0 /\ requests w' = 0.
Proof.
  exact (no_credentials_no_transport failing_env "GET" "/accounts" None None
           None (with_client default_config "id" "") None
           (fresh_world (with_client default_config "id" "") None [])
           eq_refl eq_refl (or_intror eq_refl)).
Defined.

Lemma expiry_of_number now v :
  is_number v = true -> exists x, expiry now v = Return x.
Proof.
  destruct v as [| | |[q|neg|]| | |]; try discriminate; intros _; eexists;
    reflexivity.
Qed.

(** [_ensure_token] when no fresh token is held, no [api_key] is
    configured and both client credentials are: the token request is
    made, and what it returns is handed to [set_access_token]. *)
Lemma after_stale_requests env w :
  opt_str_truthy (api_key (config (self w))) = false ->
  str_truthy (client_id (config (self w))) = true ->
  str_truthy (client_secret (config (self w))) = true ->
  after_stale env w
  = match _request_token env w with
    | (Return t, w1) =>
        (set_access_token env (access_token t) (expires_in t) ;;;
         c <- get_self ;; ret (_access_token c)) w1
    | (Raise e, w1) => (Raise e, w1)
    end.
Proof.
  intros Hkey Hid Hsec. unfold after_stale, bind at 1, get_self at 1.
  rewrite Hkey, Hid, Hsec. change (true && true) with true. cbv iota.
  unfold bind at 1. destruct (_request_token env w) as [[t|e] w1]; reflexivity.
Qed.

(** C4.  The decision order of [_ensure_token].
    (1) A token is held and the clock is before its expiry: the held
        token is returned; the client is unchanged, nothing is sent.
    (2) Otherwise, with an [api_key]: the key is returned; the client
        (cached token, expiry) is unchanged, nothing is sent.
    (3) Otherwise, with [client_id] and [client_secret]: the
        client-credentials form is posted once to
        [<base_url>/oauth/token], and nothing else is sent.  A status
        other than 200 (a 201 as much as a 401) raises
        [AuthenticationError] with the status in its message, the
        cache unchanged.  Status 200 with a body holding
        [access_token] and an [expires_in] that is a number (3600
        when there is none) caches that token with expiry
        [now + expires_in - 60], [now] being the last reading of the
        clock, and returns it.
    (4) Otherwise [AuthenticationError("No valid credentials
        configured")] is raised, nothing sent. *)
Theorem ensure_token_decision env w :
  let c := self w in
  let unchanged w' :=
    self w' = c /\ trace w' = trace w /\ posts w' = posts w in
  (token_is_fresh env w ->
   exists w', _ensure_token env w = (Return (_access_token c), w')
              /\ unchanged w')
  /\ (~ token_is_fresh env w ->
      opt_str_truthy (api_key (config c)) = true ->
      exists w',
        _ensure_token env w = (Return (json_of_opt_str (api_key (config c))), w')
        /\ unchanged w')
  /\ (~ token_is_fresh env w ->
      opt_str_truthy (api_key (config c)) = false ->
      str_truthy (client_id (config c)) = true ->
      str_truthy (client_secret (config c)) = true ->
      forall st body,
        token_endpoint env (posts w) = PostResponds st body ->
        (st <> 200%Z ->
         exists s w',
           _ensure_token env w
           = (Raise (Sdk (AuthenticationError
                            (fields_of_message
                               ("Failed to obtain access token: "
                                +:+ pretty st)))), w')
           /\ trace w' = trace w ++ [token_request (config c) s]
           /\ posts w' = S (posts w)
           /\ requests w' = requests w
           /\ _access_token (self w') = _access_token c
           /\ _token_expires_at (self w') = _token_expires_at c)
        /\ (st = 200%Z ->
            forall d tok,
              body = Return (JDict d) ->
              items_get d "access_token" = Some tok ->
              is_number (default (JInt 3600) (items_get d "expires_in"))
              = true ->
              exists s w',
                _ensure_token env w = (Return tok, w')
                /\ trace w' = trace w ++ [token_request (config c) s]
                /\ posts w' = S (posts w)
                /\ requests w' = requests w
                /\ _access_token (self w') = tok
                /\ expiry (clock env (clock_reads w' - 1))
                     (default (JInt 3600) (items_get d "expires_in"))
                   = Return (_token_expires_at (self w'))))
  /\ (~ token_is_fresh env w ->
      opt_str_truthy (api_key (config c)) = false ->
      str_truthy (client_id (config c)) = false
      \/ str_truthy (client_secret (config c)) = false ->
      exists w',
        _ensure_token env w
        = (Raise (Sdk (AuthenticationError
                         (fields_of_message
                            "No valid credentials configured"))), w')
        /\ unchanged w').
Proof.
  intros c unchanged. subst unchanged. cbv beta.
  split; [|split; [|split]].
  - intros Hf. destruct (token_fresh_true env w Hf)
      as (w0 & Hrun & Hs & _ & Ht & Hp & _).
    exists w0. unfold _ensure_token, bind at 1. rewrite Hrun.
    unfold bind, get_self, ret. rewrite Hs. auto.
  - intros Hn Hkey.
    destruct (_ensure_token_stale env w Hn) as (w0 & -> & Hs & _ & Ht & Hp & _).
    exists w0. unfold after_stale, bind, get_self, ret. rewrite Hs.
    fold c. rewrite Hkey. auto.
  - intros Hn Hkey Hid Hsec st body Hpost.
    destruct (_ensure_token_stale env w Hn)
      as (w0 & -> & Hs & Hh & Ht & Hp & Hr).
    rewrite <- Hp in Hpost.
    destruct (_request_token_responds env w0 st body Hpost)
      as (s & w1 & Hrun & Ht1 & Hp1 & Hr1 & Hc1 & Hg1 & Ha1 & He1).
    rewrite after_stale_requests, Hrun by (rewrite Hs; assumption).
    rewrite Hs in Ht1, Ha1, He1. fold c in Ht1, Ha1, He1.
    split.
    + intros Hst. apply Z.eqb_neq in Hst. rewrite Hst. simpl negb. cbv iota.
      exists s, w1. split; [reflexivity|].
      rewrite Ht1, Hp1, Hr1, Ha1, He1, Ht, Hp, Hr. auto.
    + intros -> d tok -> Htok Hnum. simpl negb. cbv iota.
      unfold from_dict. rewrite Htok. cbn [access_token expires_in].
      destruct (expiry_of_number (clock env (clock_reads w1)) _ Hnum)
        as [x Hx].
      unfold set_access_token, bind, assign_access_token,
        assign_token_expires_at, update_self, time_time, lift, get_self, ret.
      cbn [self clock_reads trace posts requests sessions]. rewrite Hx.
      exists s. eexists. split; [reflexivity|].
      cbn [self clock_reads trace posts requests sessions _access_token
           _token_expires_at].
      rewrite Ht1, Hp1, Hr1, Ht, Hp, Hr.
      replace (S (clock_reads w1) - 1) with (clock_reads w1) by lia.
      rewrite Hx. auto.
  - intros Hn Hkey Hcred.
    destruct (_ensure_token_stale env w Hn) as (w0 & -> & Hs & _ & Ht & Hp & _).
    exists w0. unfold after_stale, bind, get_self, raise. rewrite Hs.
    fold c. rewrite Hkey.
    replace (str_truthy (client_id (config c))
             && str_truthy (client_secret (config c))) with false; [auto|].
    destruct Hcred as [-> | ->]; [reflexivity|].
    symmetry. apply andb_false_r.
Qed.

Lemma fresh_world_not_fresh env c session heap :
  ~ token_is_fresh env (fresh_world c session heap).
Proof. intros [H _]. discriminate H. Qed.

Lemma ensure_token_decision_witness :
  (exists w', _ensure_token (issuer_env 500 (Raise (PyException "unused")))
                holding_world = (Return (JStr "tok"), w')
              /\ posts w' = 0)
  /\ (exists w', _ensure_token (issuer_env 500 (Raise (PyException "unused")))
                   (fresh_world (with_api_key default_config "key") None [])
                 = (Return (JStr "key"), w')
                 /\ posts w' = 0)
  /\ (exists w', _ensure_token (issuer_env 401 (Raise (PyException "unused")))
                   oauth_world
                 = (Raise (Sdk (AuthenticationError
                                  (fields_of_message
                                     "Failed to obtain access token: 401"))),
                    w')
                 /\ trace w' = [token_request (config (self oauth_world)) 0])
  /\ (exists w', _ensure_token (issuer_env 200 (Return sample_token_data))
                   oauth_world
                 = (Return (JStr "abc"), w')
                 /\ trace w' = [token_request (config (self oauth_world)) 0]
                 /\ _access_token (self w') = JStr "abc"
                 /\ _token_expires_at (self w')
                    = Fin (1000 + inject_Z 120 - 60))
  /\ (exists w', _ensure_token (issuer_env 200 (Return sample_token_data))
                   (fresh_world default_config None [])
                 = (Raise (Sdk (AuthenticationError
                                  (fields_of_message
                                     "No valid credentials configured"))),
                    w')
                 /\ posts w' = 0).
Proof.
  split; [|split; [|split; [|split]]].
  - destruct (proj1 (ensure_token_decision
                       (issuer_env 500 (Raise (PyException "unused")))
                       holding_world))
      as (w' & Hrun & _ & _ & Hp).
    { split; reflexivity. }
    exists w'. split; [exact Hrun|exact Hp].
  - destruct (proj1 (proj2 (ensure_token_decision
                              (issuer_env 500 (Raise (PyException "unused")))
                              (fresh_world (with_api_key default_config "key")
                                 None []))))
      as (w' & Hrun & _ & _ & Hp).
    { apply fresh_world_not_fresh. }
    { reflexivity. }
    exists w'. split; [exact Hrun|exact Hp].
  - destruct (proj1 (proj1 (proj2 (proj2 (ensure_token_decision
                (issuer_env 401 (Raise (PyException "unused"))) oauth_world)))
              (fresh_world_not_fresh _ _ _ _) eq_refl eq_refl eq_refl
              401%Z _ eq_refl))
      as (s & w' & Hrun & Ht & _).
    { discriminate. }
    exists w'. split; [exact Hrun|].
    assert (Hw : w' = snd (_ensure_token
                             (issuer_env 401 (Raise (PyException "unused")))
                             oauth_world)) by (rewrite Hrun; reflexivity).
    rewrite Hw. reflexivity.
  - destruct (proj2 (proj1 (proj2 (proj2 (ensure_token_decision
                (issuer_env 200 (Return sample_token_data)) oauth_world)))
              (fresh_world_not_fresh _ _ _ _) eq_refl eq_refl eq_refl
              200%Z _ eq_refl) eq_refl
              [("access_token", JStr "abc"); ("expires_in", JInt 120)]
              (JStr "abc") eq_refl eq_refl eq_refl)
      as (s & w' & Hrun & Ht & Hp & _ & Htok & Hexp).
    exists w'. split; [exact Hrun|].
    assert (Hw : w' = snd (_ensure_token
                             (issuer_env 200 (Return sample_token_data))
                             oauth_world)) by (rewrite Hrun; reflexivity).
    split; [rewrite Hw; reflexivity|]. split; [exact Htok|].
    rewrite Hw. reflexivity.
  - destruct (proj2 (proj2 (proj2 (ensure_token_decision
                (issuer_env 200 (Return sample_token_data))
                (fresh_world default_config None []))))
              (fresh_world_not_fresh _ _ _ _) eq_refl (or_introl eq_refl))
      as (w' & Hrun & _ & _ & Hp).
    exists w'. split; [exact Hrun|exact Hp].
Defined.

(** The counterexample to C4 as stated: the issuer answers the token
    request with 201 and a token; the response is a 2xx, and
    [_ensure_token] raises [AuthenticationError], whose [status_code]
    is unset, and caches nothing. *)
Lemma token_response_201_rejected :
  let run := _ensure_token (issuer_env 201 (Return sample_token_data))
               oauth_world in
  fst run
  = Raise (Sdk (AuthenticationError
                  (fields_of_message "Failed to obtain access token: 201")))
  /\ status_code (fields_of_message "Failed to obtain access token: 201")
     = None
  /\ _access_token (self (snd run)) = JNull.
Proof. repeat split. Qed.

(** ** Sessions and [close] *)

Lemma session_close_length i w :
  length (sessions (snd (session_close i w))) = length (sessions w).
Proof.
  unfold session_close. simpl.
  destruct (sessions w !! i); [apply length_insert|reflexivity].
Qed.

Lemma _get_session_supplied_inv s n0 : preserves (supplied_inv s n0) _get_session.
Proof.
  intros w [Hlen Hinv]. unfold _get_session.
  destruct (open_session w) as [i|]; simpl.
  - split; assumption.
  - split.
    + simpl. rewrite length_app. simpl. lia.
    + right. simpl. split; [reflexivity|]. intros i [= <-]. exact Hlen.
Qed.

Lemma close_supplied_inv s n0 : preserves (supplied_inv s n0) close.
Proof.
  intros w [Hlen Hinv]. unfold close, bind, get_self.
  destruct (_session (self w)) as [i|] eqn:Hsess;
    [destruct (_owned_session (self w)) eqn:Hown|];
    unfold supplied_inv; simpl.
  - split.
    + destruct (sessions w !! i); [rewrite length_insert|]; exact Hlen.
    + right. split; [exact Hown|]. intros j [=].
  - rewrite Hsess, Hown. split; assumption.
  - rewrite Hsess. split; assumption.
Qed.

Lemma run_op_supplied_inv env s n0 op w :
  supplied_inv s n0 w -> supplied_inv s n0 (run_op env op w).
Proof.
  intros H. destruct op as [method path params json' key|token expires_in| |i];
    cbn [run_op].
  - apply (request_preserves env (supplied_inv s n0)); try assumption;
      try (intros; intros ? ?; assumption).
    + apply _get_session_supplied_inv.
    + intros s' url data w1 H1. unfold post.
      destruct (token_endpoint env (posts w1)); exact H1.
    + intros; assumption.
    + intros; assumption.
  - apply (set_access_token_preserves env (supplied_inv s n0)); try assumption;
      intros; intros ? ?; assumption.
  - apply close_supplied_inv, H.
  - destruct H as [Hlen Hinv]. split; [|exact Hinv].
    rewrite session_close_length. exact Hlen.
Qed.

Lemma run_supplied_inv env s n0 ops :
  forall w, supplied_inv s n0 w -> supplied_inv s n0 (run env ops w).
Proof.
  induction ops as [|op ops IH]; intros w H; [exact H|].
  apply IH, run_op_supplied_inv, H.
Qed.

Lemma fresh_world_supplied_inv c s heap :
  s < length heap ->
  supplied_inv s (length heap) (fresh_world c (Some s) heap).
Proof.
  intros Hs. split; [reflexivity|]. left. split; reflexivity.
Qed.

(** C10.  A client constructed with the caller's session [s], after
    any sequence of calls to its methods and of sessions being closed
    by their holders: [close()] leaves [s] as it is in the heap (it
    does not close it); while the client still holds [s], [close()]
    changes nothing at all, so the reference stays; and a session that
    [close()] does change, or a reference it clears, is one made after
    the construction, by the client's own [_get_session]. *)
Theorem close_spares_supplied_session env c s heap ops :
  s < length heap ->
  let w := run env ops (fresh_world c (Some s) heap) in
  let w' := snd (close w) in
  sessions w' !! s = sessions w !! s
  /\ (_session (self w) = Some s -> w' = w)
  /\ (forall i, sessions w' !! i <> sessions w !! i -> length heap <= i)
  /\ (_session (self w') <> _session (self w) ->
      exists i, _session (self w) = Some i /\ length heap <= i).
Proof.
  intros Hs w w'.
  assert (Hinv : supplied_inv s (length heap) w).
  { apply run_supplied_inv, fresh_world_supplied_inv, Hs. }
  destruct Hinv as [Hlen Hinv]. subst w'.
  unfold close, bind, get_self.
  destruct (_session (self w)) as [i|] eqn:Hsess;
    [destruct (_owned_session (self w)) eqn:Hown|]; simpl;
    try (repeat split; intros; congruence).
  destruct Hinv as [[Hf _]|[_ Hge]]; [discriminate Hf|].
  specialize (Hge i eq_refl).
  destruct (sessions w !! i) as [x|] eqn:Hi.
  - split; [apply list_lookup_insert_ne; lia|].
    split; [intros [= ->]; lia|].
    split; [|intros _; exists i; split; [reflexivity|exact Hge]].
    intros j Hj. destruct (decide (i = j)) as [<-|Hne]; [exact Hge|].
    exfalso. apply Hj. apply list_lookup_insert_ne, Hne.
  - split; [reflexivity|].
    split; [intros [= ->]; lia|].
    split; [intros j Hj; congruence|].
    intros _. exists i. split; [reflexivity|exact Hge].
Qed.

Lemma close_spares_supplied_session_witness :
  let heap := [ {| closed := false; session_timeout := None |} ] in
  let c := with_api_key default_config "k" in
  let w0 := fresh_world c (Some 0) heap in
  let w := run failing_env supplied_ops w0 in
  (sessions (snd (close w0)) !! 0 = sessions w0 !! 0
   /\ snd (close w0) = w0)
  /\ _session (self w) = Some 1
  /\ sessions (snd (close w)) !! 0 = sessions w !! 0
  /\ session_closed (snd (close w)) 1 = true.
Proof.
  intros heap c w0 w.
  assert (H0 : 0 < length heap) by (simpl; lia).
  split; [|split; [|split]].
  - destruct (close_spares_supplied_session failing_env c 0 heap [] H0)
      as (Hsame & Hid & _).
    split; [exact Hsame|exact (Hid eq_refl)].
  - reflexivity.
  - exact (proj1 (close_spares_supplied_session failing_env c 0 heap
                    supplied_ops H0)).
  - reflexivity.
Defined.

(** ** Classification of responses *)

Lemma read_error_data_body r d :
  error_body r d -> read_error_data r = Return (JDict d).
Proof.
  unfold read_error_data.
  intros [-> | (e & t & -> & -> & -> & ->)]; reflexivity.
Qed.

Lemma field_errors_objects ds :
  field_errors (map JDict ds) = Return (map field_error_of_items ds).
Proof.
  induction ds as [|d ds IH]; [reflexivity|].
  simpl. rewrite IH. reflexivity.
Qed.

Lemma new_ValidationError_entry b d ds :
  errors_entry d ds ->
  new_ValidationError b (default JNull (items_get d "errors"))
  = Return (ValidationError b (map field_error_of_items ds)).
Proof.
  unfold new_ValidationError, py_or.
  intros [[Hf ->] | ->].
  - rewrite Hf. reflexivity.
  - simpl default. destruct ds as [|d0 ds]; [reflexivity|].
    cbn [py_truthy map]. rewrite <- (map_cons JDict), field_errors_objects.
    reflexivity.
Qed.

(** An error response, its body usable: what [handle_response] raises,
    by status. *)
Lemma handle_response_error r d :
  error_body r d ->
  (status r =? 200)%Z = false -> (status r =? 201)%Z = false ->
  (status r =? 204)%Z = false ->
  handle_response r
  = let b := error_fields r d in
    let entry k := default JNull (items_get d k) in
    if (status r =? 401)%Z then Raise (Sdk (AuthenticationError b))
    else if (status r =? 403)%Z then
      Raise (Sdk (AuthorizationError b
                    (py_or (entry "required_scopes") (JList []))))
    else if (status r =? 400)%Z then
      match new_ValidationError b (entry "errors") with
      | Return e => Raise (Sdk e)
      | Raise x => Raise x
      end
    else if (status r =? 404)%Z then
      Raise (Sdk (NotFoundError b (entry "resource_type")
                    (entry "resource_id")))
    else if (status r =? 409)%Z then Raise (Sdk (ConflictError b))
    else if (status r =? 429)%Z then
      match py_float (default "60" (headers_get (headers r) "Retry-After")) with
      | None => Raise (PyException "ValueError")
      | Some x => Raise (Sdk (RateLimitError b
                                (if float_truthy x then x else Fin 60)))
      end
    else if (500 <=? status r)%Z then Raise (Sdk (ServerError b))
    else Raise (Sdk (OpeniBankError b)).
Proof.
  intros Hb H200 H201 H204. unfold handle_response.
  rewrite H200, H201, H204, (read_error_data_body r d Hb).
  reflexivity.
Qed.

(** Settles every test on [status r] in the goal from the hypotheses. *)
Ltac decide_status r :=
  repeat match goal with
    | |- context [(status r =? ?k)%Z] =>
        first
          [ replace (status r =? k)%Z with true
              by (symmetry; apply Z.eqb_eq; lia)
          | replace (status r =? k)%Z with false
              by (symmetry; apply Z.eqb_neq; lia) ]
    | |- context [(?k <=? status r)%Z] =>
        first
          [ replace (k <=? status r)%Z with true
              by (symmetry; apply Z.leb_le; lia)
          | replace (k <=? status r)%Z with false
              by (symmetry; apply Z.leb_gt; lia) ]
    end.

(** C2.  The code at two 429 responses.  With [Retry-After: 0] the
    header parses to the float 0, and the [RateLimitError] raised
    carries 60, not 0: [RateLimitError.__init__] keeps
    [retry_after or 60.0].  With an HTTP date in [Retry-After],
    [float()] raises [ValueError] and no [RateLimitError] is raised. *)
Theorem retry_after_header_mishandled :
  headers_get (headers zero_retry_after) "Retry-After" = Some "0"
  /\ py_float "0" = Some (Fin 0)
  /\ handle_response zero_retry_after
     = Raise (Sdk (RateLimitError
                     (init_fields (JStr "Too many requests") JNull
                        (Some 429%Z) None JNull)
                     (Fin 60)))
  /\ ~ (exists b, handle_response zero_retry_after
                  = Raise (Sdk (RateLimitError b (Fin 0))))
  /\ status http_date_response = 429%Z
  /\ ~ (exists b x, handle_response http_date_response
                    = Raise (Sdk (RateLimitError b x))).
Proof.
  split; [reflexivity|]. split; [reflexivity|]. split; [reflexivity|].
  split; [|split; [reflexivity|]].
  - intros [b H]. vm_compute in H. discriminate H.
  - intros (b & x & H). vm_compute in H. discriminate H.
Qed.

(** The table of results by status, on responses the code reads
    through.  200 and 201
    give what [response.json()] gives; 204 gives the empty dict; and
    when the body is a JSON object, or cannot be read as JSON and its
    text is then the message, every other status raises the error of
    the table, carrying [message] (default ["Unknown error"]), [code],
    [status_code] and [request_id] (the [X-Request-ID] header):
    401 [AuthenticationError]; 403 [AuthorizationError] with the body's
    [required_scopes] (the empty list when missing); 400
    [ValidationError] with the body's [errors] as field errors, when
    that entry is missing or a list of objects; 404 [NotFoundError]
    with [resource_type] and [resource_id]; 409 [ConflictError]; 429
    [RateLimitError] with [retry_after] 60 when there is no
    [Retry-After] header, and, when the header parses to a number, that
    number unless it is zero, and 60 if it is zero; 500 and above
    [ServerError]; any other status [OpeniBankError]. *)
Theorem status_table r d :
  (status r = 200%Z \/ status r = 201%Z -> handle_response r = json_body r)
  /\ (status r = 204%Z -> handle_response r = Return (JDict []))
  /\ (error_body r d ->
      let b := error_fields r d in
      let entry k := default JNull (items_get d k) in
      (status r = 401%Z ->
       handle_response r = Raise (Sdk (AuthenticationError b)))
      /\ (status r = 403%Z ->
          handle_response r
          = Raise (Sdk (AuthorizationError b
                          (py_or (entry "required_scopes") (JList [])))))
      /\ (status r = 400%Z ->
          forall ds, errors_entry d ds ->
            handle_response r
            = Raise (Sdk (ValidationError b (map field_error_of_items ds))))
      /\ (status r = 404%Z ->
          handle_response r
          = Raise (Sdk (NotFoundError b (entry "resource_type")
                          (entry "resource_id"))))
      /\ (status r = 409%Z ->
          handle_response r = Raise (Sdk (ConflictError b)))
      /\ (status r = 429%Z ->
          (headers_get (headers r) "Retry-After" = None ->
           handle_response r = Raise (Sdk (RateLimitError b (Fin 60))))
          /\ (forall h x,
                headers_get (headers r) "Retry-After" = Some h ->
                py_float h = Some x ->
                handle_response r
                = Raise (Sdk (RateLimitError b
                                (if float_truthy x then x else Fin 60)))))
      /\ ((500 <= status r)%Z ->
          handle_response r = Raise (Sdk (ServerError b)))
      /\ ((status r < 500)%Z ->
          ~ In (status r) [200; 201; 204; 401; 403; 400; 404; 409; 429]%Z ->
          handle_response r = Raise (Sdk (OpeniBankError b)))).
Proof.
  split; [|split].
  - intros Hst. unfold handle_response.
    destruct Hst as [-> | ->]; reflexivity.
  - intros Hst. unfold handle_response. rewrite Hst. reflexivity.
  - intros Hb b entry.
    assert (Herr : (status r =? 200)%Z = false -> (status r =? 201)%Z = false ->
                   (status r =? 204)%Z = false -> _)
      by exact (handle_response_error r d Hb).
    cbv zeta in Herr. fold b in Herr.
    repeat split.
    + intros Hst. rewrite Herr by (rewrite Hst; reflexivity).
      decide_status r. reflexivity.
    + intros Hst. rewrite Herr by (rewrite Hst; reflexivity).
      decide_status r. reflexivity.
    + intros Hst ds Hds. rewrite Herr by (rewrite Hst; reflexivity).
      decide_status r. cbv iota.
      rewrite (new_ValidationError_entry b d ds Hds). reflexivity.
    + intros Hst. rewrite Herr by (rewrite Hst; reflexivity).
      decide_status r. reflexivity.
    + intros Hst. rewrite Herr by (rewrite Hst; reflexivity).
      decide_status r. reflexivity.
    + intros Hh. rewrite Herr by (apply Z.eqb_neq; lia).
      decide_status r. rewrite Hh. reflexivity.
    + intros h x Hh Hx. rewrite Herr by (apply Z.eqb_neq; lia).
      decide_status r. rewrite Hh. simpl default. rewrite Hx. reflexivity.
    + intros Hst. rewrite Herr by (apply Z.eqb_neq; lia).
      decide_status r. reflexivity.
    + intros Hlt Hnot. simpl in Hnot.
      rewrite Herr by (apply Z.eqb_neq; lia).
      decide_status r. reflexivity.
Qed.

Lemma status_table_samples :
  handle_response not_found_response
  = Raise (Sdk (NotFoundError
                  {| message := JStr "not found"; code := JNull;
                     status_code := Some 404%Z; request_id := Some "req-1";
                     details := JDict [] |}
                  (JStr "account") (JStr "abc")))
  /\ handle_response rate_limited_response
     = Raise (Sdk (RateLimitError
                     {| message := JStr "slow down";
                        code := JStr "rate_limited";
                        status_code := Some 429%Z; request_id := None;
                        details := JDict [] |}
                     (Fin 5)))
  /\ handle_response bad_gateway_response
     = Raise (Sdk (ServerError
                     {| message := JStr "<html>Bad Gateway</html>";
                        code := JNull; status_code := Some 502%Z;
                        request_id := None; details := JDict [] |})).
Proof.
  split; [|split].
  - destruct (status_table not_found_response
                [("message", JStr "not found");
                 ("resource_type", JStr "account");
                 ("resource_id", JStr "abc")]) as (_ & _ & H).
    destruct (H (or_introl eq_refl)) as (_ & _ & _ & H404 & _).
    exact (H404 eq_refl).
  - destruct (status_table rate_limited_response
                [("message", JStr "slow down"); ("code", JStr "rate_limited")])
      as (_ & _ & H).
    destruct (H (or_introl eq_refl)) as (_ & _ & _ & _ & _ & H429 & _).
    destruct (H429 eq_refl) as [_ Hnum].
    exact (Hnum "5" (Fin 5) eq_refl eq_refl).
  - destruct (status_table bad_gateway_response
                [("message", JStr "<html>Bad Gateway</html>")]) as (_ & _ & H).
    destruct H as (_ & _ & _ & _ & _ & _ & H5xx & _).
    { right. exists (AioClientError "unexpected mimetype: text/html"),
        "<html>Bad Gateway</html>". repeat split; reflexivity. }
    apply H5xx. simpl. lia.
Defined.

(** ** Exceptions that leave [request] unclassified *)

(** C6.  The code at a 429 response whose [Retry-After] header is an
    HTTP date: [float()] raises [ValueError], no [RateLimitError] is
    made, and [request] lets the [ValueError] out after that one
    attempt, without a sleep or a retry.  And at a 500 response whose
    body is a JSON array: [error_data.get] raises [AttributeError]. *)
Theorem retry_after_date_raises_ValueError :
  let run := request http_date_env "GET" "/accounts" None None None
               (fresh_world (with_api_key default_config "k") None []) in
  handle_response http_date_response = Raise (PyException "ValueError")
  /\ fst run = Raise (PyException "ValueError")
  /\ length (requests_of (trace (snd run))) = 1
  /\ sleeps_of (trace (snd run)) = []
  /\ handle_response array_body_response
     = Raise (PyException "AttributeError").
Proof.
  repeat split; reflexivity.
Qed.

(** C5.  The code when the token request fails in the transport: the
    [aiohttp.ClientError] raised by [session.post] leaves [request] as
    it is, not as a [NetworkError], and no transport call of the
    request itself is made.  The same exception raised by
    [session.request] inside the loop does come out as a
    [NetworkError]. *)
Theorem token_transport_error_escapes :
  let run := request unreachable_issuer_env "GET" "/accounts" None None None
               oauth_world in
  let run' := request unreachable_api_env "GET" "/accounts" None None None
                (fresh_world
                   (with_max_retries (with_api_key default_config "k") 1)
                   None []) in
  fst run = Raise (AioClientError "Cannot connect to host")
  /\ trace (snd run)
     = [EvPost 0 "https://sandbox.openibank.com/oauth/token"
          [("grant_type", "client_credentials"); ("client_id", "id");
           ("client_secret", "secret")]]
  /\ fst run'
     = Raise (Sdk (NetworkError
                     (fields_of_message
                        "Network error: Cannot connect to host"))).
Proof.
  repeat split; reflexivity.
Qed.

(** * Further properties *)

(** ** The loop, whatever the server does *)

(** A run of the loop whose first [k] attempts fail with a caught
    failure, each handler getting through, and whose next attempt
    settles. *)
Lemma attempts_settle env session rq k i m last w o (d : nat -> pyfloat) :
  (Z.of_nat (i + k) < max_retries (config (self w)))%Z ->
  k < m ->
  (forall j, j < k ->
     exists e,
       attempt_result env (requests w + j) rq = Raise e
       /\ retryable e = true
       /\ retries_after (config (self w)) (i + j) e (d j)) ->
  attempt_result env (requests w + k) rq = o ->
  settles o ->
  exists w',
    attempts env session rq (seq i m) last w = (o, w')
    /\ trace w'
       = trace w ++ retry_events session rq d k ++ [EvRequest session rq].
Proof.
  intros Hmax Hk Hfail Ho Hset.
  destruct (attempts_prefix env session rq k i m last w d Hmax
              ltac:(lia) Hfail)
    as (last' & w0 & Hrun & _ & _ & _ & _ & Hq & Ht).
  rewrite Hrun. replace (m - k) with (S (m - S k)) by lia.
  change (seq (i + k) (S (m - S k)))
    with ((i + k) :: seq (S (i + k)) (m - S k)).
  rewrite <- Hq in Ho.
  exists (sent session rq w0). split.
  - destruct o as [v|e]; [apply attempts_return, Ho|].
    apply attempts_propagate; [exact Ho|exact Hset].
  - simpl. rewrite Ht, <- app_assoc. reflexivity.
Qed.

(** X1.  The session and the token had: when the first [k] attempts
    of a [request] fail with a caught failure, the handler of the
    [j]-th getting through to a sleep of [d j] that returns (the
    delay is [retry_delay * 2^j], rounded, or the [RateLimitError]'s
    [retry_after]), [k < max_retries], and attempt [k] gives a payload
    (or raises what the loop does not catch), [request] gives exactly
    that, and what it did is: [k] times a transport call and the sleep
    of [d j], then one more call. *)
Theorem request_first_settled env method path params json' key
    w session w1 token w2 k o (d : nat -> pyfloat) :
  _get_session w = (Return session, w1) ->
  _ensure_token env w1 = (Return token, w2) ->
  let c := config (self w2) in
  let rq := call_of env c method path params json' token key in
  (Z.of_nat k < max_retries c)%Z ->
  (forall j, j < k ->
     exists e,
       attempt_result env (requests w2 + j) rq = Raise e
       /\ retryable e = true
       /\ retries_after c j e (d j)) ->
  attempt_result env (requests w2 + k) rq = o ->
  settles o ->
  exists w',
    request env method path params json' key w = (o, w')
    /\ trace w'
       = trace w2 ++ retry_events session rq d k ++ [EvRequest session rq].
Proof.
  intros H1 H2 c rq Hk Hfail Ho Hset.
  rewrite (request_unfold _ _ _ _ _ _ _ _ _ _ _ H1 H2).
  fold c. fold rq. unfold py_range.
  apply (attempts_settle env session rq k 0 (Z.to_nat (max_retries c)) None
           w2 o d); try assumption; lia.
Qed.

Lemma request_first_settled_witness :
  let w := fresh_world (with_api_key default_config "k") None [] in
  let rq := call_of recovering_env (with_api_key default_config "k")
              "GET" "/accounts/acc-1" None None (JStr "k") None in
  exists w',
    request recovering_env "GET" "/accounts/acc-1" None None None w
    = (Return (JDict [("id", JStr "acc-1")]), w')
    /\ trace w' = [EvRequest 0 rq; EvSleep (Fin 5); EvRequest 0 rq].
Proof.
  intros w rq.
  destruct (request_first_settled recovering_env "GET" "/accounts/acc-1"
              None None None w 0 (snd (_get_session w)) (JStr "k")
              (snd (_get_session w)) 1
              (Return (JDict [("id", JStr "acc-1")])) (fun _ => Fin 5)
              eq_refl eq_refl)
    as (w' & Hrun & Htr).
  - reflexivity.
  - intros j Hj. assert (j = 0) as -> by lia.
    eexists. split; [vm_compute; reflexivity|].
    split; [reflexivity|]. split; reflexivity.
  - reflexivity.
  - exact I.
  - exists w'. split; [exact Hrun|exact Htr].
Defined.

(** Over what is left of [range(max_retries)], the loop does nothing,
    or what it does is: some attempts each followed by a sleep that
    returns, then a last attempt, after which it ends or hangs in a
    sleep that does not return. *)
Lemma attempts_shape env session rq m :
  forall i last w,
    (max_retries (config (self w)) <= Z.of_nat (i + m))%Z ->
    let run := attempts env session rq (seq i m) last w in
    (m = 0 /\ trace (snd run) = trace w)
    \/ exists k (d : nat -> pyfloat),
         k < m
         /\ (forall j, j < k -> sleep_returns (d j) = true)
         /\ (trace (snd run)
             = trace w ++ retry_events session rq d k
               ++ [EvRequest session rq]
             \/ exists d',
                  sleep_returns d' = false
                  /\ fst run = Raise NeverReturns
                  /\ trace (snd run)
                     = trace w ++ retry_events session rq d k
                       ++ [EvRequest session rq; EvSleep d']).
Proof.
  induction m as [|m IH]; intros i last w Hmax run.
  - left. subst run. destruct last; auto.
  - right. subst run. change (seq i (S m)) with (i :: seq (S i) m).
    destruct (attempts_step env session rq i (seq (S i) m) last w)
      as [[res Hrun]|[[d' Hrun]|(e & d0 & He & Hr & Hrem & Hd & Hrun)]];
      rewrite Hrun.
    + exists 0, (fun _ => Fin 0). split; [lia|]. split; [intros j Hj; lia|].
      left. reflexivity.
    + exists 0, (fun _ => Fin 0). split; [lia|]. split; [intros j Hj; lia|].
      right. exists d'. split.
      * destruct (attempt_result env (requests w) rq) as [v|e] eqn:Hres.
        { rewrite (attempts_return _ _ _ _ _ _ _ v Hres) in Hrun.
          discriminate. }
        destruct (retryable e) eqn:Hr;
          [destruct (attempts_remain (config (self w)) i) eqn:Hn|].
        -- rewrite (attempts_handler _ _ _ _ _ _ _ e Hres Hr Hn) in Hrun.
           destruct (delay_after (config (self w)) i e) as [d|x];
             [destruct (sleep_returns d) eqn:Hs|].
           ++ exfalso.
              destruct (attempts_frame env session rq (seq (S i) m)
                          (Some (surfaced e))
                          (emit (EvSleep d) (sent session rq w)))
                as (_ & _ & _ & _ & evs & Htr & _ & Hne).
              rewrite Hrun in Htr. simpl in Htr.
              destruct Hne as [evs' ->].
              { unfold attempts_remain in Hn. apply Z.ltb_lt in Hn.
                destruct m; [lia|discriminate]. }
              rewrite <- !app_assoc in Htr. apply app_inv_head in Htr.
              simpl in Htr. discriminate.
           ++ injection Hrun as Hrun. apply app_inv_head in Hrun.
              injection Hrun as <-. exact Hs.
           ++ injection Hrun as _ Hrun.
              apply (f_equal (@length Event)) in Hrun.
              rewrite !length_app in Hrun. simpl in Hrun. lia.
        -- rewrite (attempts_give_up _ _ _ _ _ _ _ e Hres Hr Hn) in Hrun.
           injection Hrun as _ Hrun.
           apply (f_equal (@length Event)) in Hrun.
           rewrite !length_app in Hrun. simpl in Hrun. lia.
        -- rewrite (attempts_propagate _ _ _ _ _ _ _ e Hres Hr) in Hrun.
           injection Hrun as _ Hrun.
           apply (f_equal (@length Event)) in Hrun.
           rewrite !length_app in Hrun. simpl in Hrun. lia.
      * split; [reflexivity|]. simpl. rewrite <- app_assoc. reflexivity.
    + set (w1 := emit (EvSleep d0) (sent session rq w)) in *.
      assert (Hm : 1 <= m).
      { unfold attempts_remain in Hrem. apply Z.ltb_lt in Hrem. lia. }
      destruct (IH (S i) (Some (surfaced e)) w1) as [[Hm0 _]|Hshape].
      { simpl self. lia. }
      { lia. }
      destruct Hshape as (k & d & Hk & Hret & Hend).
      exists (S k), (fun j => match j with O => d0 | S j' => d j' end).
      split; [lia|]. split.
      { intros [|j] Hj; [exact (proj2 Hd)|apply Hret; lia]. }
      cbn [retry_events].
      destruct Hend as [Htr|(d' & Hs & Hres & Htr)]; [left|right; exists d'];
        rewrite ?Hres, Htr; unfold w1; rewrite emit_sent_trace, <- !app_assoc;
        repeat split; auto.
Qed.

Lemma silent_since_refl w : silent_since w w.
Proof. exists []. rewrite app_nil_r. auto. Qed.

(** [_ensure_token] neither calls the API nor sleeps. *)
Lemma _ensure_token_silent env w :
  silent_since w (snd (_ensure_token env w)).
Proof.
  apply (_ensure_token_preserves env (silent_since w));
    [| | | | |apply silent_since_refl].
  - intros w1 H. destruct (_get_session_frame w1) as (Ht & _).
    unfold silent_since. rewrite Ht. exact H.
  - intros v w1 H. exact H.
  - intros v w1 H. exact H.
  - intros w1 H. exact H.
  - intros s url data w1 (evs & Ht & Hq & Hs).
    exists (evs ++ [EvPost s url data]).
    unfold post. destruct (token_endpoint env (posts w1)); simpl;
      rewrite Ht, requests_of_app, sleeps_of_app, Hq, Hs, <- app_assoc;
      auto.
Qed.

(** X2.  Whatever the server and the issuer do, what one [request]
    does is: first what getting the token takes, which is neither a
    transport call nor a sleep; then nothing, or [k] attempts each
    followed by a sleep that returns and one more attempt, at most
    [max_retries] attempts in all.  A sleep is always preceded by an
    attempt, and it is followed by the next attempt unless it never
    returns, in which case [request] never returns. *)
Theorem request_attempts_bounded env method path params json' key w :
  let run := request env method path params json' key w in
  exists evs0 loop,
    trace (snd run) = trace w ++ evs0 ++ loop
    /\ requests_of evs0 = [] /\ sleeps_of evs0 = []
    /\ (loop = []
        \/ exists session rq k (d : nat -> pyfloat),
             (Z.of_nat (S k) <= max_retries (config (self w)))%Z
             /\ (forall j, j < k -> sleep_returns (d j) = true)
             /\ (loop = retry_events session rq d k ++ [EvRequest session rq]
                 \/ exists d',
                      sleep_returns d' = false
                      /\ fst run = Raise NeverReturns
                      /\ loop = retry_events session rq d k
                                ++ [EvRequest session rq; EvSleep d'])).
Proof.
  intros run. subst run.
  destruct (_get_session_returns w) as [session H1].
  destruct (_get_session_frame w) as (Ht1 & _ & _ & _ & Hc1 & _).
  set (w1 := snd (_get_session w)) in *.
  destruct (_ensure_token_silent env w1) as (evs0 & Ht2 & Hrq0 & Hsl0).
  destruct (_ensure_token_frame env w1) as (_ & Hc2 & _).
  destruct (_ensure_token env w1) as [[token|e] w2] eqn:H2; simpl in *.
  - rewrite (request_unfold _ _ _ _ _ _ _ _ _ _ _ H1 H2).
    set (rq0 := call_of env (config (self w2)) method path params json' token key).
    unfold py_range.
    destruct (attempts_shape env session rq0
                (Z.to_nat (max_retries (config (self w2)))) 0 None w2)
      as [[_ Htr]|(k & d & Hk & Hret & Hend)].
    { simpl. lia. }
    + exists evs0, []. rewrite Htr, Ht2, Ht1, app_nil_r. auto.
    + assert (Hle : (Z.of_nat (S k) <= max_retries (config (self w)))%Z).
      { rewrite <- Hc1, <- Hc2. lia. }
      destruct Hend as [Htr|(d' & Hs & Hres & Htr)].
      * exists evs0, (retry_events session rq0 d k ++ [EvRequest session rq0]).
        rewrite Htr, Ht2, Ht1, <- !app_assoc.
        repeat split; auto. right. exists session, rq0, k, d. auto.
      * exists evs0, (retry_events session rq0 d k
                      ++ [EvRequest session rq0; EvSleep d']).
        rewrite Htr, Ht2, Ht1, <- !app_assoc.
        repeat split; auto. right. exists session, rq0, k, d.
        split; [exact Hle|]. split; [exact Hret|].
        right. exists d'. auto.
  - exists evs0, []. unfold request, bind. rewrite H1, H2. simpl.
    rewrite Ht2, Ht1, app_nil_r. auto.
Qed.

(** ** Query parameters *)

(** What [filter_params] keeps of a dict: every entry whose value is
    not [None], and nothing else. *)
Lemma filter_params_lookup (p : gmap string json) :
  exists p' : gmap string json,
    filter_params (Some p) = Some p'
    /\ forall k, p' !! k = match p !! k with
                           | Some JNull => None
                           | o => o
                           end.
Proof.
  unfold filter_params. destruct (map_to_list p) as [|kv l] eqn:E.
  - exists p. split; [reflexivity|]. intros k.
    apply map_to_list_empty_iff in E. subst p. rewrite lookup_empty.
    reflexivity.
  - eexists. split; [reflexivity|]. intros k.
    destruct (filter (fun kv : string * json => is_not_None kv.2 = true) p !! k)
      as [v|] eqn:F.
    + apply map_lookup_filter_Some in F as [Hp HP]. rewrite Hp.
      destruct v; try reflexivity. discriminate HP.
    + destruct (p !! k) as [v|] eqn:Hp; [|reflexivity].
      destruct v; try reflexivity;
        (assert (F' := map_lookup_filter_Some_2
                         (fun kv : string * json => is_not_None kv.2 = true)
                         p k _ Hp eq_refl);
         rewrite F in F'; discriminate F').
Qed.

(** X3.  A [request] that has its session and its token and is
    allowed an attempt makes a transport call, and every call it
    makes has the same query parameters: none when none were given;
    otherwise the entries given whose value is not [None], with their
    values, and no other entry.  A [None] value is never
    transmitted. *)
Theorem request_drops_null_params env method path params json' key
    w session w1 token w2 :
  _get_session w = (Return session, w1) ->
  _ensure_token env w1 = (Return token, w2) ->
  (0 < max_retries (config (self w2)))%Z ->
  exists rq evs,
    trace (snd (request env method path params json' key w))
    = trace w2 ++ EvRequest session rq :: evs
    /\ (forall rq', In rq' (requests_of evs) -> rq' = rq)
    /\ match params, rq_params rq with
       | None, None => True
       | Some p, Some p' =>
           forall k, p' !! k = match p !! k with
                               | Some JNull => None
                               | o => o
                               end
       | _, _ => False
       end.
Proof.
  intros H1 H2 Hmax.
  destruct (request_calls env method path params json' key w session w1
              token w2 H1 H2 Hmax) as (evs & Htr & Hall).
  eexists _, evs. split; [exact Htr|]. split; [exact Hall|].
  simpl rq_params. destruct params as [p|]; [|exact I].
  destruct (filter_params_lookup p) as (p' & -> & Hp'). exact Hp'.
Qed.

Lemma request_drops_null_params_witness :
  let w := fresh_world (with_api_key default_config "k") None [] in
  let params : gmap string json :=
    <[ "status" := JNull ]> {[ "limit" := JInt 10 ]} in
  let run := request failing_env "GET" "/accounts" (Some params) None None w in
  length (requests_of (trace (snd run))) = 3
  /\ forall rq, In rq (requests_of (trace (snd run))) ->
       exists p : gmap string json,
         rq_params rq = Some p
         /\ p !! "limit" = Some (JInt 10) /\ p !! "status" = None.
Proof.
  intros w params run.
  destruct (request_drops_null_params failing_env "GET" "/accounts"
              (Some params) None None w 0 (snd (_get_session w)) (JStr "k")
              (snd (_get_session w)) eq_refl eq_refl eq_refl)
    as (rq & evs & Htr & Hall & Hp).
  split; [vm_compute; reflexivity|].
  fold w run in Htr. rewrite Htr.
  change (trace (snd (_get_session w))) with (@nil Event).
  simpl requests_of. intros rq' Hin.
  assert (rq' = rq) as -> by (destruct Hin as [<-|Hin]; auto).
  destruct (rq_params rq) as [p|]; [|contradiction].
  exists p. split; [reflexivity|]. rewrite !Hp. unfold params. split.
  - rewrite lookup_insert_ne by discriminate.
    rewrite lookup_singleton_eq. reflexivity.
  - rewrite lookup_insert_eq. reflexivity.
Defined.

(** ** Reuse of the cached token *)

Lemma request_headers_authorization env c token key :
  request_headers env c token key !! "Authorization"
  = Some ("Bearer " +:+ format_token env token).
Proof.
  unfold request_headers.
  destruct key as [k|]; [destruct (str_truthy k)|]; reflexivity.
Qed.

(** With a fresh token held, [_ensure_token] returns it and only reads
    the clock. *)
Lemma _ensure_token_fresh env w :
  token_is_fresh env w ->
  exists w',
    _ensure_token env w = (Return (_access_token (self w)), w')
    /\ self w' = self w /\ trace w' = trace w /\ posts w' = posts w.
Proof.
  intros Hf. destruct (token_fresh_true env w Hf)
    as (w0 & Hrun & Hs & _ & Ht & Hp & _).
  exists w0. unfold _ensure_token, bind at 1. rewrite Hrun.
  unfold bind, get_self, ret. rewrite Hs. auto.
Qed.

(** A [request] made while a fresh token is held. *)
Lemma request_with_fresh_token env method path params json' key w :
  token_is_fresh env w ->
  exists evs,
    trace (snd (request env method path params json' key w)) = trace w ++ evs
    /\ posts (snd (request env method path params json' key w)) = posts w
    /\ self (snd (request env method path params json' key w))
       = self (snd (_get_session w))
    /\ (forall rq, In rq (requests_of evs) ->
          rq_headers rq !! "Authorization"
          = Some ("Bearer " +:+ format_token env (_access_token (self w))))
    /\ ((0 < max_retries (config (self w)))%Z -> requests_of evs <> []).
Proof.
  intros [Htok Hlt].
  destruct (_get_session_returns w) as [session H1].
  destruct (_get_session_frame w) as (Ht1 & _ & Hp1 & Hc1 & _ & Ha1 & He1).
  set (w1 := snd (_get_session w)) in *.
  assert (Hf1 : token_is_fresh env w1).
  { split; [rewrite Ha1; exact Htok|]. rewrite Hc1, He1. exact Hlt. }
  destruct (_ensure_token_fresh env w1 Hf1) as (w2 & H2 & Hs2 & Ht2 & Hp2).
  rewrite (request_unfold _ _ _ _ _ _ _ _ _ _ _ H1 H2).
  set (rq0 := call_of env (config (self w2)) method path params json'
                (_access_token (self w1)) key).
  destruct (attempts_frame env session rq0
              (py_range (max_retries (config (self w2)))) None w2)
    as (Hs & _ & _ & Hp & evs & Htr & Hall & Hne).
  exists evs. rewrite Htr, Ht2, Ht1, Hp, Hp2, Hp1, Hs, Hs2.
  repeat split.
  - intros rq Hin. rewrite (loop_events_requests _ _ _ Hall rq Hin).
    unfold rq0. simpl rq_headers. rewrite request_headers_authorization, Ha1.
    reflexivity.
  - intros Hmax. destruct Hne as [evs' ->]; [|discriminate].
    rewrite Hs2. unfold py_range.
    destruct (_get_session_frame w) as (_ & _ & _ & _ & Hcfg & _).
    fold w1 in Hcfg. rewrite Hcfg.
    destruct (Z.to_nat (max_retries (config (self w)))) eqn:E; [lia|].
    discriminate.
Qed.

(** X4.  After [set_access_token(token, expires_in)] with a non-empty
    token, a [request] whose reading of the clock is before
    [now + expires_in - 60] sends [Bearer token] on every attempt and
    posts no token request, whatever credentials are configured: the
    token set takes precedence over an [api_key] and is used without
    any [client_id]. *)
Theorem set_token_then_request env token expires_in
    method path params json' key w0 :
  str_truthy token = true ->
  (clock env (S (clock_reads w0))
   < clock env (clock_reads w0) + inject_Z expires_in - 60)%Q ->
  let w := snd (set_access_token env (JStr token) (JInt expires_in) w0) in
  let w' := snd (request env method path params json' key w) in
  exists evs,
    trace w' = trace w0 ++ evs
    /\ posts w' = posts w0
    /\ forall rq, In rq (requests_of evs) ->
         rq_headers rq !! "Authorization" = Some ("Bearer " +:+ token).
Proof.
  intros Htok Hlt w w'.
  assert (Hf : token_is_fresh env w).
  { split; [exact Htok|exact Hlt]. }
  destruct (request_with_fresh_token env method path params json' key w Hf)
    as (evs & Htr & Hp & _ & Hall & _).
  exists evs. subst w'. rewrite Htr, Hp. repeat split. exact Hall.
Qed.

Lemma set_token_then_request_witness :
  let w0 := fresh_world (with_api_key default_config "k") None [] in
  let w := snd (set_access_token failing_env (JStr "tok") (JInt 3600) w0) in
  let w' := snd (request failing_env "GET" "/accounts" None None None w) in
  posts w' = 0
  /\ length (requests_of (trace w')) = 3
  /\ forall rq, In rq (requests_of (trace w')) ->
       rq_headers rq !! "Authorization" = Some "Bearer tok".
Proof.
  intros w0 w w'.
  destruct (set_token_then_request failing_env "tok" 3600 "GET" "/accounts"
              None None None w0 eq_refl eq_refl)
    as (evs & Htr & Hp & Hall).
  split; [exact Hp|]. split; [reflexivity|].
  intros rq Hin. apply Hall. fold w w' in Htr. rewrite Htr in Hin. exact Hin.
Defined.

(** The client-credentials path when the issuer answers 200 with a
    token and a whole number of seconds: what is sent, what is cached
    and what was read. *)
Lemma after_stale_fetches env w d tok ei :
  opt_str_truthy (api_key (config (self w))) = false ->
  str_truthy (client_id (config (self w))) = true ->
  str_truthy (client_secret (config (self w))) = true ->
  token_endpoint env (posts w) = PostResponds 200 (Return (JDict d)) ->
  items_get d "access_token" = Some tok ->
  default (JInt 3600) (items_get d "expires_in") = JInt ei ->
  exists s w',
    after_stale env w = (Return tok, w')
    /\ trace w' = trace w ++ [token_request (config (self w)) s]
    /\ posts w' = S (posts w)
    /\ requests w' = requests w
    /\ clock_reads w' = S (clock_reads w)
    /\ config (self w') = config (self w)
    /\ _access_token (self w') = tok
    /\ _token_expires_at (self w')
       = Fin (clock env (clock_reads w) + inject_Z ei - 60).
Proof.
  intros Hkey Hid Hsec Hpost Htok Hei.
  destruct (_request_token_responds env w 200 (Return (JDict d)) Hpost)
    as (s & w1 & Hrun & Ht1 & Hp1 & Hr1 & Hc1 & Hg1 & _).
  change (negb (200 =? 200)%Z) with false in Hrun. cbv iota in Hrun.
  unfold from_dict in Hrun. rewrite Htok, Hei in Hrun.
  rewrite after_stale_requests, Hrun by assumption.
  cbn [access_token expires_in].
  exists s. eexists. split; [reflexivity|]. simpl.
  rewrite Ht1, Hp1, Hr1, Hc1, Hg1. repeat split; reflexivity.
Qed.

(** X5.  A client that holds no fresh token (none, or one that has
    expired), with [client_id] and [client_secret] and no [api_key]:
    when the issuer answers 200 with a truthy token and a whole number
    of seconds to live, and the clock advances by less than that
    number less 60 between two readings, two consecutive requests post
    one token request in all, and every attempt of both carries
    [Bearer] with that token; each request allowed an attempt makes
    one. *)
Theorem consecutive_requests_one_fetch env
    method1 path1 params1 body1 key1 method2 path2 params2 body2 key2
    w d tok ei :
  ~ token_is_fresh env w ->
  opt_str_truthy (api_key (config (self w))) = false ->
  str_truthy (client_id (config (self w))) = true ->
  str_truthy (client_secret (config (self w))) = true ->
  token_endpoint env (posts w) = PostResponds 200 (Return (JDict d)) ->
  items_get d "access_token" = Some tok ->
  py_truthy tok = true ->
  default (JInt 3600) (items_get d "expires_in") = JInt ei ->
  (forall k, clock env (S k) < clock env k + inject_Z ei - 60)%Q ->
  let w1 := snd (request env method1 path1 params1 body1 key1 w) in
  let w2 := snd (request env method2 path2 params2 body2 key2 w1) in
  posts w1 = S (posts w) /\ posts w2 = S (posts w)
  /\ exists evs,
       trace w2 = trace w ++ evs
       /\ (forall rq, In rq (requests_of evs) ->
             rq_headers rq !! "Authorization"
             = Some ("Bearer " +:+ format_token env tok))
       /\ ((0 < max_retries (config (self w)))%Z ->
           2 <= length (requests_of evs)).
Proof.
  intros Hstale Hkey Hid Hsec Hpost Htok Htruthy Hei Hclock w1 w2.
  destruct (_get_session_returns w) as [session H1].
  destruct (_get_session_frame w) as (Hta & _ & Hpa & Hca & Hcfg & Haa & Hea).
  set (wa := snd (_get_session w)) in *.
  assert (Hstale_a : ~ token_is_fresh env wa).
  { intros [Ha Hb]. apply Hstale. split; [rewrite <- Haa; exact Ha|].
    rewrite <- Hca, <- Hea. exact Hb. }
  destruct (_ensure_token_stale env wa Hstale_a)
    as (w0 & Hens & Hs0 & _ & Ht0 & Hp0 & Hr0).
  destruct (after_stale_fetches env w0 d tok ei)
    as (s & wb & H2 & Htb & Hpb & Hrb & Hcb & Hgb & Hab & Heb);
    try (rewrite ?Hs0, ?Hcfg, ?Hp0, ?Hpa; assumption).
  rewrite <- Hens in H2.
  assert (Hrun1 := request_unfold env method1 path1 params1 body1 key1
                     w session wa tok wb H1 H2).
  set (rq1 := call_of env (config (self wb)) method1 path1 params1 body1
                tok key1) in *.
  destruct (attempts_frame env session rq1
              (py_range (max_retries (config (self wb)))) None wb)
    as (Hs & _ & Hc & Hp & evs1 & Htr1 & Hall1 & Hne1).
  rewrite <- Hrun1 in Hs, Hc, Hp, Htr1. fold w1 in Hs, Hc, Hp, Htr1.
  assert (Hf : token_is_fresh env w1).
  { split; [rewrite Hs, Hab; exact Htruthy|].
    rewrite Hs, Hc, Heb, Hcb. apply Hclock. }
  destruct (request_with_fresh_token env method2 path2 params2 body2 key2
              w1 Hf) as (evs2 & Htr2 & Hp2 & _ & Hall2 & Hne2).
  fold w2 in Htr2, Hp2.
  assert (Hcfg1 : config (self w1) = config (self w)).
  { rewrite Hs, Hgb, Hs0, Hcfg. reflexivity. }
  split; [rewrite Hp, Hpb, Hp0, Hpa; reflexivity|].
  split; [rewrite Hp2, Hp, Hpb, Hp0, Hpa; reflexivity|].
  exists (([token_request (config (self w0)) s] ++ evs1) ++ evs2).
  split; [|split].
  { rewrite Htr2, Htr1, Htb, Ht0, Hta, !app_assoc. reflexivity. }
  - intros rq Hin. rewrite !requests_of_app in Hin. simpl in Hin.
    apply in_app_or in Hin as [Hin|Hin].
    + rewrite (loop_events_requests _ _ _ Hall1 rq Hin).
      unfold rq1. simpl rq_headers. apply request_headers_authorization.
    + rewrite (Hall2 rq Hin), Hs, Hab. reflexivity.
  - intros Hmax. rewrite !requests_of_app, !length_app. simpl.
    destruct Hne1 as [evs' ->].
    { unfold py_range. rewrite Hgb, Hs0, Hcfg.
      destruct (Z.to_nat (max_retries (config (self w)))) eqn:E; [lia|].
      discriminate. }
    specialize (Hne2 ltac:(rewrite Hcfg1; exact Hmax)).
    destruct (requests_of evs2); [contradiction|]. simpl. lia.
Qed.

Lemma consecutive_requests_one_fetch_witness :
  let env := issuer_env 200 (Return sample_token_data) in
  let w1 := snd (request env "GET" "/accounts" None None None oauth_world) in
  let w2 := snd (request env "GET" "/payments" None None None w1) in
  posts w2 = 1
  /\ length (requests_of (trace w2)) = 6
  /\ forall rq, In rq (requests_of (trace w2)) ->
       rq_headers rq !! "Authorization" = Some "Bearer abc".
Proof.
  intros env w1 w2.
  destruct (consecutive_requests_one_fetch env
              "GET" "/accounts" None None None "GET" "/payments" None None None
              oauth_world
              [("access_token", JStr "abc"); ("expires_in", JInt 120)]
              (JStr "abc") 120
              (fresh_world_not_fresh _ _ _ _)
              eq_refl eq_refl eq_refl eq_refl eq_refl eq_refl eq_refl)
    as (_ & Hp & evs & Htr & Hall & _).
  { intros k. reflexivity. }
  split; [exact Hp|]. split; [reflexivity|].
  intros rq Hin. apply Hall. fold w1 w2 in Htr. rewrite Htr in Hin. exact Hin.
Defined.

(** ** Sessions *)

Lemma open_session_Some w i :
  open_session w = Some i ->
  _session (self w) = Some i /\ session_closed w i = false.
Proof.
  unfold open_session. destruct (_session (self w)) as [j|]; [|discriminate].
  destruct (session_closed w j) eqn:E; [discriminate|].
  intros [= <-]. auto.
Qed.

Lemma open_session_None w i :
  open_session w = None -> _session (self w) = Some i ->
  session_closed w i = true.
Proof.
  unfold open_session. intros H Hs. rewrite Hs in H.
  destruct (session_closed w i); [reflexivity|discriminate].
Qed.

(** X6.  [_get_session] returns a session that the client holds and
    that is open; it closes and changes no session that exists, makes
    at most one, and asked again at once gives the same session and
    changes nothing. *)
Theorem _get_session_open w :
  exists i w',
    _get_session w = (Return i, w')
    /\ _session (self w') = Some i
    /\ session_closed w' i = false
    /\ (forall j s, sessions w !! j = Some s -> sessions w' !! j = Some s)
    /\ length (sessions w') <= S (length (sessions w))
    /\ _get_session w' = (Return i, w').
Proof.
  unfold _get_session at 1. destruct (open_session w) as [i|] eqn:E.
  - exists i, w. destruct (open_session_Some w i E) as [Hs Hc].
    repeat split; auto. unfold _get_session. rewrite E. reflexivity.
  - eexists _, _. split; [reflexivity|]. simpl.
    assert (Hopen : forall t c,
               (sessions w ++ [ {| closed := false; session_timeout := t |} ])
                 !! length (sessions w)
               = Some {| closed := c; session_timeout := t |} -> c = false).
    { intros t c H. rewrite list_lookup_middle in H by reflexivity.
      congruence. }
    split; [reflexivity|]. split.
    { unfold session_closed. simpl.
      rewrite list_lookup_middle by reflexivity. reflexivity. }
    split.
    { intros j s Hj. apply lookup_app_l_Some, Hj. }
    split.
    { rewrite length_app. simpl. lia. }
    unfold _get_session, open_session, session_closed. simpl.
    rewrite list_lookup_middle by reflexivity. reflexivity.
Qed.

(** X9.  [close()] called twice does what it does once, and it
    keeps the configuration, the cached token and its expiry. *)
Theorem close_idempotent w :
  let w' := snd (close w) in
  snd (close w') = w'
  /\ config (self w') = config (self w)
  /\ _access_token (self w') = _access_token (self w)
  /\ _token_expires_at (self w') = _token_expires_at (self w).
Proof.
  unfold close, bind, get_self.
  destruct (_session (self w)) as [i|] eqn:Hs;
    [destruct (_owned_session (self w)) eqn:Ho|]; simpl;
    rewrite ?Hs, ?Ho; simpl; auto.
Qed.

Lemma session_close_closed j w i :
  session_closed w i = true -> session_closed (snd (session_close j w)) i = true.
Proof.
  unfold session_closed, session_close. simpl.
  destruct (sessions w !! j) as [s|] eqn:Hj; [|auto].
  destruct (decide (j = i)) as [->|Hne].
  - intros _. rewrite list_lookup_insert_eq; [reflexivity|].
    apply lookup_lt_Some in Hj. exact Hj.
  - rewrite list_lookup_insert_ne by exact Hne. auto.
Qed.

Lemma _get_session_made_inv n0 : preserves (made_sessions_inv n0) _get_session.
Proof.
  intros w (Hlen & Hheld & Hmade). unfold _get_session.
  destruct (open_session w) as [i|] eqn:E; [repeat split; assumption|].
  unfold made_sessions_inv, session_closed. simpl.
  rewrite length_app. simpl. split; [lia|]. split.
  { intros i [= <-]. lia. }
  intros i Hge Hlt.
  destruct (decide (i = length (sessions w))) as [->|Hne]; [right; auto|].
  left. assert (Hi : i < length (sessions w)) by lia.
  rewrite lookup_app_l by exact Hi.
  destruct (Hmade i Hge Hi) as [Hc|[Hs _]]; [exact Hc|].
  exact (open_session_None w i E Hs).
Qed.

Lemma close_made_inv n0 : preserves (made_sessions_inv n0) close.
Proof.
  intros w (Hlen & Hheld & Hmade). unfold close, bind, get_self.
  destruct (_session (self w)) as [i|] eqn:Hs;
    [destruct (_owned_session (self w)) eqn:Ho|];
    try (split; [exact Hlen|]; split;
         [ intros j Hj; simpl in Hj; rewrite Hs in Hj; apply Hheld, Hj
         | intros j Hge Hlt; simpl; rewrite Hs, ?Ho; apply Hmade; assumption ]).
  specialize (Hheld i eq_refl).
  destruct (lookup_lt_is_Some_2 _ _ Hheld) as [s Hi].
  unfold made_sessions_inv, session_closed. simpl. rewrite Hi.
  rewrite length_insert. split; [exact Hlen|]. split; [intros j [=]|].
  intros j Hge Hlt. left.
  destruct (decide (i = j)) as [<-|Hne].
  - rewrite list_lookup_insert_eq by exact Hheld. reflexivity.
  - rewrite list_lookup_insert_ne by exact Hne.
    destruct (Hmade j Hge Hlt) as [Hc|[Hj _]]; [exact Hc|congruence].
Qed.

Lemma run_op_made_inv env n0 op w :
  made_sessions_inv n0 w -> made_sessions_inv n0 (run_op env op w).
Proof.
  intros H. destruct op as [method path params json' key|token expires_in| |j];
    cbn [run_op].
  - apply (request_preserves env (made_sessions_inv n0)); try assumption;
      try (intros; intros ? ?; assumption).
    + apply _get_session_made_inv.
    + intros s' url data w1 H1. unfold post.
      destruct (token_endpoint env (posts w1)); exact H1.
    + intros; assumption.
    + intros; assumption.
  - apply (set_access_token_preserves env (made_sessions_inv n0));
      try assumption; intros; intros ? ?; assumption.
  - apply close_made_inv, H.
  - destruct H as (Hlen & Hheld & Hmade).
    unfold made_sessions_inv. rewrite session_close_length.
    split; [exact Hlen|]. split; [exact Hheld|].
    intros i Hge Hlt. destruct (Hmade i Hge Hlt) as [Hc|Hs]; [left|right; exact Hs].
    apply session_close_closed, Hc.
Qed.

Lemma run_made_inv env n0 ops :
  forall w, made_sessions_inv n0 w -> made_sessions_inv n0 (run env ops w).
Proof.
  induction ops as [|op ops IH]; intros w H; [exact H|].
  apply IH, run_op_made_inv, H.
Qed.

(** X8.  A client constructed over a heap of sessions, with or
    without a session of the caller's: after any sequence of calls to
    its methods and of sessions being closed by their holders,
    [close()] leaves closed every session made since the
    construction, that is, every session the client made for itself;
    and the client then holds no session of its own. *)
Theorem close_releases_made_sessions env c session heap ops :
  (forall s, session = Some s -> s < length heap) ->
  let w := snd (close (run env ops (fresh_world c session heap))) in
  (forall i, length heap <= i -> i < length (sessions w) ->
     session_closed w i = true)
  /\ (_session (self w) = None \/ _owned_session (self w) = false).
Proof.
  intros Hs w.
  assert (Hinv : made_sessions_inv (length heap) w).
  { apply close_made_inv, run_made_inv.
    split; [reflexivity|]. split; [exact Hs|].
    intros i Hge Hlt. simpl in Hlt. lia. }
  destruct Hinv as (_ & _ & Hmade).
  assert (Hheld : _session (self w) = None \/ _owned_session (self w) = false).
  { subst w. unfold close, bind, get_self.
    destruct (_session (self (run env ops (fresh_world c session heap))))
      as [i|] eqn:Hi;
      [destruct (_owned_session (self (run env ops (fresh_world c session heap))))
         eqn:Ho|]; simpl; auto. }
  split; [|exact Hheld].
  intros i Hge Hlt. destruct (Hmade i Hge Hlt) as [Hc|[Hi Ho]]; [exact Hc|].
  destruct Hheld as [Hn|Hf]; congruence.
Qed.

Lemma close_releases_made_sessions_witness :
  let heap := [ {| closed := false; session_timeout := None |} ] in
  let c := with_api_key default_config "k" in
  let w := snd (close (run failing_env supplied_ops
                         (fresh_world c (Some 0) heap))) in
  length (sessions w) = 2
  /\ session_closed w 1 = true
  /\ _session (self w) = None.
Proof.
  intros heap c w.
  destruct (close_releases_made_sessions failing_env c (Some 0) heap
              supplied_ops) as [Hall _].
  { intros s [= <-]. simpl. lia. }
  split; [reflexivity|]. split; [|reflexivity].
  apply Hall; [simpl; lia|vm_compute; lia].
Defined.

(** X10.  No call to the client's methods, and no closing of a
    session, changes the client's configuration. *)
Theorem configuration_is_kept env ops w :
  config (self (run env ops w)) = config (self w).
Proof.
  revert w. induction ops as [|op ops IH]; intros w; [reflexivity|].
  simpl. rewrite IH. clear IH.
  destruct op as [method path params json' key|token expires_in| |j];
    cbn [run_op].
  - apply (request_preserves env (fun x => config (self x) = config (self w)));
      try reflexivity; try (intros; intros ? ?; assumption).
    + intros x Hx. destruct (_get_session_frame x) as (_ & _ & _ & _ & Hc & _).
      rewrite Hc. exact Hx.
    + intros s' url data w1 H1. unfold post.
      destruct (token_endpoint env (posts w1)); exact H1.
    + intros; assumption.
    + intros; assumption.
  - reflexivity.
  - unfold close, bind, get_self.
    destruct (_session (self w)); [destruct (_owned_session (self w))|];
      reflexivity.
  - reflexivity.
Qed.

Lemma _get_session_one_session heap :
  preserves (one_session_inv heap) _get_session.
Proof.
  intros w (Hpre & Hlen & Hheld). unfold _get_session.
  destruct (open_session w) as [i|] eqn:E;
    [rewrite <- E in Hheld; exact (conj Hpre (conj Hlen Hheld))|].
  assert (Hn : length (sessions w) = length heap).
  { destruct (decide (length (sessions w) = S (length heap))) as [Heq|Hne];
      [|lia]. discriminate (Hheld Heq). }
  unfold one_session_inv, open_session, session_closed. simpl.
  rewrite length_app. simpl. split.
  { intros j s Hj. apply lookup_app_l_Some, Hpre, Hj. }
  split; [lia|]. intros _.
  rewrite list_lookup_middle by reflexivity. simpl. rewrite Hn. reflexivity.
Qed.

Lemma run_op_one_session env heap op w :
  closes_nothing op = true ->
  one_session_inv heap w -> one_session_inv heap (run_op env op w).
Proof.
  intros Hop H.
  destruct op as [method path params json' key|token expires_in| |j];
    try discriminate Hop; cbn [run_op].
  - apply (request_preserves env (one_session_inv heap)); try assumption;
      try (intros; intros ? ?; assumption).
    + apply _get_session_one_session.
    + intros s' url data w1 H1. unfold post.
      destruct (token_endpoint env (posts w1)); exact H1.
    + intros; assumption.
    + intros; assumption.
  - apply (set_access_token_preserves env (one_session_inv heap));
      try assumption; intros; intros ? ?; assumption.
Qed.

(** X7.  Over any sequence of [request] and [set_access_token]
    calls, no session being closed meanwhile, the client makes at most
    one session, whatever the number of requests and of attempts, and
    leaves every session that existed at its construction as it
    was. *)
Theorem one_session_for_all_requests env c session heap ops :
  Forall (fun op => closes_nothing op = true) ops ->
  let w := run env ops (fresh_world c session heap) in
  length (sessions w) <= S (length heap)
  /\ forall j s, heap !! j = Some s -> sessions w !! j = Some s.
Proof.
  intros Hops w.
  assert (Hinv : one_session_inv heap w).
  { subst w.
    assert (H0 : one_session_inv heap (fresh_world c session heap)).
    { split; [auto|]. simpl. split; lia. }
    revert H0. generalize (fresh_world c session heap).
    induction Hops as [|op ops Hop _ IH]; intros w0 H0; [exact H0|].
    apply IH, run_op_one_session; assumption. }
  destruct Hinv as (Hpre & Hlen & _). split; [lia|exact Hpre].
Qed.

Lemma one_session_for_all_requests_witness :
  let w := run failing_env three_requests
             (fresh_world (with_api_key default_config "k") None []) in
  length (sessions w) <= 1 /\ length (requests_of (trace w)) = 9.
Proof.
  intros w. split; [|reflexivity].
  destruct (one_session_for_all_requests failing_env
              (with_api_key default_config "k") None [] three_requests)
    as [Hle _].
  { repeat constructor. }
  exact Hle.
Defined.

(** ** What a raised error, or a payload, says of the response *)

Lemma new_ValidationError_class b v e :
  new_ValidationError b v = Return e -> exists fes, e = ValidationError b fes.
Proof.
  unfold new_ValidationError.
  destruct (py_or v (JList [])); try discriminate.
  destruct (field_errors l); [|discriminate].
  intros [= <-]. eexists. reflexivity.
Qed.

Lemma field_errors_raises l x :
  field_errors l = Raise x -> x = PyException "AttributeError".
Proof.
  induction l as [|v l IH]; [discriminate|]. simpl.
  destruct v; try (intros [= <-]; reflexivity).
  simpl. destruct (field_errors l); [discriminate|].
  intros [= <-]. apply IH. reflexivity.
Qed.

Lemma new_ValidationError_raises b v x :
  new_ValidationError b v = Raise x -> forall e, x <> Sdk e.
Proof.
  unfold new_ValidationError.
  destruct (py_or v (JList [])); try (intros [= <-]; discriminate).
  destruct (field_errors l) as [fes|y] eqn:E; [discriminate|].
  intros [= <-]. rewrite (field_errors_raises l y E). discriminate.
Qed.

Lemma read_error_data_cases r :
  reads_cleanly r ->
  (exists d, error_body r d /\ read_error_data r = Return (JDict d))
  \/ (exists v, read_error_data r = Return v
                /\ forall k dflt, exists x, py_get v k dflt = Raise x
                                            /\ forall e, x <> Sdk e)
  \/ (exists x, read_error_data r = Raise x /\ forall e, x <> Sdk e).
Proof.
  intros [Hj Ht]. unfold read_error_data, error_body.
  destruct (json_body r) as [v|x] eqn:Ej.
  - destruct v; try (right; left; eexists; split; [reflexivity|];
                     intros k dflt; eexists; split; [reflexivity|];
                     discriminate).
    left. exists d. auto.
  - destruct (is_Exception x) eqn:Ex.
    + destruct (text_body r) as [t|x'] eqn:Et.
      * left. eexists. split; [|reflexivity]. right. exists x, t. auto.
      * right. right. exists x'. split; [reflexivity|].
        intros e ->. exact (Ht e eq_refl).
    + right. right. exists x. split; [reflexivity|].
      intros e ->. exact (Hj e eq_refl).
Qed.

(** X11.  Whatever the response (its body read without an SDK error
    being raised by the reading itself): an SDK error raised by
    [handle_response] carries the response's status and its
    [X-Request-ID], and its class tells the status: 401, 403, 400,
    404, 409 for the five specific classes, 429 for
    [RateLimitError] (whose [retry_after] is then never zero), 500 or
    more for [ServerError], anything else below 500 for a plain
    [OpeniBankError]; a [NetworkError] is never raised here. *)
Theorem raised_class_tells_status r e :
  reads_cleanly r ->
  handle_response r = Raise (Sdk e) ->
  status_code (fields_of e) = Some (status r)
  /\ request_id (fields_of e) = headers_get (headers r) "X-Request-ID"
  /\ raised_on e (status r).
Proof.
  intros Hclean. assert (Hc := Hclean). destruct Hc as [Hj Ht].
  unfold handle_response.
  destruct (status r =? 200)%Z eqn:E200;
    [simpl; intros H; destruct (Hj e H)|].
  destruct (status r =? 201)%Z eqn:E201;
    [simpl; intros H; destruct (Hj e H)|].
  destruct (status r =? 204)%Z eqn:E204; [discriminate|]. simpl orb. cbv iota.
  apply Z.eqb_neq in E200, E201, E204.
  destruct (read_error_data_cases r Hclean)
    as [(d & _ & ->)|[(v & -> & Hget)|(x & -> & Hx)]].
  - simpl py_get. cbv iota beta.
    destruct (status r =? 401)%Z eqn:E401;
      [apply Z.eqb_eq in E401; intros [= <-]; auto|].
    destruct (status r =? 403)%Z eqn:E403;
      [apply Z.eqb_eq in E403; intros [= <-]; auto|].
    destruct (status r =? 400)%Z eqn:E400.
    { apply Z.eqb_eq in E400.
      destruct (new_ValidationError _ _) as [e0|x] eqn:Ev;
        [|intros [= H]; destruct (new_ValidationError_raises _ _ _ Ev e H)].
      destruct (new_ValidationError_class _ _ _ Ev) as [fes ->].
      intros [= <-]. auto. }
    destruct (status r =? 404)%Z eqn:E404;
      [apply Z.eqb_eq in E404; intros [= <-]; auto|].
    destruct (status r =? 409)%Z eqn:E409;
      [apply Z.eqb_eq in E409; intros [= <-]; auto|].
    destruct (status r =? 429)%Z eqn:E429.
    { apply Z.eqb_eq in E429.
      destruct (py_float _) as [x|]; [|discriminate].
      intros [= <-]. simpl. repeat split; try assumption.
      destruct (float_truthy x) eqn:Ex; [exact Ex|reflexivity]. }
    apply Z.eqb_neq in E401, E403, E400, E404, E409, E429.
    destruct (500 <=? status r)%Z eqn:E500.
    { apply Z.leb_le in E500. intros [= <-]. auto. }
    apply Z.leb_gt in E500. intros [= <-]. simpl.
    repeat split; try assumption. lia.
  - destruct (Hget "message" (JStr "Unknown error")) as (x & -> & Hx).
    intros [= H]. destruct (Hx e H).
  - intros [= H]. destruct (Hx e H).
Qed.

Lemma raised_class_tells_status_witness :
  raised_on
    (NotFoundError
       {| message := JStr "not found"; code := JNull;
          status_code := Some 404%Z; request_id := Some "req-1";
          details := JDict [] |}
       (JStr "account") (JStr "abc"))
    (status not_found_response).
Proof.
  refine (proj2 (proj2 (raised_class_tells_status not_found_response _ _
                          eq_refl))).
  split; intros e; discriminate.
Defined.

(** X12.  [handle_response] returns a payload only for the statuses
    200, 201 and 204: what [response.json()] gave for the first two,
    the empty dict for 204.  No other status, 202 and the 3xx among
    them, ever gives a result. *)
Theorem payload_only_on_success r v :
  handle_response r = Return v ->
  ((status r = 200%Z \/ status r = 201%Z) /\ json_body r = Return v)
  \/ (status r = 204%Z /\ v = JDict []).
Proof.
  unfold handle_response.
  destruct (status r =? 200)%Z eqn:E200;
    [apply Z.eqb_eq in E200; simpl; auto|].
  destruct (status r =? 201)%Z eqn:E201;
    [apply Z.eqb_eq in E201; simpl; auto|].
  destruct (status r =? 204)%Z eqn:E204;
    [apply Z.eqb_eq in E204; simpl; intros [= <-]; auto|].
  simpl orb. cbv iota.
  destruct (read_error_data r) as [d|x]; [|discriminate].
  destruct (py_get d "message" (JStr "Unknown error")); [|discriminate].
  destruct (py_get d "code" JNull); [|discriminate].
  repeat match goal with
         | |- context [if ?b then _ else _] => destruct b
         | |- context [match ?x with _ => _ end] => destruct x
         end; discriminate.
Qed.

Lemma payload_only_on_success_witness :
  let r := json_response 201 [] (JDict [("id", JStr "pay-1")]) in
  ((status r = 200%Z \/ status r = 201%Z)
   /\ json_body r = Return (JDict [("id", JStr "pay-1")]))
  \/ (status r = 204%Z /\ JDict [("id", JStr "pay-1")] = JDict []).
Proof.
  exact (payload_only_on_success
           (json_response 201 [] (JDict [("id", JStr "pay-1")]))
           (JDict [("id", JStr "pay-1")]) eq_refl).
Defined.

(** ** The calls of [AuthResource] *)

Lemma _get_session_holds w :
  exists s,
    _get_session w = (Return s, snd (_get_session w))
    /\ open_session (snd (_get_session w)) = Some s.
Proof.
  unfold _get_session. destruct (open_session w) as [i|] eqn:E.
  - exists i. split; [reflexivity|exact E].
  - exists (length (sessions w)). split; [reflexivity|].
    unfold open_session, session_closed. simpl.
    rewrite lookup_app_r by lia. rewrite Nat.sub_diag. reflexivity.
Qed.

Lemma post_keeps_open_session env s url data w :
  open_session (snd (post env s url data w)) = open_session w.
Proof.
  unfold post. destruct (token_endpoint env (posts w)); reflexivity.
Qed.

Lemma grant_post_run env c text data w :
  exists s,
    open_session (snd (_get_session w)) = Some s
    /\ grant_post env c text data w
       = (match token_endpoint env (posts w) with
          | PostRaises e => Raise e
          | PostResponds st body =>
              if negb (st =? 200)%Z then
                Raise (Sdk (AuthenticationError
                              (fields_of_message (text +:+ pretty st))))
              else match body with
                   | Raise e => Raise e
                   | Return d => from_dict d
                   end
          end,
          {| self := self (snd (_get_session w));
             sessions := sessions (snd (_get_session w));
             clock_reads := clock_reads w;
             posts := S (posts w);
             requests := requests w;
             trace := trace w
                      ++ [EvPost s (base_url c +:+ "/oauth/token") data] |}).
Proof.
  destruct (_get_session_holds w) as (s & H1 & Ho).
  destruct (_get_session_frame w) as (Ht & Hr & Hp & Hc & _).
  exists s. split; [exact Ho|].
  unfold grant_post. unfold bind at 1. rewrite H1.
  unfold bind, post. rewrite Hp, Ht, Hr, Hc.
  destruct (token_endpoint env (posts w)) as [e|st body]; [reflexivity|].
  destruct (negb (st =? 200)%Z); [reflexivity|].
  destruct body as [d|e]; [|reflexivity].
  destruct (from_dict d); reflexivity.
Qed.

Lemma grant_post_grant_call env c text data w :
  grant_call env c text data (grant_post env c text data) w.
Proof.
  destruct (grant_post_run env c text data w) as (s & Ho & Hrun).
  destruct (_get_session_frame w) as (_ & _ & _ & _ & Hcfg & Ha & He).
  unfold grant_call. rewrite Hrun. cbn [fst snd self sessions clock_reads posts
    requests trace].
  repeat split; try assumption.
  - exists s. split; [reflexivity|].
    unfold open_session, session_closed in *. exact Ho.
  - intros st body -> Hne.
    apply Z.eqb_neq in Hne. rewrite Hne. reflexivity.
  - intros t Ht.
    destruct (token_endpoint env (posts w)) as [e|st body]; [discriminate|].
    destruct (st =? 200)%Z eqn:Hst; [|discriminate].
    apply Z.eqb_eq in Hst. subst st.
    destruct body as [d|e]; [|discriminate].
    exists d. split; [reflexivity|exact Ht].
Qed.

(** X13.  [AuthResource.exchange_code] and [AuthResource.refresh_token]
    each post one form to [<base_url>/oauth/token] on the session the
    client holds, and nothing else: no transport call, no reading of
    the clock.  Neither installs what it receives: the client's token,
    its expiry and its configuration are as before the call.  A status
    other than 200 raises [AuthenticationError] with the call's own
    text and the status; a [TokenResponse] comes only from a 200 whose
    body [TokenResponse.from_dict] reads. *)
Theorem auth_calls_post_once env c code redirect_uri refresh_token w :
  grant_call env c "Failed to exchange code: "
    [("grant_type", "authorization_code");
     ("client_id", client_id c);
     ("client_secret", client_secret c);
     ("code", code);
     ("redirect_uri", redirect_uri)]
    (exchange_code env c code redirect_uri) w
  /\ grant_call env c "Failed to refresh token: "
       [("grant_type", "refresh_token");
        ("client_id", client_id c);
        ("client_secret", client_secret c);
        ("refresh_token", refresh_token)]
       (refresh_token_call env c refresh_token) w.
Proof.
  split; apply grant_post_grant_call.
Qed.

(** X14.  The authorization-code flow.  When the issuer answers the
    exchange with 200 and a body holding a non-empty string as
    [access_token], and the clock read by the request is before the
    expiry that [set_access_token] computed from the body's
    [expires_in], a whole number (3600 when the body has none), the
    request that follows sends
    [Bearer <access_token>] on every attempt, and the exchange is the
    only post of the whole flow, whatever credentials the client
    has. *)
Theorem code_flow_uses_exchanged_token env c code redirect_uri
    method path params json' key w0 d tok ei :
  token_endpoint env (posts w0) = PostResponds 200 (Return (JDict d)) ->
  items_get d "access_token" = Some (JStr tok) ->
  str_truthy tok = true ->
  default (JInt 3600) (items_get d "expires_in") = JInt ei ->
  (clock env (S (clock_reads w0))
   < clock env (clock_reads w0) + inject_Z ei - 60)%Q ->
  let w' := snd (code_flow env c code redirect_uri
                   method path params json' key w0) in
  exists s evs,
    trace w'
    = trace w0
      ++ EvPost s (base_url c +:+ "/oauth/token")
           [("grant_type", "authorization_code");
            ("client_id", client_id c);
            ("client_secret", client_secret c);
            ("code", code);
            ("redirect_uri", redirect_uri)] :: evs
    /\ posts w' = S (posts w0)
    /\ forall rq, In rq (requests_of evs) ->
         rq_headers rq !! "Authorization" = Some ("Bearer " +:+ tok).
Proof.
  intros Hend Hd Htok Hei Hlt w'.
  destruct (grant_post_run env c "Failed to exchange code: "
              [("grant_type", "authorization_code");
               ("client_id", client_id c);
               ("client_secret", client_secret c);
               ("code", code);
               ("redirect_uri", redirect_uri)] w0) as (s & _ & Hrun).
  rewrite Hend in Hrun. cbn [negb Z.eqb Pos.eqb] in Hrun.
  unfold from_dict in Hrun. rewrite Hd, Hei in Hrun.
  change (grant_post env c "Failed to exchange code: " _)
    with (exchange_code env c code redirect_uri) in Hrun.
  match type of Hrun with
  | _ = (_, ?wA) =>
      set (wB := snd (set_access_token env (JStr tok) (JInt ei) wA))
  end.
  assert (Hflow : code_flow env c code redirect_uri method path params json'
                    key w0
                  = request env method path params json' key wB).
  { unfold code_flow. unfold bind at 1. rewrite Hrun. reflexivity. }
  assert (Hf : token_is_fresh env wB).
  { split; [exact Htok|exact Hlt]. }
  destruct (request_with_fresh_token env method path params json' key wB Hf)
    as (evs & Htr & Hp & _ & Hall & _).
  subst w'. rewrite Hflow.
  exists s, evs. rewrite Htr, Hp. split; [|split; [reflexivity|exact Hall]].
  change (trace wB)
    with (trace w0
          ++ [EvPost s (base_url c +:+ "/oauth/token")
                [("grant_type", "authorization_code");
                 ("client_id", client_id c);
                 ("client_secret", client_secret c);
                 ("code", code);
                 ("redirect_uri", redirect_uri)]]).
  rewrite <- app_assoc. reflexivity.
Qed.

Lemma code_flow_uses_exchanged_token_witness :
  let env :=
    {| clock := fun _ => 1000%Q;
       token_endpoint := fun _ => PostResponds 200 (Return sample_token_data);
       transport := fun _ _ =>
         Responds (json_response 200 [] (JDict []));
     text_of := fun _ => "" |} in
  let w' := snd (code_flow env default_config "code-1" "https://app/cb"
                   "GET" "/accounts" None None None
                   (fresh_world default_config None [])) in
  posts w' = 1
  /\ map (fun rq => rq_headers rq !! "Authorization") (requests_of (trace w'))
     = [Some "Bearer abc"].
Proof.
  intros env w'.
  destruct (code_flow_uses_exchanged_token env default_config
              "code-1" "https://app/cb" "GET" "/accounts" None None None
              (fresh_world default_config None [])
              [("access_token", JStr "abc"); ("expires_in", JInt 120)]
              "abc" 120 eq_refl eq_refl eq_refl eq_refl eq_refl)
    as (s & evs & Htr & Hp & Hall).
  split; [exact Hp|]. reflexivity.
Defined.

(** ** Institutions *)

Lemma comprehension_Return {A} (f : json -> outcome A) items :
  Forall (fun item => exists a, f item = Return a) items ->
  exists l,
    comprehension f items = Return l
    /\ Forall2 (fun item a => f item = Return a) items l.
Proof.
  induction 1 as [|item items [a Ha] _ (l & Hl & Hall)].
  - exists []. split; [reflexivity|constructor].
  - exists (a :: l). simpl. rewrite Ha, Hl.
    split; [reflexivity|constructor; assumption].
Qed.

Lemma comprehension_Raise {A} (f : json -> outcome A) items :
  Exists (fun item => exists e, f item = Raise e) items ->
  exists item e,
    In item items /\ f item = Raise e /\ comprehension f items = Raise e.
Proof.
  induction 1 as [item items [e He]|item items _ (item' & e & Hin & He & Hc)].
  - exists item, e. simpl. rewrite He. auto.
  - simpl. destruct (f item) as [a|e0] eqn:Hf.
    + exists item', e. rewrite Hc. auto.
    + exists item, e0. auto.
Qed.

Lemma Institution_from_dict_has_id item :
  if has_id item then exists i, Institution_from_dict item = Return i
  else Institution_from_dict item = Raise (PyException "KeyError")
       \/ Institution_from_dict item = Raise (PyException "TypeError").
Proof.
  destruct item as [| | | | |l|d]; simpl; auto.
  destruct (items_get d "id"); eauto.
Qed.

(** X15.  What [InstitutionsResource.list] asks of the server.  Run
    by a client that has its session and its token and is allowed an
    attempt, it makes a transport call, and every call it makes is
    the same: a [GET] of [<base_url>/<api_version>/institutions]
    without a body, whose query holds [limit] and [offset], holds
    [country] and [query] exactly when they were given (an empty
    string is given), and holds nothing else. *)
Theorem institutions_list_query env country query limit offset
    w session w1 token w2 :
  _get_session w = (Return session, w1) ->
  _ensure_token env w1 = (Return token, w2) ->
  (0 < max_retries (config (self w2)))%Z ->
  exists rq evs,
    trace (snd (InstitutionsResource_list env country query limit offset w))
    = trace w2 ++ EvRequest session rq :: evs
    /\ (forall rq', In rq' (requests_of evs) -> rq' = rq)
    /\ rq_method rq = "GET"
    /\ rq_url rq
       = base_url (config (self w2)) +:+ "/"
         +:+ api_version (config (self w2)) +:+ "/institutions"
    /\ rq_json rq = None
    /\ exists p : gmap string json,
         rq_params rq = Some p
         /\ p !! "limit" = Some (JInt limit)
         /\ p !! "offset" = Some (JInt offset)
         /\ p !! "country" = JStr <$> country
         /\ p !! "query" = JStr <$> query
         /\ forall k, k <> "limit" -> k <> "offset" -> k <> "country" ->
              k <> "query" -> p !! k = None.
Proof.
  intros H1 H2 Hmax.
  set (params := <[ "country" := json_of_opt_str country ]>
                   (<[ "query" := json_of_opt_str query ]>
                      (<[ "limit" := JInt limit ]>
                         ({[ "offset" := JInt offset ]} : gmap string json)))).
  destruct (request_calls env "GET" "/institutions" (Some params) None None
              w session w1 token w2 H1 H2 Hmax) as (evs & Htr & Hall).
  eexists _, evs. split.
  { unfold InstitutionsResource_list, bind. fold params.
    destruct (request env "GET" "/institutions" (Some params) None None w)
      as [[data|e] w']; exact Htr. }
  split; [exact Hall|]. simpl.
  split; [reflexivity|]. split; [reflexivity|]. split; [reflexivity|].
  destruct (filter_params_lookup params) as (p' & Hp & Hp').
  unfold filter_params in Hp. rewrite Hp.
  exists p'. split; [reflexivity|].
  rewrite !Hp'. unfold params.
  split; [|split; [|split; [|split]]].
  - do 2 rewrite lookup_insert_ne by discriminate.
    rewrite lookup_insert_eq. reflexivity.
  - do 3 rewrite lookup_insert_ne by discriminate.
    rewrite lookup_singleton_eq. reflexivity.
  - rewrite lookup_insert_eq. destruct country; reflexivity.
  - rewrite lookup_insert_ne by discriminate.
    rewrite lookup_insert_eq. destruct query; reflexivity.
  - intros k Hk1 Hk2 Hk3 Hk4. rewrite Hp'. unfold params.
    do 3 rewrite lookup_insert_ne by congruence.
    rewrite lookup_singleton_ne by congruence. reflexivity.
Qed.

Lemma institutions_list_query_witness :
  let w := fresh_world (with_api_key default_config "k") None [] in
  let run := InstitutionsResource_list failing_env (Some "DE") None 50 0 w in
  length (requests_of (trace (snd run))) = 3
  /\ forall rq, In rq (requests_of (trace (snd run))) ->
       rq_url rq = "https://sandbox.openibank.com/v2/institutions"
       /\ exists p : gmap string json,
            rq_params rq = Some p
            /\ p !! "country" = Some (JStr "DE") /\ p !! "query" = None
            /\ p !! "limit" = Some (JInt 50) /\ p !! "offset" = Some (JInt 0).
Proof.
  intros w run.
  destruct (institutions_list_query failing_env (Some "DE") None 50 0 w 0
              (snd (_get_session w)) (JStr "k") (snd (_get_session w))
              eq_refl eq_refl eq_refl)
    as (rq & evs & Htr & Hall & _ & Hurl & _ & p & Hp & Hl & Ho & Hc & Hq & _).
  split; [vm_compute; reflexivity|].
  fold w run in Htr. rewrite Htr.
  change (trace (snd (_get_session w))) with (@nil Event).
  simpl requests_of. intros rq' Hin.
  assert (rq' = rq) as -> by (destruct Hin as [<-|Hin]; auto).
  split; [exact Hurl|]. exists p. auto.
Defined.

(** X16.  The list [InstitutionsResource.list] makes of a payload is
    all or nothing.  Without an ["institutions"] entry the list is
    empty.  With a list there, the result has one [Institution] for
    each item, in order, when every item is a dict with an ["id"];
    and a single item that is not makes the whole call raise
    [KeyError] or [TypeError]: no partial list is returned.  Any other
    entry makes it raise [TypeError], unless iterating over it gives
    nothing. *)
Theorem institutions_all_or_nothing d :
  match items_get d "institutions" with
  | None => institutions_of (JDict d) = Return []
  | Some (JList items) =>
      if forallb has_id items then
        exists l,
          institutions_of (JDict d) = Return l
          /\ Forall2 (fun item i => Institution_from_dict item = Return i)
               items l
      else
        institutions_of (JDict d) = Raise (PyException "KeyError")
        \/ institutions_of (JDict d) = Raise (PyException "TypeError")
  | Some _ =>
      institutions_of (JDict d) = Return []
      \/ institutions_of (JDict d) = Raise (PyException "TypeError")
  end.
Proof.
  unfold institutions_of, py_get.
  destruct (items_get d "institutions") as [v|]; [|reflexivity].
  destruct v as [| | | |s|items|d']; simpl; auto.
  - destruct s as [|ch s]; simpl; auto.
  - destruct (forallb has_id items) eqn:Hall.
    + apply comprehension_Return. apply List.Forall_forall. intros item Hin.
      rewrite forallb_forall in Hall. specialize (Hall item Hin).
      pose proof (Institution_from_dict_has_id item) as H.
      rewrite Hall in H. exact H.
    + assert (Hex : Exists (fun item => exists e,
                              Institution_from_dict item = Raise e) items).
      { apply List.Exists_exists.
        destruct (forallb_forall has_id items) as [_ Hb].
        destruct (existsb (fun item => negb (has_id item)) items) eqn:Hx.
        - apply existsb_exists in Hx as (item & Hin & Hn).
          exists item. split; [exact Hin|].
          pose proof (Institution_from_dict_has_id item) as H.
          apply negb_true_iff in Hn. rewrite Hn in H.
          destruct H as [H|H]; eauto.
        - exfalso. rewrite Hb in Hall; [discriminate|].
          intros item Hin. destruct (has_id item) eqn:Hi; [reflexivity|].
          assert (existsb (fun item => negb (has_id item)) items = true).
          { apply existsb_exists. exists item. rewrite Hi. auto. }
          congruence. }
      destruct (comprehension_Raise _ _ Hex) as (item & e & Hin & He & Hc).
      rewrite Hc.
      pose proof (Institution_from_dict_has_id item) as H.
      destruct (has_id item).
      * destruct H as [i Hi]. congruence.
      * destruct H as [H|H]; rewrite H in He; injection He as <-; auto.
  - destruct d' as [|[k v] d']; simpl; auto.
Qed.

(** ** Pages of transactions *)

Lemma iterate_from_pages env D account_id date_from date_to limit k :
  forall offset w (pages : nat -> list (Transaction.t D)) last fuel,
    (forall j, j < k ->
       page env D account_id date_from date_to limit offset j w
       = Return (pages j)
       /\ full_page limit (pages j)) ->
    page env D account_id date_from date_to limit offset k w = last ->
    last_page limit last ->
    k < fuel ->
    iterate_from env D account_id date_from date_to limit fuel offset w
    = ((concat (map pages (seq 0 k)) ++ yield_of last, end_of last),
       page_world env D account_id date_from date_to limit offset (S k) w).
Proof.
  induction k as [|k IH]; intros offset w pages last fuel Hfull Hlast Hend Hfuel;
    (destruct fuel as [|fuel]; [lia|]).
  - unfold page in Hlast. cbn [page_world] in Hlast.
    replace (offset + Z.of_nat 0 * limit)%Z with offset in Hlast by lia.
    cbn [iterate_from page_world].
    destruct (TransactionsResource_list env D account_id date_from date_to
                None None None limit offset w) as [o w1].
    simpl in Hlast. subst o.
    destruct last as [p|e]; [|reflexivity].
    destruct p as [|x p]; [reflexivity|].
    destruct Hend as [Hnil|Hlt]; [discriminate|].
    apply Z.ltb_lt in Hlt. rewrite Hlt. reflexivity.
  - destruct (Hfull 0 ltac:(lia)) as [H0 [Hne Hle]].
    unfold page in H0. cbn [page_world] in H0.
    replace (offset + Z.of_nat 0 * limit)%Z with offset in H0 by lia.
    cbn [iterate_from page_world].
    destruct (TransactionsResource_list env D account_id date_from date_to
                None None None limit offset w) as [o w1] eqn:Hrun.
    simpl in H0. subst o.
    destruct (pages 0) as [|x p] eqn:Hp0; [contradiction Hne; reflexivity|].
    apply Z.ltb_ge in Hle. rewrite Hle.
    rewrite (IH (offset + limit)%Z w1 (fun j => pages (S j)) last fuel).
    + cbn [snd]. f_equal. f_equal.
      change (seq 0 (S k)) with (0 :: seq 1 k). cbn [map concat].
      rewrite Hp0, <- seq_shift, List.map_map, <- app_assoc. reflexivity.
    + intros j Hj. destruct (Hfull (S j) ltac:(lia)) as [Hj1 Hj2].
      split; [|exact Hj2]. rewrite <- Hj1. unfold page.
      cbn [page_world]. rewrite Hrun. cbn [snd].
      replace (offset + limit + Z.of_nat j * limit)%Z
        with (offset + Z.of_nat (S j) * limit)%Z by lia.
      reflexivity.
    + rewrite <- Hlast. unfold page. cbn [page_world]. rewrite Hrun. cbn [snd].
      replace (offset + limit + Z.of_nat k * limit)%Z
        with (offset + Z.of_nat (S k) * limit)%Z by lia.
      reflexivity.
    + exact Hend.
    + lia.
Qed.

(** X17.  [TransactionsResource.iterate], consumed to its end: when
    the first [k] pages asked are full (not empty, and not shorter
    than [limit]) and the answer to the next request ends the loop (a
    page that is empty or shorter than [limit], or an exception), the
    generator yields the [k] pages in order, then the last page if
    there is one, and then finishes, or raises that exception after
    the transactions of the earlier pages were yielded.  It asks for
    [k + 1] pages and no more. *)
Theorem iterate_yields_pages env D account_id date_from date_to limit
    w0 k (pages : nat -> list (Transaction.t D)) last fuel :
  (forall j, j < k ->
     page env D account_id date_from date_to limit 0 j w0 = Return (pages j)
     /\ full_page limit (pages j)) ->
  page env D account_id date_from date_to limit 0 k w0 = last ->
  last_page limit last ->
  k < fuel ->
  TransactionsResource_iterate env D account_id date_from date_to limit
    fuel w0
  = ((concat (map pages (seq 0 k)) ++ yield_of last, end_of last),
     page_world env D account_id date_from date_to limit 0 (S k) w0).
Proof.
  intros Hfull Hlast Hend Hfuel. unfold TransactionsResource_iterate.
  apply iterate_from_pages; assumption.
Qed.

Lemma iterate_yields_pages_witness :
  let w0 := fresh_world (with_api_key default_config "k") None [] in
  let run := TransactionsResource_iterate paged_env text_dates "acc-1"
               None None 2 10 w0 in
  map Transaction.id (fst (fst run)) = [JStr "t1"; JStr "t2"; JStr "t3"]
  /\ snd (fst run) = Exhausted
  /\ length (requests_of (trace (snd run))) = 2.
Proof.
  intros w0 run.
  pose (pages := fun j : nat =>
          match j with
          | 0 => yield_of (page paged_env text_dates "acc-1" None None 2 0 0 w0)
          | _ => []
          end).
  assert (H := iterate_yields_pages paged_env text_dates "acc-1" None None 2
                 w0 1 pages
                 (page paged_env text_dates "acc-1" None None 2 0 1 w0) 10).
  fold run in H. rewrite H.
  - vm_compute. repeat split.
  - intros j Hj. assert (j = 0) as -> by lia.
    split; [vm_compute; reflexivity|]. split; [vm_compute; discriminate|].
    vm_compute. discriminate.
  - reflexivity.
  - vm_compute. right. reflexivity.
  - lia.
Defined.

Lemma request_keeps_config env method path params json' key w :
  config (self (snd (request env method path params json' key w)))
  = config (self w).
Proof.
  apply (request_preserves env (fun x => config (self x) = config (self w)));
    try reflexivity; try (intros; intros ? ?; assumption).
  - intros x Hx. destruct (_get_session_frame x) as (_ & _ & _ & _ & Hc & _).
    rewrite Hc. exact Hx.
  - intros s' url data w1 H1. unfold post.
    destruct (token_endpoint env (posts w1)); exact H1.
  - intros; assumption.
  - intros; assumption.
Qed.

Lemma page_params_lookup D date_from date_to limit offset :
  exists p : gmap string json,
    filter_params
      (Some (transactions_params D date_from date_to None None None
               limit offset)) = Some p
    /\ p !! "limit" = Some (JInt limit)
    /\ p !! "offset" = Some (JInt offset)
    /\ p !! "date_from" = (fun d => JStr (date_isoformat D d)) <$> date_from
    /\ p !! "date_to" = (fun d => JStr (date_isoformat D d)) <$> date_to
    /\ p !! "amount_min" = None
    /\ p !! "amount_max" = None
    /\ p !! "booking_status" = None.
Proof.
  destruct (filter_params_lookup
              (transactions_params D date_from date_to None None None
                 limit offset)) as (p & Hp & Hl).
  exists p. split; [exact Hp|].
  rewrite !Hl. unfold transactions_params.
  split; [|split; [|split; [|split; [|split; [|split]]]]].
  - do 5 rewrite lookup_insert_ne by discriminate.
    rewrite lookup_insert_eq. reflexivity.
  - do 6 rewrite lookup_insert_ne by discriminate.
    rewrite lookup_singleton_eq. reflexivity.
  - rewrite lookup_insert_eq. destruct date_from; reflexivity.
  - rewrite lookup_insert_ne by discriminate.
    rewrite lookup_insert_eq. destruct date_to; reflexivity.
  - do 2 rewrite lookup_insert_ne by discriminate.
    rewrite lookup_insert_eq. reflexivity.
  - do 3 rewrite lookup_insert_ne by discriminate.
    rewrite lookup_insert_eq. reflexivity.
  - do 4 rewrite lookup_insert_ne by discriminate.
    rewrite lookup_insert_eq. reflexivity.
Qed.

Lemma TransactionsResource_list_page env D account_id date_from date_to
    limit offset w :
  let w' := snd (TransactionsResource_list env D account_id date_from date_to
                   None None None limit offset w) in
  config (self w') = config (self w)
  /\ exists evs,
       trace w' = trace w ++ evs
       /\ forall rq, In rq (requests_of evs) ->
            page_request D (config (self w)) account_id date_from date_to
              limit offset rq.
Proof.
  set (path := "/accounts/" +:+ account_id +:+ "/transactions").
  set (params := transactions_params D date_from date_to None None None
                   limit offset).
  assert (Hsnd : snd (TransactionsResource_list env D account_id date_from
                        date_to None None None limit offset w)
                 = snd (request env "GET" path (Some params) None None w)).
  { unfold TransactionsResource_list, bind. fold path params.
    destruct (request env "GET" path (Some params) None None w)
      as [[data|e] w1]; reflexivity. }
  cbv zeta. rewrite Hsnd. split; [apply request_keeps_config|].
  destruct (request_events env "GET" path (Some params) None None w)
    as (evs & token & Htr & Hall).
  exists evs. split; [exact Htr|].
  intros rq Hin. rewrite (Hall rq Hin).
  destruct (page_params_lookup D date_from date_to limit offset)
    as (p & Hp & Hl).
  unfold page_request, call_of. cbn [rq_method rq_url rq_json rq_params].
  repeat split. exists p. split; [exact Hp|exact Hl].
Qed.

(** With an [api_key], [_ensure_token] returns a token and sends
    nothing. *)
Lemma _ensure_token_api_key env w :
  opt_str_truthy (api_key (config (self w))) = true ->
  exists token w',
    _ensure_token env w = (Return token, w')
    /\ self w' = self w /\ trace w' = trace w.
Proof.
  intros Hkey.
  destruct (py_truthy (_access_token (self w))
            && before (clock env (clock_reads w))
                 (_token_expires_at (self w))) eqn:E.
  - apply andb_prop in E as [Ha Hb].
    assert (Hf : token_is_fresh env w)
      by (split; [exact Ha|apply before_is_before, Hb]).
    destruct (_ensure_token_fresh env w Hf) as (w' & Hrun & Hs & Ht & _).
    eauto.
  - assert (Hn : ~ token_is_fresh env w).
    { intros [Ha Hb]. apply before_is_before in Hb.
      rewrite Ha, Hb in E. discriminate. }
    destruct (_ensure_token_stale env w Hn) as (w0 & -> & Hs & _ & Ht & _).
    exists (json_of_opt_str (api_key (config (self w)))), w0.
    unfold after_stale, bind, get_self, ret. rewrite Hs, Hkey. auto.
Qed.

(** One page asked by a client with an [api_key] that is allowed an
    attempt: a transport call is made, and every call made for the
    page is the request for it. *)
Lemma TransactionsResource_list_calls env D account_id date_from date_to
    limit offset w :
  opt_str_truthy (api_key (config (self w))) = true ->
  (0 < max_retries (config (self w)))%Z ->
  exists s rq evs,
    trace (snd (TransactionsResource_list env D account_id date_from date_to
                  None None None limit offset w))
    = trace w ++ EvRequest s rq :: evs
    /\ page_request D (config (self w)) account_id date_from date_to
         limit offset rq
    /\ forall rq', In rq' (requests_of evs) -> rq' = rq.
Proof.
  intros Hkey Hmax.
  set (path := "/accounts/" +:+ account_id +:+ "/transactions").
  set (params := transactions_params D date_from date_to None None None
                   limit offset).
  destruct (_get_session_returns w) as [session H1].
  destruct (_get_session_frame w) as (Ht1 & _ & _ & _ & Hc1 & _).
  set (w1 := snd (_get_session w)) in *.
  destruct (_ensure_token_api_key env w1) as (token & w2 & H2 & Hs2 & Ht2).
  { rewrite Hc1. exact Hkey. }
  destruct (request_calls env "GET" path (Some params) None None
              w session w1 token w2 H1 H2) as (evs & Htr & Hall).
  { rewrite Hs2, Hc1. exact Hmax. }
  eexists session, _, evs. split; [|split; [|exact Hall]].
  - unfold TransactionsResource_list, bind. fold path params.
    destruct (request env "GET" path (Some params) None None w)
      as [[data|e] w']; simpl in *; rewrite Htr, Ht2, Ht1; reflexivity.
  - destruct (page_params_lookup D date_from date_to limit offset)
      as (p & Hp & Hl).
    unfold page_request, call_of. cbn [rq_method rq_url rq_json rq_params].
    rewrite Hs2, Hc1. repeat split. exists p. split; [exact Hp|exact Hl].
Qed.

Lemma page_world_S env D account_id date_from date_to limit j :
  forall offset w,
    page_world env D account_id date_from date_to limit offset (S j) w
    = snd (TransactionsResource_list env D account_id date_from date_to
             None None None limit (offset + Z.of_nat j * limit)%Z
             (page_world env D account_id date_from date_to limit offset j w)).
Proof.
  induction j as [|j IH]; intros offset w.
  - cbn [page_world].
    replace (offset + Z.of_nat 0 * limit)%Z with offset by lia. reflexivity.
  - change (page_world env D account_id date_from date_to limit offset
              (S (S j)) w)
      with (page_world env D account_id date_from date_to limit
              (offset + limit)%Z (S j)
              (snd (TransactionsResource_list env D account_id date_from
                      date_to None None None limit offset w))).
    rewrite IH. cbn [page_world].
    replace (offset + limit + Z.of_nat j * limit)%Z
      with (offset + Z.of_nat (S j) * limit)%Z by lia.
    reflexivity.
Qed.

Lemma page_world_config env D account_id date_from date_to limit j :
  forall offset w,
    config (self (page_world env D account_id date_from date_to limit
                    offset j w))
    = config (self w).
Proof.
  induction j as [|j IH]; intros offset w; [reflexivity|].
  cbn [page_world]. rewrite IH.
  apply (TransactionsResource_list_page env D account_id date_from date_to
           limit offset w).
Qed.

(** The loop asks its pages one after the other: after it, the world
    is the one in which a further page would be asked. *)
Lemma iterate_from_pages_asked env D account_id date_from date_to limit fuel :
  forall offset w,
    0 < fuel ->
    exists n,
      1 <= n <= fuel
      /\ snd (iterate_from env D account_id date_from date_to limit
                fuel offset w)
         = page_world env D account_id date_from date_to limit offset n w.
Proof.
  induction fuel as [|fuel IH]; intros offset w Hfuel; [lia|].
  cbn [iterate_from].
  destruct (TransactionsResource_list env D account_id date_from date_to
              None None None limit offset w) as [[txs|e] w1] eqn:Hrun.
  - assert (Hone : page_world env D account_id date_from date_to limit
                     offset 1 w = w1)
      by (cbn [page_world]; rewrite Hrun; reflexivity).
    destruct txs as [|tx txs]; [exists 1; split; [lia|]; symmetry; exact Hone|].
    destruct (Z.of_nat (length (tx :: txs)) <? limit)%Z;
      [exists 1; split; [lia|]; symmetry; exact Hone|].
    destruct fuel as [|fuel].
    + exists 1. split; [lia|]. symmetry. exact Hone.
    + destruct (IH (offset + limit)%Z w1 ltac:(lia)) as (n & Hn & Hw).
      destruct (iterate_from env D account_id date_from date_to limit
                  (S fuel) (offset + limit)%Z w1) as [[rest e] w2].
      exists (S n). split; [lia|]. cbn [snd] in Hw |- *.
      cbn [page_world]. rewrite Hrun. exact Hw.
  - exists 1. split; [lia|]. cbn [page_world]. rewrite Hrun. reflexivity.
Qed.

(** X18.  [TransactionsResource.iterate], run by a client with an
    [api_key] that is allowed an attempt, and consumed: it asks for
    [n >= 1] pages, one after the other, [n] within the consumer's
    budget; for its [j]-th page it makes at least one transport call,
    and every call it makes for that page is the same: a [GET] of
    [<base_url>/<api_version>/accounts/<account_id>/transactions]
    without a body, whose query holds [limit], the offset
    [j * limit], the dates given (as [isoformat] writes them), and no
    filter on the amount or on the booking status. *)
Theorem iterate_requests env D account_id date_from date_to limit fuel w :
  opt_str_truthy (api_key (config (self w))) = true ->
  (0 < max_retries (config (self w)))%Z ->
  0 < fuel ->
  exists n,
    1 <= n <= fuel
    /\ snd (TransactionsResource_iterate env D account_id date_from date_to
              limit fuel w)
       = page_world env D account_id date_from date_to limit 0 n w
    /\ forall j, j < n ->
         exists s rq evs,
           trace (page_world env D account_id date_from date_to limit 0
                    (S j) w)
           = trace (page_world env D account_id date_from date_to limit 0 j w)
             ++ EvRequest s rq :: evs
           /\ page_request D (config (self w)) account_id date_from date_to
                limit (Z.of_nat j * limit)%Z rq
           /\ forall rq', In rq' (requests_of evs) -> rq' = rq.
Proof.
  intros Hkey Hmax Hfuel.
  destruct (iterate_from_pages_asked env D account_id date_from date_to limit
              fuel 0%Z w Hfuel) as (n & Hn & Hw).
  exists n. split; [exact Hn|]. split; [exact Hw|].
  intros j Hj. rewrite page_world_S.
  pose proof (page_world_config env D account_id date_from date_to limit j
                0%Z w) as Hc.
  destruct (TransactionsResource_list_calls env D account_id date_from date_to
              limit (0 + Z.of_nat j * limit)%Z
              (page_world env D account_id date_from date_to limit 0 j w))
    as (s & rq & evs & Htr & Hrq & Hall).
  { rewrite Hc. exact Hkey. }
  { rewrite Hc. exact Hmax. }
  exists s, rq, evs. rewrite Hc in Hrq. auto.
Qed.

Lemma iterate_requests_witness :
  let w := fresh_world (with_api_key default_config "k") None [] in
  let run := TransactionsResource_iterate paged_env text_dates "acc-1"
               None None 2 10 w in
  exists n,
    1 <= n <= 10
    /\ snd run = page_world paged_env text_dates "acc-1" None None 2 0 n w
    /\ map (fun rq => (rq_url rq,
                       match rq_params rq with
                       | Some p => p !! "offset"
                       | None => None
                       end))
         (requests_of (trace (snd run)))
       = [("https://sandbox.openibank.com/v2/accounts/acc-1/transactions",
           Some (JInt 0));
          ("https://sandbox.openibank.com/v2/accounts/acc-1/transactions",
           Some (JInt 2))].
Proof.
  intros w run.
  destruct (iterate_requests paged_env text_dates "acc-1" None None 2 10 w
              eq_refl eq_refl ltac:(lia)) as (n & Hn & Hw & _).
  exists n. split; [exact Hn|]. split; [exact Hw|].
  vm_compute. reflexivity.
Defined.
